(** * Fluent Python notebooks: the card deck, the 2D vector, the word-index
    scripts and the string-keyed mapping, embedded and verified.

    The notebooks of the repository define a handful of small Python
    programs.  Each is embedded below as Rocq functions that follow the
    Python text: objects that are mutated live in an explicit state,
    exceptions are results of the computation, and the parts of the Python
    runtime the programs lean on (dict, list, [collections.UserDict],
    [collections.defaultdict], [str]) are modelled next to them. *)

From Stdlib Require Import ZArith List Ascii String DecimalString Lia.
From Stdlib Require OrderedTypeEx.
From stdpp Require Import base tactics option list strings sorting.

Local Open Scope Z_scope.
Local Open Scope string_scope.

(** ** Python values used as keys and the exceptions the programs raise *)

(** The hashable built-in values the notebooks use as dictionary keys:
    [None], [bool], [int] and [str]. *)
Inductive pyval : Type :=
  | PNone
  | PBool (b : bool)
  | PInt (n : Z)
  | PStr (s : string).

#[global] Instance pyval_eq_dec : EqDecision pyval.
Proof. solve_decision. Defined.

Inductive exn : Type :=
  | KeyError (key : pyval)
  | IndexError
  | ValueError
  | TypeError
  | AttributeError.

#[global] Instance exn_eq_dec : EqDecision exn.
Proof. solve_decision. Defined.

(** What evaluating a Python expression yields: a value or a raised
    exception. *)
Inductive result (A : Type) : Type :=
  | Ok (a : A)
  | Raise (e : exn).
Arguments Ok {A} a.
Arguments Raise {A} e.

#[global] Instance result_eq_dec {A} `{EqDecision A} : EqDecision (result A).
Proof. solve_decision. Defined.

#[global] Instance result_ret : MRet result := @Ok.
#[global] Instance result_bind : MBind result := fun A B f r =>
  match r with
  | Ok a => f a
  | Raise e => Raise e
  end.

(** Code that reads and writes objects: a function of the state [S] those
    objects live in, to a result and the state left behind.  A raised
    exception keeps the state reached when it was raised. *)
Definition Py (S A : Type) : Type := S -> result A * S.

#[global] Instance Py_ret {S} : MRet (Py S) := fun A a s => (Ok a, s).
#[global] Instance Py_bind {S} : MBind (Py S) := fun A B f m s =>
  match m s with
  | (Ok a, s') => f a s'
  | (Raise e, s') => (Raise e, s')
  end.

Definition raise {S A} (e : exn) : Py S A := fun s => (Raise e, s).
Definition read {S A} (f : S -> A) : Py S A := fun s => (Ok (f s), s).
Definition write {S} (f : S -> S) : Py S unit := fun s => (Ok tt, f s).
Definition lift {S A} (r : result A) : Py S A := fun s => (r, s).

(** [for x in l: body(x)] *)
Fixpoint for_each {S A} (l : list A) (body : A -> Py S unit) : Py S unit :=
  match l with
  | [] => mret tt
  | x :: l' => body x ;; for_each l' body
  end.

(** [isinstance(key, str)] *)
Definition isinstance_str (key : pyval) : bool :=
  match key with PStr _ => true | _ => false end.

(** [str(key)]: the text of a string is itself, an [int] prints in decimal
    with a leading minus sign when negative, [bool] and [None] print their
    names. *)
Definition str (key : pyval) : string :=
  match key with
  | PNone => "None"
  | PBool true => "True"
  | PBool false => "False"
  | PInt n => NilZero.string_of_int (Z.to_int n)
  | PStr s => s
  end.

(** [a == b] on keys.  [bool] is a subclass of [int]: [True == 1] and
    [False == 0], with equal hashes, so a dict sees them as one key.  A
    string equals only the same string. *)
Definition int_of_bool (b : bool) : Z := if b then 1 else 0.

Definition py_eq (a b : pyval) : bool :=
  match a, b with
  | PNone, PNone => true
  | PStr s, PStr t => bool_decide (s = t)
  | PInt n, PInt m => bool_decide (n = m)
  | PBool x, PBool y => bool_decide (x = y)
  | PBool x, PInt m => bool_decide (int_of_bool x = m)
  | PInt n, PBool y => bool_decide (n = int_of_bool y)
  | _, _ => false
  end.

(** The value [==] compares: a [bool] read as the [int] it is. *)
Definition as_number (a : pyval) : pyval :=
  match a with
  | PBool b => PInt (int_of_bool b)
  | _ => a
  end.

(** ** The built-in [dict]

    A dict is an association list in insertion order, holding at most one
    entry per key (up to [==]).  Storing under a key that is present keeps
    the entry's place and its original key object and replaces the value.
    Iteration follows insertion order, as the language guarantees from
    Python 3.7 on. *)
Module PyDict.

Definition dict (V : Type) : Type := list (pyval * V).

Section Ops.
Context {V : Type}.

(** the entry found by hashing and comparing with [==] *)
Fixpoint find (d : dict V) (key : pyval) : option V :=
  match d with
  | [] => None
  | (k, v) :: d' => if py_eq k key then Some v else find d' key
  end.

(** [key in d] *)
Definition contains (d : dict V) (key : pyval) : bool :=
  match find d key with Some _ => true | None => false end.

(** [d[key]] *)
Definition getitem (d : dict V) (key : pyval) : result V :=
  match find d key with
  | Some v => Ok v
  | None => Raise (KeyError key)
  end.

(** [d.get(key, default)] *)
Definition get (d : dict V) (key : pyval) (default : V) : V :=
  match find d key with
  | Some v => v
  | None => default
  end.

(** [d[key] = value] *)
Fixpoint setitem (d : dict V) (key : pyval) (value : V) : dict V :=
  match d with
  | [] => [(key, value)]
  | (k, v) :: d' =>
      if py_eq k key then (k, value) :: d'
      else (k, v) :: setitem d' key value
  end.

(** [d.setdefault(key, default)]: the value found, or [default] after
    storing it. *)
Definition setdefault (d : dict V) (key : pyval) (default : V)
  : V * dict V :=
  match find d key with
  | Some v => (v, d)
  | None => (default, setitem d key default)
  end.

(** iterating a dict yields its keys in insertion order *)
Definition keys (d : dict V) : list pyval := map fst d.

End Ops.

End PyDict.

(** Runs the plumbing of [Py] in a goal. *)
Ltac py_run :=
  unfold mbind, Py_bind, mret, Py_ret, read, write, lift, raise; simpl.

(** ** Built-in functions on lists and strings *)

(** [len(l)] *)
Definition len {A} (l : list A) : Z := Z.of_nat (length l).

(** [range(a, b)] *)
Definition range (a b : Z) : list Z :=
  map (fun i => a + Z.of_nat i)%Z (seq 0 (Z.to_nat (b - a))).

(** What stands between the brackets of [l[...]]: an integer, or a slice
    [start:stop:step] with any of its three parts left out. *)
Inductive position : Type :=
  | Index (i : Z)
  | Slice (start stop step : option Z).

(** What [l[...]] returns: one item for an integer, a new list for a
    slice. *)
Inductive subscript (A : Type) : Type :=
  | Item (a : A)
  | Items (l : list A).
Arguments Item {A} a.
Arguments Items {A} l.

(** [l[i]]: a negative index counts from the end; an index outside
    [-len(l) .. len(l) - 1] raises [IndexError]. *)
Definition list_getitem {A} (l : list A) (i : Z) : result A :=
  let j := (if i <? 0 then i + len l else i)%Z in
  if ((j <? 0) || (len l <=? j))%Z then Raise IndexError
  else match l !! Z.to_nat j with
       | Some x => Ok x
       | None => Raise IndexError
       end.

(** [slice(start, stop, step).indices(n)]: a step of zero is a
    [ValueError]; a negative bound counts from the end; bounds are clipped
    to the list, and a missing bound is the end the step walks from or
    to. *)
Definition slice_indices (start stop step : option Z) (n : Z)
  : result (Z * Z * Z) :=
  let step := default 1%Z step in
  if (step =? 0)%Z then Raise ValueError
  else
    let lower := (if step <? 0 then -1 else 0)%Z in
    let upper := (if step <? 0 then n - 1 else n)%Z in
    let clip v := (if v <? 0 then Z.max (v + n) lower else Z.min v upper)%Z in
    let start := match start with
                 | Some v => clip v
                 | None => (if step <? 0 then upper else lower)%Z
                 end in
    let stop := match stop with
                | Some v => clip v
                | None => (if step <? 0 then lower else upper)%Z
                end in
    Ok (start, stop, step).

(** [l[start:stop:step]]: the items at [start], [start + step], ... short of
    [stop], in a new list *)
Definition list_getslice {A} (l : list A) (start stop step : option Z)
  : result (list A) :=
  '(start, stop, step) ← slice_indices start stop step (len l);
  let count :=
    (if step <? 0
     then (if stop <? start then (start - stop - 1) / (- step) + 1 else 0)
     else (if start <? stop then (stop - start - 1) / step + 1 else 0))%Z in
  Ok (omap (fun k => l !! Z.to_nat (start + Z.of_nat k * step)%Z)
           (seq 0 (Z.to_nat count))).

(** [l[position]] *)
Definition list_subscript {A} (l : list A) (p : position)
  : result (subscript A) :=
  match p with
  | Index i => a ← list_getitem l i; Ok (Item a)
  | Slice start stop step => r ← list_getslice l start stop step; Ok (Items r)
  end.

(** [l.index(x)]: the first position holding [x], or [ValueError]. *)
Fixpoint list_index (l : list string) (x : string) : result Z :=
  match l with
  | [] => Raise ValueError
  | y :: l' =>
      if bool_decide (y = x) then Ok 0%Z
      else i ← list_index l' x; Ok (i + 1)%Z
  end.

(** [list(s)]: the characters of [s], each a string of length one *)
Fixpoint list_of_str (s : string) : list string :=
  match s with
  | EmptyString => []
  | String c s' => String c EmptyString :: list_of_str s'
  end.

(** [c.isspace()] on the ASCII range *)
Definition isspace (c : ascii) : bool :=
  let n := nat_of_ascii c in
  ((9 <=? n) && (n <=? 13) || (28 <=? n) && (n <=? 32))%nat.

(** [s.split()]: the maximal runs of characters that are not whitespace *)
Fixpoint split_from (cur : string) (s : string) : list string :=
  match s with
  | EmptyString => if bool_decide (cur = "") then [] else [cur]
  | String c s' =>
      if isspace c
      then (if bool_decide (cur = "") then split_from "" s'
            else cur :: split_from "" s')
      else split_from (cur ++ String c "") s'
  end.

Definition split (s : string) : list string := split_from "" s.

(** ** Chapter 1: the card deck *)
Module Deck.

(** [Card = collections.namedtuple('Card', ['rank', 'suit'])] *)
Record Card : Type := mkCard { rank : string; suit : string }.

#[global] Instance Card_eq_dec : EqDecision Card.
Proof. solve_decision. Defined.

(** class attributes of [FrenchDeck] *)
Definition ranks : list string :=
  map (fun n => str (PInt n)) (range 2 11) ++ list_of_str "JQKA".

Definition suits : list string := split "spades diamonds clubs hearts".

(** an instance holds one attribute, the list [_cards] *)
Record FrenchDeck : Type := { _cards : list Card }.

Definition __init__ : FrenchDeck :=
  {| _cards := flat_map (fun suit => map (fun rank => mkCard rank suit) ranks)
                        suits |}.

Definition __len__ : Py FrenchDeck Z :=
  cards ← read _cards; mret (len cards).

Definition __getitem__ (position : position)
  : Py FrenchDeck (subscript Card) :=
  cards ← read _cards; lift (list_subscript cards position).

(** [for card in deck]: the class has no [__iter__], so the deck is iterated
    through [__getitem__], called with 0, 1, 2, ... until it raises
    [IndexError]; any other exception ends the loop and is raised.  The
    items the loop sees from [position] on; [calls] bounds the calls of
    [__getitem__], and [None] is the answer when they are used up. *)
Fixpoint iterate (calls : nat) (position : Z)
  : Py FrenchDeck (option (list (subscript Card))) :=
  match calls with
  | O => mret None
  | S calls' => fun self =>
      match __getitem__ (Index position) self with
      | (Ok card, self') =>
          (rest ← iterate calls' (position + 1)%Z;
           mret (cons card <$> rest)) self'
      | (Raise IndexError, self') => (Ok (Some []), self')
      | (Raise e, self') => (Raise e, self')
      end
  end.

(** [suit_values = dict(spades=3, hearts=2, diamonds=1, clubs=0)] *)
Definition suit_values : PyDict.dict Z :=
  fold_left (fun d kv => PyDict.setitem d (PStr (fst kv)) (snd kv))
    [("spades", 3%Z); ("hearts", 2%Z); ("diamonds", 1%Z); ("clubs", 0%Z)] [].

Definition spades_high (card : Card) : result Z :=
  rank_value ← list_index ranks (rank card);
  suit_value ← PyDict.getitem suit_values (PStr (suit card));
  Ok (rank_value * len suit_values + suit_value)%Z.

End Deck.

(** ** Chapter 1: the 2D vector

    The components are Python numbers; the class only adds and multiplies
    them, hands them to [math.hypot] and tests the result for truth.  The
    numbers and these operations are an interface, so that the class reads
    the same for [int] and [float] components.  Vector objects live in a
    store and are named by their position in it: creating one appends to the
    store. *)
Module Vec.

Class Number (num : Type) : Type := {
  zero : num;                      (* the literal [0] *)
  add : num -> num -> num;         (* [a + b] *)
  mul : num -> num -> num;         (* [a * b] *)
  is_zero : num -> bool;           (* [a == 0] *)
  hypot : num -> num -> num;       (* [math.hypot(a, b)] *)
  repr : num -> string             (* [repr(a)] *)
}.

(** a vector object is named by its position in the store *)
Abbreviation ref := nat (only parsing).

Section Class.
Context {num : Type} `{Number num}.

Record Vector : Type := mkVector { x : num; y : num }.

Definition store : Type := list Vector.

(** [self.x], [self.y]: reading an attribute of an object that is not a
    vector raises [AttributeError]. *)
Definition getattr {A} (self : ref) (field : Vector -> A) : Py store A :=
  objects ← read id;
  match objects !! self with
  | Some v => mret (field v)
  | None => raise AttributeError
  end.

(** [Vector(x, y)]: a new object, initialised by [__init__] *)
Definition __init__ (x y : option num) : Py store ref :=
  let x := default zero x in
  let y := default zero y in
  self ← read (@length Vector);
  write (fun objects => (objects ++ [mkVector x y])%list);;
  mret self.

Definition __repr__ (self : ref) : Py store string :=
  a ← getattr self x;
  b ← getattr self y;
  mret ("Vector(" ++ repr a ++ ", " ++ repr b ++ ")").

Definition __abs__ (self : ref) : Py store num :=
  a ← getattr self x;
  b ← getattr self y;
  mret (hypot a b).

(** [bool(abs(self))]: [self] is a vector, so the built-in [abs] calls
    [__abs__] above; what [abs] does with an object of another class is not
    this class's to say, and nothing is stated of it.  [bool(n)] of a number
    is [n != 0]. *)
Definition __bool__ (self : ref) : Py store bool :=
  n ← __abs__ self;
  mret (negb (is_zero n)).

Definition __add__ (self other : ref) : Py store ref :=
  a ← getattr self x;
  b ← getattr other x;
  let x := add a b in
  c ← getattr self y;
  d ← getattr other y;
  let y := add c d in
  __init__ (Some x) (Some y).

Definition __mul__ (self : ref) (scalar : num) : Py store ref :=
  a ← getattr self x;
  b ← getattr self y;
  __init__ (Some (mul a scalar)) (Some (mul b scalar)).

End Class.

Arguments Vector num : clear implicits.
Arguments store num : clear implicits.

(** Integer components, to run the class on the vectors of the notebook.
    The hypotenuse is rounded down to an integer here: [math.hypot] itself
    returns a [float]. *)
#[global] Instance int_number : Number Z := {|
  zero := 0%Z;
  add := Z.add;
  mul := Z.mul;
  is_zero := fun a => (a =? 0)%Z;
  hypot := fun a b => Z.sqrt (a * a + b * b);
  repr := fun a => str (PInt a)
|}.

End Vec.

(** ** Chapter 3: the word-index scripts (Examples 3-2, 3-4 and 3-5)

    The three scripts read a text line by line, find the words of every line
    with the pattern [\w+] and record where each occurs; then they print the
    index sorted by the upper-cased word.  They differ in how the list of
    occurrences of a word is fetched: [dict.get] and a second store,
    [dict.setdefault], or a [collections.defaultdict].

    The occurrence lists are Python list objects, appended to in place while
    the dict holds references to them: the state keeps a heap of list objects
    next to the dict [index] and the lines printed so far.  The file is
    given as the list of its lines, and text is ASCII: [\w] and [str.upper]
    are modelled on that range. *)
Module WordIndex.

Definition location : Type := Z * Z.

(** a list object is named by its position in the heap *)
Abbreviation ref := nat (only parsing).

Record state : Type := {
  heap : list (list location);    (* the list objects created so far *)
  index : PyDict.dict ref;        (* the variable [index] *)
  stdout : list string            (* the lines printed so far *)
}.

Definition set_heap (f : list (list location) -> list (list location))
    (s : state) : state :=
  {| heap := f (heap s); index := index s; stdout := stdout s |}.
Definition set_index (f : PyDict.dict ref -> PyDict.dict ref)
    (s : state) : state :=
  {| heap := heap s; index := f (index s); stdout := stdout s |}.
Definition set_stdout (f : list string -> list string) (s : state) : state :=
  {| heap := heap s; index := index s; stdout := f (stdout s) |}.

Definition initial : state := {| heap := []; index := []; stdout := [] |}.

(** *** list objects *)

(** [[]] or [list()]: a new, empty list object *)
Definition new_list : Py state ref :=
  r ← read (fun s => length (heap s));
  write (set_heap (fun h => (h ++ [[]])%list));;
  mret r.

(** [l.append(x)], in place *)
Definition list_append (l : ref) (x : location) : Py state unit :=
  h ← read heap;
  match h !! l with
  | Some items => write (set_heap (fun h => <[l := (items ++ [x])%list]> h))
  | None => raise AttributeError
  end.

(** the items of a list object *)
Definition list_items (l : ref) : Py state (list location) :=
  h ← read heap;
  match h !! l with
  | Some items => mret items
  | None => raise AttributeError
  end.

(** *** the dict [index] *)

(** [index[key]] on a plain dict *)
Definition index_getitem (key : pyval) : Py state ref :=
  d ← read index; lift (PyDict.getitem d key).

(** [index.get(key, default)] *)
Definition index_get (key : pyval) (default : ref) : Py state ref :=
  d ← read index; mret (PyDict.get d key default).

(** [index[key] = value] *)
Definition index_setitem (key : pyval) (value : ref) : Py state unit :=
  write (set_index (fun d => PyDict.setitem d key value)).

(** [index.setdefault(key, default)] *)
Definition index_setdefault (key : pyval) (default : ref) : Py state ref :=
  d ← read index;
  let '(value, d') := PyDict.setdefault d key default in
  write (set_index (fun _ => d'));;
  mret value.

(** [defaultdict.__missing__]: without a [default_factory] the usual
    [KeyError]; with one, its value is stored under the key and returned. *)
Definition defaultdict_missing (default_factory : option (Py state ref))
    (key : pyval) : Py state ref :=
  match default_factory with
  | None => raise (KeyError key)
  | Some factory =>
      value ← factory;
      index_setitem key value;;
      mret value
  end.

(** [index[key]] on a [defaultdict] *)
Definition defaultdict_getitem (default_factory : option (Py state ref))
    (key : pyval) : Py state ref :=
  d ← read index;
  match PyDict.find d key with
  | Some value => mret value
  | None => defaultdict_missing default_factory key
  end.

(** *** reading the text *)

(** the class [\w] on ASCII: letters, digits and the underscore *)
Definition word_char (c : ascii) : bool :=
  let n := nat_of_ascii c in
  ((48 <=? n) && (n <=? 57) || (65 <=? n) && (n <=? 90)
   || (n =? 95) || (97 <=? n) && (n <=? 122))%nat.

(** [WORD_RE.finditer(line)]: the maximal runs of word characters from left
    to right, each with the position it starts at ([match.start()]) and its
    text ([match.group()]).  [cur] is the run being read. *)
Fixpoint finditer_from (pos : Z) (cur : option (Z * string)) (line : string)
  : list (Z * string) :=
  match line with
  | EmptyString => match cur with Some m => [m] | None => [] end
  | String c rest =>
      if word_char c then
        let m := match cur with
                 | Some (start, group) => (start, group ++ String c "")
                 | None => (pos, String c "")
                 end in
        finditer_from (pos + 1) (Some m) rest
      else
        match cur with
        | Some m => m :: finditer_from (pos + 1) None rest
        | None => finditer_from (pos + 1) None rest
        end
  end.

Definition finditer (line : string) : list (Z * string) :=
  finditer_from 0 None line.

(** [enumerate(l, start)] *)
Fixpoint enumerate {A} (l : list A) (start : Z) : list (Z * A) :=
  match l with
  | [] => []
  | a :: l' => (start, a) :: enumerate l' (start + 1)
  end.

(** The loop the three scripts share; [record] is the part of the body that
    differs. *)
Definition scan (fp : list string)
    (record : string -> location -> Py state unit) : Py state unit :=
  for_each (enumerate fp 1) (fun numbered_line =>
    let '(line_no, line) := numbered_line in
    for_each (finditer line) (fun match_ =>
      let '(start, word) := match_ in
      let column_no := (start + 1)%Z in
      let location := (line_no, column_no) in
      record word location)).

(** Example 3-2: [occurrences = index.get(word, [])], append, store back *)
Definition record_get (word : string) (location : location) : Py state unit :=
  empty ← new_list;
  occurrences ← index_get (PStr word) empty;
  list_append occurrences location;;
  index_setitem (PStr word) occurrences.

(** Example 3-4: [index.setdefault(word, []).append(location)] *)
Definition record_setdefault (word : string) (location : location)
  : Py state unit :=
  empty ← new_list;
  occurrences ← index_setdefault (PStr word) empty;
  list_append occurrences location.

(** Example 3-5: [index[word].append(location)] on a [defaultdict(list)] *)
Definition default_factory : option (Py state ref) := Some new_list.

Definition record_default (word : string) (location : location)
  : Py state unit :=
  occurrences ← defaultdict_getitem default_factory (PStr word);
  list_append occurrences location.

(** *** printing the index *)

(** [s.upper()] on ASCII *)
Definition upper_char (c : ascii) : ascii :=
  let n := nat_of_ascii c in
  if ((97 <=? n) && (n <=? 122))%nat then ascii_of_nat (n - 32) else c.

Fixpoint upper (s : string) : string :=
  match s with
  | EmptyString => EmptyString
  | String c s' => String (upper_char c) (upper s')
  end.

(** [str.upper(k)]: the method of [str] rejects any other object *)
Definition str_upper (k : pyval) : result string :=
  match k with
  | PStr s => Ok (upper s)
  | _ => Raise TypeError
  end.

(** [sorted(l, key=key)]: the key of every item is computed once, and the
    items are sorted by it stably: items with equal keys keep their order.
    An item is put behind all those already placed whose key is not
    greater. *)
Fixpoint insert_sorted {A} (kx : string * A) (l : list (string * A))
  : list (string * A) :=
  match l with
  | [] => [kx]
  | ky :: l' =>
      if String.ltb (fst kx) (fst ky) then kx :: ky :: l'
      else ky :: insert_sorted kx l'
  end.

Definition sorted {A} (l : list A) (key : A -> result string)
  : result (list A) :=
  decorated ← mapM (fun a => k ← key a; Ok (k, a)) l;
  Ok (map snd (fold_left (fun acc kx => insert_sorted kx acc) decorated [])).

(** [repr] of a location, a tuple of two ints, and of a list of them *)
Definition repr_location (l : location) : string :=
  "(" ++ str (PInt (fst l)) ++ ", " ++ str (PInt (snd l)) ++ ")".

Definition repr_list (l : list location) : string :=
  "[" ++ String.concat ", " (map repr_location l) ++ "]".

(** [print(a, b)] writes the two texts with a space between them *)
Definition print (a b : string) : Py state unit :=
  let line := a ++ " " ++ b in
  write (set_stdout (fun out => (out ++ [line])%list)).

(** [for word in sorted(index, key=str.upper): print(word, index[word])];
    [getitem] is the indexing of the kind of dict the script uses. *)
Definition print_index (getitem : pyval -> Py state ref) : Py state unit :=
  d ← read index;
  words ← lift (sorted (PyDict.keys d) str_upper);
  for_each words (fun word =>
    occurrences ← getitem word;
    items ← list_items occurrences;
    print (str word) (repr_list items)).

(** *** the three scripts, run on the lines of the file *)

(** Example 3-2 *)
Definition index_get_py (fp : list string) : Py state unit :=
  write (set_index (fun _ => []));;
  scan fp record_get;;
  print_index index_getitem.

(** Example 3-4 *)
Definition index_setdefault_py (fp : list string) : Py state unit :=
  write (set_index (fun _ => []));;
  scan fp record_setdefault;;
  print_index index_getitem.

(** Example 3-5 *)
Definition index_default_py (fp : list string) : Py state unit :=
  write (set_index (fun _ => []));;
  scan fp record_default;;
  print_index (defaultdict_getitem default_factory).

(** *** The index as a value

    What the index holds, read through the references: every word with the
    items of its list, in the order of the dict. *)
Definition view (h : list (list location)) (d : PyDict.dict ref)
  : PyDict.dict (list location) :=
  map (fun kr => (fst kr, default [] (h !! snd kr))) d.

Definition contents (s : state) : PyDict.dict (list location) :=
  view (heap s) (index s).

(** The word-occurrence index of a text, computed on values: every
    occurrence is added at the end of the locations of its word, and a new
    word goes at the end of the index. *)
Definition add_occurrence (d : PyDict.dict (list location)) (word : string)
    (loc : location) : PyDict.dict (list location) :=
  PyDict.setitem d (PStr word) (PyDict.get d (PStr word) [] ++ [loc])%list.

Definition add_line (d : PyDict.dict (list location))
    (numbered_line : Z * string) : PyDict.dict (list location) :=
  fold_left (fun d m =>
               add_occurrence d (snd m) (fst numbered_line, (fst m + 1)%Z))
            (finditer (snd numbered_line)) d.

Definition word_index (fp : list string) : PyDict.dict (list location) :=
  fold_left add_line (enumerate fp 1) [].

(** The lines printed for an index: its words sorted by their upper-case
    form, each followed by its locations. *)
Definition render (d : PyDict.dict (list location)) : list string :=
  match sorted (PyDict.keys d) str_upper with
  | Ok words =>
      map (fun word => str word ++ " " ++ repr_list (PyDict.get d word []))
          words
  | Raise _ => []
  end.

(** The references held by the index are distinct and point into the
    heap. *)
Definition wf (s : state) : Prop :=
  NoDup (map snd (index s))
  /\ Forall (fun r => (r < length (heap s))%nat) (map snd (index s)).

(** What recording one occurrence must achieve, whatever the script: it
    returns, and the index then holds the occurrence as [add_occurrence]
    says. *)
Definition records (record : string -> location -> Py state unit) : Prop :=
  forall word loc s, wf s ->
    exists s', record word loc s = (Ok tt, s')
      /\ wf s'
      /\ contents s' = add_occurrence (contents s) word loc
      /\ stdout s' = stdout s.

(** The occurrences of words in a text, in reading order. *)
Definition occurrences (fp : list string) : list (string * location) :=
  flat_map (fun numbered_line =>
              map (fun m => (snd m, (fst numbered_line, (fst m + 1)%Z)))
                  (finditer (snd numbered_line)))
           (enumerate fp 1).

End WordIndex.

(** ** Example 3-6: [StrKeyDict], a [collections.UserDict] whose keys are
    stored as [str]

    [UserDict] keeps the entries in the attribute [data], a plain dict.  Its
    [__getitem__] looks the key up in [data] and, when the key is absent and
    the class defines [__missing__], returns what [__missing__] returns.  Its
    [__init__] starts from an empty [data] and fills it through [update],
    which stores every pair with [self[key] = value], so through the
    [__setitem__] of the subclass.  [StrKeyDict] overrides [__missing__],
    [__contains__] and [__setitem__]. *)
Module StrKeyDict.

Section Class.
Context {V : Type}.

Record instance : Type := { data : PyDict.dict V }.

(** [__missing__] calls back into indexing ([self[str(key)]]), which in
    turn may call [__missing__]: the two are tied by passing the indexing
    operation in, and [__getitem__] below counts the nested calls it may
    still make.  [None] is the answer of a call that ran out of them. *)
Definition __missing__
    (self_getitem : instance -> pyval -> option (result V))
    (self : instance) (key : pyval) : option (result V) :=
  if isinstance_str key then Some (Raise (KeyError key))
  else self_getitem self (PStr (str key)).

(** [UserDict.__getitem__], inherited *)
Fixpoint __getitem__ (depth : nat) (self : instance) (key : pyval)
  : option (result V) :=
  match depth with
  | O => None
  | S depth' =>
      if PyDict.contains (data self) key
      then Some (PyDict.getitem (data self) key)
      else __missing__ (__getitem__ depth') self key
  end.

Definition __contains__ (self : instance) (key : pyval) : result bool :=
  Ok (PyDict.contains (data self) (PStr (str key))).

Definition __setitem__ (self : instance) (key : pyval) (item : V)
  : instance :=
  {| data := PyDict.setitem (data self) (PStr (str key)) item |}.

(** [MutableMapping.update(other, **kwds)], inherited: the pairs of
    [other] in order, then the keyword arguments, each stored with
    [self[key] = value]. *)
Definition update (self : instance) (other : list (pyval * V))
    (kwds : list (string * V)) : instance :=
  let self := fold_left (fun s kv => __setitem__ s (fst kv) (snd kv))
                        other self in
  fold_left (fun s kv => __setitem__ s (PStr (fst kv)) (snd kv)) kwds self.

(** [UserDict.__init__(dict=None, **kwargs)], inherited *)
Definition __init__ (dict : option (list (pyval * V)))
    (kwargs : list (string * V)) : instance :=
  let self := {| data := [] |} in
  let self := match dict with
              | Some d => update self d []
              | None => self
              end in
  if (0 <? Z.of_nat (length kwargs))%Z then update self [] kwargs else self.

(** The calls that change an instance after it is built. *)
Inductive call : Type :=
  | SetItem (key : pyval) (item : V)
  | Update (other : list (pyval * V)) (kwds : list (string * V)).

Definition perform (self : instance) (c : call) : instance :=
  match c with
  | SetItem key item => __setitem__ self key item
  | Update other kwds => update self other kwds
  end.

(** The class invariant: every key of [data] is a [str]. *)
Definition str_keys (self : instance) : Prop :=
  Forall (fun k => isinstance_str k = true) (PyDict.keys (data self)).

End Class.

Arguments instance V : clear implicits.

End StrKeyDict.

(** ** [sorted] with a key of any type

    [sorted(l, key=key)] as in the word-index scripts, for keys compared by
    any [<]: the key of every item is computed once, and the items are
    sorted by it stably. *)
Section Sorting.
Context {K A : Type} (lt : K -> K -> bool).

Fixpoint insert_by (kx : K * A) (l : list (K * A)) : list (K * A) :=
  match l with
  | [] => [kx]
  | ky :: l' =>
      if lt (fst kx) (fst ky) then kx :: ky :: l'
      else ky :: insert_by kx l'
  end.

Definition sort_by (l : list (K * A)) : list (K * A) :=
  fold_left (fun acc kx => insert_by kx acc) l [].

Definition sorted_by (l : list A) (key : A -> result K) : result (list A) :=
  decorated ← mapM (fun a => k ← key a; Ok (k, a)) l;
  Ok (map snd (sort_by decorated)).

(** What the proofs ask of [<]: it is a strict order, and two keys neither
    of which is less than the other are the same key. *)
Definition strict_total : Prop :=
  (forall a b, lt a b = true -> lt b a = false)
  /\ (forall a b c, lt a b = true -> lt b c = true -> lt a c = true)
  /\ (forall a b, lt a b = false -> lt b a = false -> a = b).

End Sorting.

(** ** Chapter 1, continued: the deck used as a sequence

    [FrenchDeck] defines [__len__] and [__getitem__] only; the notebook then
    uses [in], [reversed] and [sorted] on a deck, which the interpreter
    carries out through these two methods. *)
#[global] Instance subscript_eq_dec {A} `{EqDecision A}
  : EqDecision (subscript A).
Proof. solve_decision. Defined.

Module DeckUse.

(** [card in deck]: the class has no [__contains__], so the deck is scanned
    through [__getitem__] from [position] on until an item equal to [card]
    is found or [IndexError] ends the scan.  [calls] bounds the calls of
    [__getitem__]; [None] is the answer when they are used up. *)
Fixpoint contains (calls : nat) (position : Z) (card : Deck.Card)
  : Py Deck.FrenchDeck (option bool) :=
  match calls with
  | O => mret None
  | S calls' => fun self =>
      match Deck.__getitem__ (Index position) self with
      | (Ok item, self') =>
          if bool_decide (item = Item card) then (Ok (Some true), self')
          else contains calls' (position + 1)%Z card self'
      | (Raise IndexError, self') => (Ok (Some false), self')
      | (Raise e, self') => (Raise e, self')
      end
  end.

(** [reversed(deck)]: the class has no [__reversed__], so the items are
    fetched with [__getitem__] at [len(deck) - 1] down to 0; an [IndexError]
    ends the walk quietly. *)
Fixpoint reversed_from (n : nat) : Py Deck.FrenchDeck (list (subscript Deck.Card)) :=
  match n with
  | O => mret []
  | S n' => fun self =>
      match Deck.__getitem__ (Index (Z.of_nat n')) self with
      | (Ok item, self') =>
          (rest ← reversed_from n'; mret (item :: rest)) self'
      | (Raise IndexError, self') => (Ok [], self')
      | (Raise e, self') => (Raise e, self')
      end
  end.

Definition reversed : Py Deck.FrenchDeck (list (subscript Deck.Card)) :=
  n ← Deck.__len__; reversed_from (Z.to_nat n).

(** [spades_high] on what iterating the deck yields: an item that is not a
    card has no attribute [rank]. *)
Definition spades_high_item (item : subscript Deck.Card) : result Z :=
  match item with
  | Item card => Deck.spades_high card
  | Items _ => Raise AttributeError
  end.

(** [sorted(deck, key=spades_high)] *)
Definition sorted_deck (calls : nat)
  : Py Deck.FrenchDeck (option (list (subscript Deck.Card))) :=
  items ← Deck.iterate calls 0;
  match items with
  | None => mret None
  | Some l => r ← lift (sorted_by Z.ltb l spades_high_item); mret (Some r)
  end.

(** [random.choice(deck)]: the item at a position drawn below [len(deck)];
    an empty deck raises [IndexError].  [randbelow] is the random source. *)
Definition choice (randbelow : Z -> Z)
  : Py Deck.FrenchDeck (subscript Deck.Card) :=
  n ← Deck.__len__;
  if (n =? 0)%Z then raise IndexError
  else Deck.__getitem__ (Index (randbelow n)).


End DeckUse.

(** ** Example 3-6, continued: the methods [StrKeyDict] inherits

    [StrKeyDict] overrides three methods and inherits the rest of the
    mapping interface from [collections.UserDict] and, through it, from
    [MutableMapping] and [Mapping].  Some of the inherited methods go through
    the overridden ones ([get], [setdefault] and [pop] index with
    [self[key]]), others reach into [data] directly ([__delitem__],
    [__len__], [__iter__]). *)

(** [del d[key]] on a dict: the entry goes, the others keep their order; an
    absent key is a [KeyError]. *)
Fixpoint dict_remove {V} (d : PyDict.dict V) (key : pyval) : PyDict.dict V :=
  match d with
  | [] => []
  | (k, v) :: d' =>
      if py_eq k key then d' else (k, v) :: dict_remove d' key
  end.

Definition dict_delitem {V} (d : PyDict.dict V) (key : pyval)
  : result (PyDict.dict V) :=
  if PyDict.contains d key then Ok (dict_remove d key)
  else Raise (KeyError key).

Module Inherited.

Section Methods.
Context {V : Type}.

(** [UserDict.__len__]: [len(self.data)] *)
Definition __len__ (self : StrKeyDict.instance V) : Z :=
  len (StrKeyDict.data self).

(** [UserDict.__iter__]: [iter(self.data)] *)
Definition __iter__ (self : StrKeyDict.instance V) : list pyval :=
  PyDict.keys (StrKeyDict.data self).

(** [UserDict.__delitem__]: [del self.data[key]] *)
Definition __delitem__ (key : pyval) : Py (StrKeyDict.instance V) unit :=
  fun self =>
    match dict_delitem (StrKeyDict.data self) key with
    | Ok d => (Ok tt, {| StrKeyDict.data := d |})
    | Raise e => (Raise e, self)
    end.

(** [Mapping.get(key, default)]: [self[key]], and [default] when that raises
    [KeyError].  [depth] is the allowance of nested calls handed to
    [self[key]]. *)
Definition get (depth : nat) (self : StrKeyDict.instance V) (key : pyval)
    (default : V) : option (result V) :=
  match StrKeyDict.__getitem__ depth self key with
  | Some (Raise (KeyError _)) => Some (Ok default)
  | answer => answer
  end.

(** [MutableMapping.setdefault(key, default)]: [self[key]], and when that
    raises [KeyError], [self[key] = default] and [default]. *)
Definition setdefault (depth : nat) (key : pyval) (default : V)
    (self : StrKeyDict.instance V)
  : option (result V * StrKeyDict.instance V) :=
  match StrKeyDict.__getitem__ depth self key with
  | Some (Raise (KeyError _)) =>
      Some (Ok default, StrKeyDict.__setitem__ self key default)
  | Some answer => Some (answer, self)
  | None => None
  end.

(** [MutableMapping.pop(key)] and [pop(key, default)]: the value is fetched
    with [self[key]]; when that raises [KeyError] the default is returned, or
    the error raised again without one; otherwise the entry is deleted with
    [del self[key]] and the value returned. *)
Definition pop (depth : nat) (key : pyval) (default : option V)
    (self : StrKeyDict.instance V)
  : option (result V * StrKeyDict.instance V) :=
  match StrKeyDict.__getitem__ depth self key with
  | Some (Raise (KeyError k)) =>
      match default with
      | Some v => Some (Ok v, self)
      | None => Some (Raise (KeyError k), self)
      end
  | Some (Raise e) => Some (Raise e, self)
  | Some (Ok value) =>
      match __delitem__ key self with
      | (Ok _, self') => Some (Ok value, self')
      | (Raise e, self') => Some (Raise e, self')
      end
  | None => None
  end.

(** What holds of every instance built and changed through the class: the
    keys of [data] are strings, and no two of them are the same. *)
Definition well_formed (self : StrKeyDict.instance V) : Prop :=
  StrKeyDict.str_keys self /\ NoDup (PyDict.keys (StrKeyDict.data self)).

(** The calls that change an instance, with the inherited ones. *)
Inductive call : Type :=
  | SetItem (key : pyval) (item : V)
  | Update (other : list (pyval * V)) (kwds : list (string * V))
  | DelItem (key : pyval)
  | SetDefault (key : pyval) (default : V)
  | Pop (key : pyval) (default : option V).

(** The instance a call leaves behind, whether it returned or raised. *)
Definition perform (self : StrKeyDict.instance V) (c : call)
  : StrKeyDict.instance V :=
  match c with
  | SetItem key item => StrKeyDict.__setitem__ self key item
  | Update other kwds => StrKeyDict.update self other kwds
  | DelItem key => snd (__delitem__ key self)
  | SetDefault key default =>
      match setdefault 2 key default self with
      | Some (_, self') => self'
      | None => self
      end
  | Pop key default =>
      match pop 2 key default self with
      | Some (_, self') => self'
      | None => self
      end
  end.

End Methods.

End Inherited.

(** ** The word-index scripts: what the index says about the text *)
Module Text.

(** the characters of a string *)
Definition chars (s : string) : list ascii := list_ascii_of_string s.

(** [word] stands in the characters [l] from position [start] on, as a
    whole run of word characters: it is not empty, and the characters before
    and after it, if any, are not word characters. *)
Definition run_at (l : list ascii) (start : Z) (word : string) : Prop :=
  exists before after,
    l = (before ++ chars word ++ after)%list
    /\ start = Z.of_nat (length before)
    /\ word <> ""
    /\ Forall (fun c => WordIndex.word_char c = true) (chars word)
    /\ (forall c, last before = Some c -> WordIndex.word_char c = false)
    /\ (forall c, head after = Some c -> WordIndex.word_char c = false).

(** The same for a line of the text. *)
Definition word_at (line : string) (start : Z) (word : string) : Prop :=
  run_at (chars line) start word.

(** Reading order of locations: by line, then by column. *)
Definition before (a b : WordIndex.location) : Prop :=
  (fst a < fst b \/ (fst a = fst b /\ snd a < snd b))%Z.

(** What the tokenizer has read so far is as it should be: [pre] are the
    characters read, [cur] the run being read, if any. *)
Definition reading (pre : list ascii) (cur : option (Z * string)) : Prop :=
  match cur with
  | None => forall c, last pre = Some c -> WordIndex.word_char c = false
  | Some (start, group) =>
      exists pre0,
        pre = (pre0 ++ chars group)%list
        /\ start = Z.of_nat (length pre0)
        /\ group <> ""
        /\ Forall (fun c => WordIndex.word_char c = true) (chars group)
        /\ (forall c, last pre0 = Some c -> WordIndex.word_char c = false)
  end.

(** The three scripts. *)
Definition scripts : list (list string -> Py WordIndex.state unit) :=
  [WordIndex.index_get_py; WordIndex.index_setdefault_py;
   WordIndex.index_default_py].

(** where the next match can start at the earliest *)
Definition next_start (pre : list ascii) (cur : option (Z * string)) : Z :=
  match cur with
  | Some (start, _) => start
  | None => Z.of_nat (length pre)
  end.

End Text.

(** ** Example 3-1: dict comprehensions

    A dict comprehension stores its items one after the other, as
    assignments would; [.items()] yields the entries in insertion order. *)
Module DialCodes.

Definition DIAL_CODES : list (Z * string) :=
  [(86%Z, "China"); (91%Z, "India"); (1%Z, "United States");
   (62%Z, "Indonesia"); (55%Z, "Brazil"); (92%Z, "Pakistan");
   (880%Z, "Bangladesh"); (234%Z, "Nigeria"); (7%Z, "Russia");
   (81%Z, "Japan")].

(** [{country: code for code, country in DIAL_CODES}] *)
Definition country_code (DIAL_CODES : list (Z * string)) : PyDict.dict Z :=
  fold_left (fun d '(code, country) => PyDict.setitem d (PStr country) code)
            DIAL_CODES [].

(** [country.upper()]: only a string has the method *)
Definition upper (country : pyval) : result string :=
  match country with
  | PStr s => Ok (WordIndex.upper s)
  | _ => Raise AttributeError
  end.

(** [{code: country.upper() for country, code in country_code.items()
      if code < 66}] *)
Definition code_country (country_code : PyDict.dict Z)
  : result (PyDict.dict string) :=
  fold_left (fun acc '(country, code) =>
               d ← acc;
               if (code <? 66)%Z
               then name ← upper country;
                    Ok (PyDict.setitem d (PInt code) name)
               else Ok d)
            country_code (Ok []).

End DialCodes.


(** * Properties *)

(** ** Keys and dicts *)

Lemma py_eq_as_number a b : py_eq a b = bool_decide (as_number a = as_number b).
Proof.
  destruct a as [|x|n|s], b as [|y|m|t]; simpl; try reflexivity;
    try (symmetry; apply bool_decide_eq_false; congruence);
    apply bool_decide_ext; try destruct x; try destruct y; simpl;
    split; congruence.
Qed.

Lemma py_eq_refl a : py_eq a a = true.
Proof. rewrite py_eq_as_number. by apply bool_decide_eq_true. Qed.

Lemma py_eq_true_l a b c : py_eq a b = true -> py_eq a c = py_eq b c.
Proof.
  rewrite !py_eq_as_number. intros E%bool_decide_eq_true. by rewrite E.
Qed.

Lemma py_eq_true_r a b c : py_eq a b = true -> py_eq c a = py_eq c b.
Proof.
  rewrite !py_eq_as_number. intros E%bool_decide_eq_true. by rewrite E.
Qed.

Lemma py_eq_str_l s key : py_eq (PStr s) key = bool_decide (key = PStr s).
Proof.
  destruct key as [|b|n|t]; simpl; try reflexivity;
    try (symmetry; by apply bool_decide_eq_false).
  apply bool_decide_ext. split; congruence.
Qed.

Lemma py_eq_str_r s key : py_eq key (PStr s) = bool_decide (key = PStr s).
Proof.
  destruct key as [|b|n|t]; simpl; try reflexivity;
    try (symmetry; by apply bool_decide_eq_false).
  apply bool_decide_ext. split; congruence.
Qed.

Lemma py_eq_nonstr k key :
  isinstance_str k = true -> isinstance_str key = false -> py_eq k key = false.
Proof. destruct k; try discriminate. by destruct key. Qed.

Section DictFacts.
Context {V : Type}.
Implicit Types (d : PyDict.dict V) (k key : pyval) (v : V).

Lemma contains_find d key :
  PyDict.contains d key = true <-> exists v, PyDict.find d key = Some v.
Proof.
  unfold PyDict.contains. destruct (PyDict.find d key); split; eauto.
  - discriminate.
  - by intros [? ?].
Qed.

Lemma contains_false_find d key :
  PyDict.contains d key = false <-> PyDict.find d key = None.
Proof. unfold PyDict.contains. by destruct (PyDict.find d key). Qed.

Lemma find_setitem d k v key :
  PyDict.find (PyDict.setitem d k v) key
  = if py_eq k key then Some v else PyDict.find d key.
Proof.
  induction d as [|[k0 v0] d IH]; simpl; [done|].
  destruct (py_eq k0 k) eqn:E0; simpl.
  - rewrite (py_eq_true_l _ _ key E0). by destruct (py_eq k key).
  - rewrite IH. destruct (py_eq k0 key) eqn:E1; [|done].
    destruct (py_eq k key) eqn:E2; [|done].
    rewrite (py_eq_true_r _ _ k0 E2) in E0. congruence.
Qed.

Lemma keys_setitem_absent d k v :
  PyDict.find d k = None ->
  PyDict.setitem d k v = (d ++ [(k, v)])%list.
Proof.
  induction d as [|[k0 v0] d IH]; simpl; [done|].
  destruct (py_eq k0 k); [done|]. intros E. by rewrite IH.
Qed.

Lemma keys_setitem_present d k v :
  PyDict.contains d k = true ->
  PyDict.keys (PyDict.setitem d k v) = PyDict.keys d.
Proof.
  unfold PyDict.contains.
  induction d as [|[k0 v0] d IH]; simpl; [done|].
  destruct (py_eq k0 k); [done|]. intros E. simpl. f_equal. by apply IH.
Qed.

(** a string is found exactly when it is one of the keys *)
Lemma contains_str_keys d s :
  PyDict.contains d (PStr s) = true <-> PStr s ∈ PyDict.keys d.
Proof.
  unfold PyDict.contains.
  induction d as [|[k0 v0] d IH]; simpl.
  - split; [done|]. by intros ?%elem_of_nil.
  - rewrite py_eq_str_r. rewrite elem_of_cons. case_bool_decide as E.
    + split; [|done]. intros _. left. done.
    + rewrite IH. split; [by right|]. intros [?|?]; [congruence|done].
Qed.

Lemma keys_setitem_Forall (P : pyval -> Prop) d k v :
  P k -> Forall P (PyDict.keys d) -> Forall P (PyDict.keys (PyDict.setitem d k v)).
Proof.
  intros Hk. induction d as [|[k0 v0] d IH]; simpl.
  - intros _. by constructor.
  - intros [H0 Hd]%Forall_cons. destruct (py_eq k0 k); simpl.
    + by constructor.
    + constructor; [done|]. by apply IH.
Qed.

End DictFacts.

(** ** StrKeyDict *)

Section StrKeyDictFacts.
Context {V : Type}.
Implicit Types (self : StrKeyDict.instance V) (key : pyval) (item : V).

Lemma str_keys_find_nonstr self key :
  StrKeyDict.str_keys self -> isinstance_str key = false ->
  PyDict.find (StrKeyDict.data self) key = None.
Proof.
  unfold StrKeyDict.str_keys. destruct self as [d]. simpl.
  intros Hd Hk. induction d as [|[k0 v0] d IH]; simpl in *; [done|].
  apply Forall_cons in Hd as [H0 Hd].
  rewrite (py_eq_nonstr _ _ H0 Hk). by apply IH.
Qed.

Lemma getitem_present self key n :
  PyDict.contains (StrKeyDict.data self) key = true ->
  StrKeyDict.__getitem__ (S n) self key
  = Some (PyDict.getitem (StrKeyDict.data self) key).
Proof. intros E. simpl. by rewrite E. Qed.

Lemma getitem_absent self key n :
  PyDict.contains (StrKeyDict.data self) key = false ->
  StrKeyDict.__getitem__ (S n) self key
  = StrKeyDict.__missing__ (StrKeyDict.__getitem__ n) self key.
Proof. intros E. simpl. by rewrite E. Qed.

(** Indexing with a string never needs a nested call. *)
Lemma getitem_str self s n :
  StrKeyDict.__getitem__ (S n) self (PStr s)
  = Some (PyDict.getitem (StrKeyDict.data self) (PStr s)).
Proof.
  simpl. unfold PyDict.contains, StrKeyDict.__missing__, PyDict.getitem.
  by destruct (PyDict.find _ _).
Qed.

(** Indexing with any other key, when [data] holds only strings, is
    indexing with its string form. *)
Lemma getitem_nonstr self key n :
  StrKeyDict.str_keys self -> isinstance_str key = false ->
  StrKeyDict.__getitem__ (S (S n)) self key
  = Some (PyDict.getitem (StrKeyDict.data self) (PStr (str key))).
Proof.
  intros Hd Hk. rewrite getitem_absent.
  - unfold StrKeyDict.__missing__. rewrite Hk. apply getitem_str.
  - apply contains_false_find. by apply str_keys_find_nonstr.
Qed.

Lemma getitem_any self key n :
  StrKeyDict.str_keys self ->
  StrKeyDict.__getitem__ (S (S n)) self key
  = Some (PyDict.getitem (StrKeyDict.data self) (PStr (str key))).
Proof.
  intros Hd. destruct (isinstance_str key) eqn:Hk.
  - destruct key; try discriminate. apply getitem_str.
  - by apply getitem_nonstr.
Qed.

Lemma str_keys_setitem self key item :
  StrKeyDict.str_keys self ->
  StrKeyDict.str_keys (StrKeyDict.__setitem__ self key item).
Proof. intros Hd. by apply keys_setitem_Forall. Qed.

Lemma str_keys_update self other kwds :
  StrKeyDict.str_keys self ->
  StrKeyDict.str_keys (StrKeyDict.update self other kwds).
Proof.
  unfold StrKeyDict.update. intros Hd.
  assert (StrKeyDict.str_keys
            (fold_left (fun s kv => StrKeyDict.__setitem__ s (fst kv) (snd kv))
               other self)) as Hd'.
  { revert self Hd. induction other as [|kv other IH]; intros self Hd;
      simpl; [done|]. apply IH. by apply str_keys_setitem. }
  revert Hd'. generalize (fold_left
    (fun s kv => StrKeyDict.__setitem__ s (fst kv) (snd kv)) other self).
  induction kwds as [|kv kwds IH]; intros self' Hd'; simpl; [done|].
  apply IH. by apply str_keys_setitem.
Qed.

Lemma str_keys_init (dict : option (list (pyval * V))) kwargs :
  StrKeyDict.str_keys (StrKeyDict.__init__ dict kwargs).
Proof.
  unfold StrKeyDict.__init__.
  assert (StrKeyDict.str_keys (V:=V) {| StrKeyDict.data := [] |}) as H0
    by constructor.
  assert (StrKeyDict.str_keys (V:=V)
            match dict with
            | Some d => StrKeyDict.update {| StrKeyDict.data := [] |} d []
            | None => {| StrKeyDict.data := [] |}
            end) as H1.
  { destruct dict; [|done]. by apply str_keys_update. }
  destruct (0 <? _)%Z; [|done]. by apply str_keys_update.
Qed.

Lemma str_keys_perform self c :
  StrKeyDict.str_keys self -> StrKeyDict.str_keys (StrKeyDict.perform self c).
Proof.
  destruct c; simpl; [apply str_keys_setitem | apply str_keys_update].
Qed.

Lemma str_keys_calls self calls :
  StrKeyDict.str_keys self ->
  StrKeyDict.str_keys (fold_left StrKeyDict.perform calls self).
Proof.
  revert self. induction calls as [|c calls IH]; intros self Hd; simpl;
    [done|]. apply IH. by apply str_keys_perform.
Qed.

(** Storing never removes a key. *)
Lemma contains_setitem self key item k :
  PyDict.contains (StrKeyDict.data self) k = true ->
  PyDict.contains (StrKeyDict.data (StrKeyDict.__setitem__ self key item)) k
  = true.
Proof.
  unfold PyDict.contains. simpl. rewrite find_setitem.
  by destruct (py_eq _ _).
Qed.

Lemma contains_update self other kwds k :
  PyDict.contains (StrKeyDict.data self) k = true ->
  PyDict.contains (StrKeyDict.data (StrKeyDict.update self other kwds)) k
  = true.
Proof.
  unfold StrKeyDict.update. intros Hd.
  assert (PyDict.contains (StrKeyDict.data
            (fold_left (fun s kv => StrKeyDict.__setitem__ s (fst kv) (snd kv))
               other self)) k = true) as Hd'.
  { revert self Hd. induction other as [|kv other IH]; intros self Hd;
      simpl; [done|]. apply IH. by apply contains_setitem. }
  revert Hd'. generalize (fold_left
    (fun s kv => StrKeyDict.__setitem__ s (fst kv) (snd kv)) other self).
  induction kwds as [|kv kwds IH]; intros self' Hd'; simpl; [done|].
  apply IH. by apply contains_setitem.
Qed.

Lemma contains_calls self calls k :
  PyDict.contains (StrKeyDict.data self) k = true ->
  PyDict.contains (StrKeyDict.data (fold_left StrKeyDict.perform calls self)) k
  = true.
Proof.
  revert self. induction calls as [|c calls IH]; intros self Hd; simpl;
    [done|]. apply IH. destruct c; simpl;
    [by apply contains_setitem | by apply contains_update].
Qed.

End StrKeyDictFacts.

(** C1.  For a key [k] that is not a string, when the lookup of [k] in
    [d.data] misses and [str(k)] is a key of [d.data], [d[k]] returns
    [d.data[str(k)]]: [__missing__] redirects the lookup to the string form
    of [k], and that lookup succeeds.  The lookup of [k] misses whenever
    every key of [d.data] is a string, as the methods of the class keep
    them.  Two nested calls of indexing are enough, and more change
    nothing. *)
Theorem strkeydict_getitem_nonstr_key {V} (self : StrKeyDict.instance V)
    (key : pyval) (n : nat) :
  isinstance_str key = false ->
  StrKeyDict.str_keys self
  \/ PyDict.contains (StrKeyDict.data self) key = false ->
  PyDict.contains (StrKeyDict.data self) (PStr (str key)) = true ->
  PyDict.contains (StrKeyDict.data self) key = false
  /\ (forall g, StrKeyDict.__missing__ g self key = g self (PStr (str key)))
  /\ exists item,
       PyDict.getitem (StrKeyDict.data self) (PStr (str key)) = Ok item
       /\ StrKeyDict.__getitem__ (S (S n)) self key = Some (Ok item).
Proof.
  intros Hk Hmiss Hin.
  assert (PyDict.contains (StrKeyDict.data self) key = false) as Hout.
  { destruct Hmiss as [Hd|Hout]; [|done].
    apply contains_false_find. by apply str_keys_find_nonstr. }
  split; [done|]. split.
  - intros g. unfold StrKeyDict.__missing__. by rewrite Hk.
  - apply contains_find in Hin as [item Hitem]. exists item.
    rewrite getitem_absent by done. unfold StrKeyDict.__missing__.
    rewrite Hk, getitem_str. unfold PyDict.getitem. by rewrite Hitem.
Qed.

Lemma strkeydict_getitem_nonstr_key_witness :
  let d := {| StrKeyDict.data := [(PInt 1, "a"); (PStr "2", "b")] |} in
  exists item,
    PyDict.getitem (StrKeyDict.data d) (PStr (str (PInt 2))) = Ok item
    /\ StrKeyDict.__getitem__ 2 d (PInt 2) = Some (Ok item).
Proof.
  intros d.
  apply (strkeydict_getitem_nonstr_key d (PInt 2) 0).
  - reflexivity.
  - right. reflexivity.
  - reflexivity.
Defined.

(** The claim without the condition on the lookup of [k] fails: with
    [d.data = {1: 'a', '1': 'b'}], a state reached by assigning to [d.data],
    the key [1] is not a string and [str(1)] is a key of [d.data], but [d[1]]
    finds [1] itself and returns ['a'], not [d.data['1']]. *)
Lemma strkeydict_getitem_nonstr_key_counterexample :
  let d := {| StrKeyDict.data := [(PInt 1, "a"); (PStr "1", "b")] |} in
  isinstance_str (PInt 1) = false
  /\ PyDict.contains (StrKeyDict.data d) (PStr (str (PInt 1))) = true
  /\ PyDict.getitem (StrKeyDict.data d) (PStr (str (PInt 1))) = Ok "b"
  /\ StrKeyDict.__getitem__ 1 d (PInt 1) = Some (Ok "a")
  /\ StrKeyDict.__getitem__ 2 d (PInt 1) = Some (Ok "a")
  /\ StrKeyDict.__getitem__ 2 d (PInt 1)
     <> Some (PyDict.getitem (StrKeyDict.data d) (PStr (str (PInt 1)))).
Proof. repeat split; try reflexivity. discriminate. Qed.

(** C4.  [d[k]] raises exactly when neither [k] nor [str(k)] is a key of
    [d.data], and what it raises is [KeyError(str(k))].  When every key of
    [d.data] is a string, as the methods of the class keep them, that is
    exactly when [str(k)] is not a key of [d.data].  When [k] is itself a
    string absent from [d.data], [__missing__] raises [KeyError(k)] at once:
    it does not index again, whatever indexing would do, so the lookup needs
    no nested call. *)
Theorem strkeydict_getitem_keyerror {V} (self : StrKeyDict.instance V)
    (key : pyval) (n : nat) :
  ((exists e, StrKeyDict.__getitem__ (S (S n)) self key = Some (Raise e))
   <-> PyDict.contains (StrKeyDict.data self) key = false
       /\ PStr (str key) ∉ PyDict.keys (StrKeyDict.data self))
  /\ (forall e, StrKeyDict.__getitem__ (S (S n)) self key = Some (Raise e) ->
                e = KeyError (PStr (str key)))
  /\ (StrKeyDict.str_keys self ->
      ((exists e, StrKeyDict.__getitem__ (S (S n)) self key = Some (Raise e))
       <-> PStr (str key) ∉ PyDict.keys (StrKeyDict.data self)))
  /\ (forall s, PStr s ∉ PyDict.keys (StrKeyDict.data self) ->
        (forall g, StrKeyDict.__missing__ g self (PStr s)
                   = Some (Raise (KeyError (PStr s))))
        /\ StrKeyDict.__getitem__ 1 self (PStr s)
           = Some (Raise (KeyError (PStr s)))).
Proof.
  assert (StrKeyDict.__getitem__ (S (S n)) self key
          = Some (match PyDict.find (StrKeyDict.data self) key with
                  | Some item => Ok item
                  | None => PyDict.getitem (StrKeyDict.data self)
                              (PStr (str key))
                  end)) as Hrun.
  { destruct (PyDict.find (StrKeyDict.data self) key) as [item|] eqn:E.
    - rewrite getitem_present by (apply contains_find; eauto).
      unfold PyDict.getitem. by rewrite E.
    - rewrite getitem_absent by (by apply contains_false_find).
      unfold StrKeyDict.__missing__. destruct (isinstance_str key) eqn:Hk.
      + destruct key; try discriminate. simpl.
        unfold PyDict.getitem. by rewrite E.
      + apply getitem_str. }
  assert ((exists e, StrKeyDict.__getitem__ (S (S n)) self key = Some (Raise e))
          <-> PyDict.contains (StrKeyDict.data self) key = false
              /\ PStr (str key) ∉ PyDict.keys (StrKeyDict.data self)) as Hiff.
  { rewrite Hrun. rewrite <- contains_str_keys.
    unfold PyDict.getitem, PyDict.contains.
    destruct (PyDict.find (StrKeyDict.data self) key) as [item|].
    - split; [by intros [? ?]|]. by intros [? _].
    - destruct (PyDict.find _ (PStr (str key))) as [item|].
      + split; [by intros [? ?]|]. intros [_ H]. by destruct H.
      + split; [|by eauto]. intros _. split; [done|]. by intros ?. }
  split; [exact Hiff|]. split; [|split].
  - rewrite Hrun. intros e. unfold PyDict.getitem.
    destruct (PyDict.find (StrKeyDict.data self) key); [congruence|].
    destruct (PyDict.find _ _); congruence.
  - intros Hd. rewrite Hiff. split; [by intros [_ ?]|]. intros Hs.
    split; [|done]. destruct (isinstance_str key) eqn:Hk.
    + destruct key; try discriminate. simpl in Hs.
      by apply not_true_is_false, (not_iff_compat (contains_str_keys _ _)).
    + apply contains_false_find. by apply str_keys_find_nonstr.
  - intros s Hs. rewrite <- contains_str_keys in Hs. split; [done|].
    rewrite getitem_str. unfold PyDict.getitem.
    unfold PyDict.contains in Hs.
    destruct (PyDict.find (StrKeyDict.data self) (PStr s)); [|done].
    by destruct Hs.
Qed.

Lemma strkeydict_getitem_keyerror_witness :
  let d := StrKeyDict.__init__ (Some [(PInt 2, "two"); (PStr "4", "four")]) [] in
  (exists e, StrKeyDict.__getitem__ 2 d (PInt 1) = Some (Raise e))
  <-> PStr (str (PInt 1)) ∉ PyDict.keys (StrKeyDict.data d).
Proof.
  intros d.
  apply (proj1 (proj2 (proj2 (strkeydict_getitem_keyerror d (PInt 1) 0)))).
  apply str_keys_init.
Defined.

(** The claim with [str(k)] alone fails: with [d.data = {1: 'a'}], a state
    reached by assigning to [d.data], [str(1)] is not a key of [d.data], but
    [d[1]] finds [1] itself and returns ['a']. *)
Lemma strkeydict_getitem_keyerror_counterexample :
  let d := {| StrKeyDict.data := [(PInt 1, "a")] |} in
  (PStr (str (PInt 1)) ∉ PyDict.keys (StrKeyDict.data d))
  /\ StrKeyDict.__getitem__ 1 d (PInt 1) = Some (Ok "a")
  /\ StrKeyDict.__getitem__ 2 d (PInt 1) = Some (Ok "a").
Proof.
  split; [|split; reflexivity].
  apply (bool_decide_unpack _). vm_compute. exact I.
Qed.

(** C8.  Every key stored in [d.data] is a [str]: [__setitem__] stores the
    item under [str(key)], and the invariant holds for an instance built by
    [__init__] from any pairs and keyword arguments and changed by any
    sequence of item assignments and updates. *)
Theorem strkeydict_keys_are_str {V} (dict : option (list (pyval * V)))
    (kwargs : list (string * V)) (calls : list StrKeyDict.call) :
  let d := fold_left StrKeyDict.perform calls (StrKeyDict.__init__ dict kwargs) in
  Forall (fun k => isinstance_str k = true) (PyDict.keys (StrKeyDict.data d))
  /\ forall key item,
       PyDict.find (StrKeyDict.data (StrKeyDict.__setitem__ d key item))
                   (PStr (str key)) = Some item
       /\ Forall (fun k => isinstance_str k = true)
            (PyDict.keys (StrKeyDict.data (StrKeyDict.__setitem__ d key item))).
Proof.
  intros d.
  assert (StrKeyDict.str_keys d) as Hd
    by (apply str_keys_calls, str_keys_init).
  split; [done|]. intros key item. split.
  - simpl. rewrite find_setitem. by rewrite py_eq_refl.
  - by apply (str_keys_setitem d).
Qed.

(** C9.  [k in d] returns, never raises, and is [True] exactly when [str(k)]
    is a key of [d.data].  So once an item was stored under a key with the
    same string form as [k], [k in d] is [True], and stays so through item
    assignments and updates: [1 in d] after [d['1'] = item]. *)
Theorem strkeydict_contains {V} (self : StrKeyDict.instance V) (key : pyval) :
  (exists b, StrKeyDict.__contains__ self key = Ok b
             /\ (b = true <-> PStr (str key) ∈ PyDict.keys (StrKeyDict.data self)))
  /\ (forall k item calls, str k = str key ->
        StrKeyDict.__contains__
          (fold_left StrKeyDict.perform calls (StrKeyDict.__setitem__ self k item))
          key = Ok true).
Proof.
  split.
  - eexists. split; [reflexivity|]. apply contains_str_keys.
  - intros k item calls Hk. unfold StrKeyDict.__contains__. f_equal.
    apply contains_calls. unfold PyDict.contains. simpl.
    rewrite find_setitem, Hk. by rewrite py_eq_refl.
Qed.

(** ** The card deck *)

Lemma len_nonneg {A} (l : list A) : (0 <= len l)%Z.
Proof. unfold len. lia. Qed.

(** Indexing a list inside its bounds: position [i mod len(l)]. *)
Lemma list_getitem_in_range {A} (l : list A) (i : Z) :
  (- len l <= i < len l)%Z ->
  exists a, l !! Z.to_nat (i mod len l) = Some a /\ list_getitem l i = Ok a.
Proof.
  intros Hi. unfold list_getitem.
  assert ((if (i <? 0)%Z then (i + len l)%Z else i) = (i mod len l)%Z) as ->.
  { destruct (Z.ltb_spec i 0).
    - apply Z.mod_unique with (-1)%Z; lia.
    - symmetry. apply Z.mod_small. lia. }
  assert (0 <= i mod len l < len l)%Z as Hj by (apply Z.mod_pos_bound; lia).
  destruct (Z.ltb_spec (i mod len l) 0); [lia|].
  destruct (Z.leb_spec (len l) (i mod len l)); [lia|]. simpl.
  destruct (l !! Z.to_nat (i mod len l)) as [a|] eqn:E; [eauto|].
  apply lookup_ge_None in E. unfold len in *. lia.
Qed.

Lemma list_getitem_out_of_range {A} (l : list A) (i : Z) :
  (i < - len l \/ len l <= i)%Z -> list_getitem l i = Raise IndexError.
Proof.
  intros Hi. unfold list_getitem. pose proof (len_nonneg l).
  destruct (Z.ltb_spec i 0).
  - destruct (Z.ltb_spec (i + len l) 0); [done|]. lia.
  - destruct (Z.ltb_spec i 0); [lia|].
    destruct (Z.leb_spec (len l) i); [done|]. lia.
Qed.

(** C6.  A fresh deck has 52 cards, 13 ranks times 4 suits.  For any deck,
    [len(deck)] is the length of its card list and, for a position [i] valid
    for that list, negative or not, [deck[i]] is the card at position [i] of
    the list when [i >= 0] and at position [len + i] when [i < 0].  Whatever
    the position, an integer or a slice, valid or not, [__getitem__] leaves
    the deck as it was, and so does [__len__]. *)
Theorem frenchdeck_sequence (self : Deck.FrenchDeck) (i : Z) :
  (- len (Deck._cards self) <= i < len (Deck._cards self))%Z ->
  Deck.__len__ Deck.__init__ = (Ok 52%Z, Deck.__init__)
  /\ (len Deck.ranks * len Deck.suits = 52)%Z
  /\ Deck.__len__ self = (Ok (len (Deck._cards self)), self)
  /\ (exists card,
        Deck._cards self
          !! Z.to_nat (if (i <? 0)%Z then len (Deck._cards self) + i else i)
        = Some card
        /\ Deck.__getitem__ (Index i) self = (Ok (Item card), self))
  /\ (forall p, snd (Deck.__getitem__ p self) = self).
Proof.
  intros Hi. split; [reflexivity|]. split; [reflexivity|].
  split; [reflexivity|]. split; [|reflexivity].
  destruct (list_getitem_in_range _ _ Hi) as (card & Hc & Hg).
  exists card. split.
  - rewrite <- Hc. f_equal. f_equal. destruct (Z.ltb_spec i 0).
    + apply Z.mod_unique with (-1)%Z; lia.
    + symmetry. apply Z.mod_small. lia.
  - unfold Deck.__getitem__, read, lift, mbind, Py_bind. simpl.
    unfold mbind, result_bind. by rewrite Hg.
Qed.

Lemma frenchdeck_sequence_witness :
  exists card,
    Deck._cards Deck.__init__ !! 51%nat = Some card
    /\ Deck.__getitem__ (Index (-1)) Deck.__init__
       = (Ok (Item card), Deck.__init__).
Proof.
  apply (frenchdeck_sequence Deck.__init__ (-1)).
  change (-52 <= -1 < 52)%Z. lia.
Defined.

(** The fresh deck, position by position: suit after suit, and in every suit
    the ranks from 2 to ace. *)
Lemma frenchdeck_fresh_cards (r s : nat) rank suit :
  Deck.ranks !! r = Some rank -> Deck.suits !! s = Some suit ->
  fst (Deck.__getitem__ (Index (Z.of_nat (13 * s + r))) Deck.__init__)
  = Ok (Item (Deck.mkCard rank suit)).
Proof.
  intros Hr Hs.
  assert (r < 13)%nat by (apply lookup_lt_Some in Hr; exact Hr).
  assert (s < 4)%nat by (apply lookup_lt_Some in Hs; exact Hs).
  do 4 (destruct s as [|s]; [
    do 13 (destruct r as [|r]; [vm_compute in Hr, Hs |- *; congruence|]); lia |]).
  lia.
Qed.

Lemma list_getitem_nonneg {A} (l : list A) (i : nat) a :
  l !! i = Some a -> list_getitem l (Z.of_nat i) = Ok a.
Proof.
  intros E. unfold list_getitem. pose proof (lookup_lt_Some _ _ _ E).
  destruct (Z.ltb_spec (Z.of_nat i) 0); [lia|].
  destruct (Z.ltb_spec (Z.of_nat i) 0); [lia|].
  destruct (Z.leb_spec (len l) (Z.of_nat i)); [unfold len in *; lia|].
  simpl. by rewrite Nat2Z.id, E.
Qed.

(** Iterating a deck from the position where [seen] ends yields the cards
    that follow and stops: one call of [__getitem__] for each, and the one
    that raises [IndexError]. *)
Lemma iterate_from (seen rest : list Deck.Card) :
  Deck.iterate (S (length rest)) (len seen)
    {| Deck._cards := (seen ++ rest)%list |}
  = (Ok (Some (map Item rest)), {| Deck._cards := (seen ++ rest)%list |}).
Proof.
  revert seen. induction rest as [|card rest IH]; intros seen.
  - simpl. unfold Deck.__getitem__. py_run. unfold mbind, result_bind.
    rewrite list_getitem_out_of_range; [done|].
    rewrite app_nil_r. lia.
  - change (Deck.iterate (S (length (card :: rest))) (len seen))
      with (fun self =>
        match Deck.__getitem__ (Index (len seen)) self with
        | (Ok c, self') =>
            (r ← Deck.iterate (S (length rest)) (len seen + 1)%Z;
             mret (cons c <$> r)) self'
        | (Raise IndexError, self') => (Ok (Some []), self')
        | (Raise e, self') => (Raise e, self')
        end).
    cbv beta.
    assert (Deck.__getitem__ (Index (len seen))
              {| Deck._cards := (seen ++ card :: rest)%list |}
            = (Ok (Item card), {| Deck._cards := (seen ++ card :: rest)%list |}))
      as ->.
    { unfold Deck.__getitem__. py_run. unfold mbind, result_bind, len.
      rewrite (list_getitem_nonneg _ _ card); [done|].
      rewrite lookup_app_r by lia. by rewrite Nat.sub_diag. }
    specialize (IH (seen ++ [card])%list).
    rewrite <- app_assoc in IH.
    change ([card] ++ rest)%list with (card :: rest) in IH.
    replace (len (seen ++ [card])%list) with (len seen + 1)%Z in IH
      by (unfold len; rewrite length_app; simpl; lia).
    unfold mbind at 1. unfold Py_bind at 1. rewrite IH. reflexivity.
Qed.

(** C10.  On every card of a fresh deck, [spades_high] is the position of
    the rank in [FrenchDeck.ranks] times 4 plus the value of the suit
    (spades 3, hearts 2, diamonds 1, clubs 0).  Over the 52 cards, which are
    distinct, it is injective and takes exactly the values 0 to 51: 0 on the
    2 of clubs, 51 on the ace of spades. *)
Theorem spades_high_ranking :
  let cards := Deck._cards Deck.__init__ in
  Forall (fun card =>
            exists r v, list_index Deck.ranks (Deck.rank card) = Ok r
              /\ In (Deck.suit card, v)
                    [("spades", 3%Z); ("hearts", 2%Z); ("diamonds", 1%Z);
                     ("clubs", 0%Z)]
              /\ Deck.spades_high card = Ok (r * 4 + v)%Z) cards
  /\ length cards = 52%nat /\ NoDup cards
  /\ (forall c1 c2, c1 ∈ cards -> c2 ∈ cards ->
         Deck.spades_high c1 = Deck.spades_high c2 -> c1 = c2)
  /\ (forall v, (exists c, c ∈ cards /\ Deck.spades_high c = Ok v)
                <-> (0 <= v <= 51)%Z)
  /\ Deck.spades_high (Deck.mkCard "2" "clubs") = Ok 0%Z
  /\ Deck.spades_high (Deck.mkCard "A" "spades") = Ok 51%Z.
Proof.
  intros cards.
  assert (Forall (fun card =>
            Exists (fun r => Exists (fun sv : string * Z =>
              list_index Deck.ranks (Deck.rank card) = Ok r
              /\ (Deck.suit card, snd sv) = sv
              /\ Deck.spades_high card = Ok (r * 4 + snd sv)%Z)
              [("spades", 3%Z); ("hearts", 2%Z); ("diamonds", 1%Z);
               ("clubs", 0%Z)]) (range 0 13)) cards) as H1.
  { apply (bool_decide_unpack _). vm_compute. exact I. }
  assert (Forall (fun c1 => Forall (fun c2 =>
            Deck.spades_high c1 = Deck.spades_high c2 -> c1 = c2) cards) cards)
    as H2.
  { apply (bool_decide_unpack _). vm_compute. exact I. }
  assert (Forall (fun c => exists v, Deck.spades_high c = Ok v /\ (0 <= v <= 51)%Z)
            cards) as H3.
  { subst cards. vm_compute Deck._cards.
    repeat (constructor; [eexists; split; [vm_compute; reflexivity|lia]|]).
    constructor. }
  assert (Forall (fun v => Exists (fun c => Deck.spades_high c = Ok v) cards)
            (range 0 52)) as H4.
  { apply (bool_decide_unpack _). vm_compute. exact I. }
  split; [|split; [|split; [|split; [|split; [|split]]]]].
  - eapply Forall_impl; [exact H1|]. intros card HE.
    apply Exists_exists in HE as (r & _ & HE).
    apply Exists_exists in HE as (sv & Hin & Hr & Hs & Hv).
    exists r, (snd sv). split; [done|]. split; [|done].
    apply list_elem_of_In. by rewrite Hs.
  - reflexivity.
  - apply (bool_decide_unpack _). vm_compute. exact I.
  - intros c1 c2 Hc1 Hc2. rewrite Forall_forall in H2.
    specialize (H2 c1 Hc1). rewrite Forall_forall in H2. by apply H2.
  - intros v. split.
    + intros (c & Hc & Hv). rewrite Forall_forall in H3.
      destruct (H3 c Hc) as (v' & Hv' & Hr). congruence.
    + intros Hv. rewrite Forall_forall in H4.
      assert (v ∈ range 0 52) as Hin.
      { unfold range. apply list_elem_of_fmap. exists (Z.to_nat v).
        split; [lia|]. apply elem_of_seq. lia. }
      specialize (H4 v Hin). apply Exists_exists in H4 as (c & Hc & Hcv).
      eauto.
  - reflexivity.
  - reflexivity.
Qed.

(** ** The 2D vector *)

Section VectorFacts.
Context {num : Type} `{Vec.Number num}.
Implicit Types (objects : Vec.store num) (self other : Vec.ref).

Lemma getattr_run {A} objects self v (field : Vec.Vector num -> A) :
  objects !! self = Some v ->
  Vec.getattr self field objects = (Ok (field v), objects).
Proof.
  intros E. unfold Vec.getattr, read, mbind, Py_bind. simpl. by rewrite E.
Qed.

Lemma init_run objects a b :
  Vec.__init__ (Some a) (Some b) objects
  = (Ok (length objects), (objects ++ [Vec.mkVector a b])%list).
Proof. reflexivity. Qed.

Lemma add_run objects self other a b c d :
  objects !! self = Some (Vec.mkVector a b) ->
  objects !! other = Some (Vec.mkVector c d) ->
  Vec.__add__ self other objects
  = (Ok (length objects),
     (objects ++ [Vec.mkVector (Vec.add a c) (Vec.add b d)])%list).
Proof.
  intros E1 E2. unfold Vec.__add__, mbind, Py_bind.
  repeat (first [rewrite (getattr_run _ _ _ _ E1)
                |rewrite (getattr_run _ _ _ _ E2)]; simpl).
  reflexivity.
Qed.

Lemma mul_run objects self scalar a b :
  objects !! self = Some (Vec.mkVector a b) ->
  Vec.__mul__ self scalar objects
  = (Ok (length objects),
     (objects ++ [Vec.mkVector (Vec.mul a scalar) (Vec.mul b scalar)])%list).
Proof.
  intros E1. unfold Vec.__mul__, mbind, Py_bind.
  repeat (rewrite (getattr_run _ _ _ _ E1); simpl).
  reflexivity.
Qed.

Lemma abs_run objects self a b :
  objects !! self = Some (Vec.mkVector a b) ->
  Vec.__abs__ self objects = (Ok (Vec.hypot a b), objects).
Proof.
  intros E1. unfold Vec.__abs__, mbind, Py_bind.
  repeat (rewrite (getattr_run _ _ _ _ E1); simpl).
  reflexivity.
Qed.

Lemma store_grows objects v self w :
  objects !! self = Some w ->
  (objects ++ [v])%list !! self = Some w
  /\ (objects ++ [v])%list !! length objects = Some v
  /\ self <> length objects.
Proof.
  intros E. split; [|split].
  - by apply lookup_app_l_Some.
  - rewrite lookup_app_r by lia. by rewrite Nat.sub_diag.
  - apply lookup_lt_Some in E. lia.
Qed.

End VectorFacts.

(** C7.  For vectors [v1 = Vector(x1, y1)] and [v2 = Vector(x2, y2)] in the
    store and a scalar [s]: [v1 + v2] returns a new vector with components
    [x1 + x2] and [y1 + y2], [v1 * s] a new vector with components [x1 * s]
    and [y1 * s], [abs(v1)] returns [hypot(x1, y1)], and [bool(v1)] is
    [False] exactly when [abs(v1) == 0].  [v1] and [v2] are the same objects
    with the same components afterwards, and [abs] and [bool] leave the whole
    store as it was. *)
Theorem vector_operators {num : Type} `{Vec.Number num}
    (objects : Vec.store num) (v1 v2 : Vec.ref) (x1 y1 x2 y2 s : num) :
  objects !! v1 = Some (Vec.mkVector x1 y1) ->
  objects !! v2 = Some (Vec.mkVector x2 y2) ->
  (exists v objects',
      Vec.__add__ v1 v2 objects = (Ok v, objects')
      /\ objects' !! v = Some (Vec.mkVector (Vec.add x1 x2) (Vec.add y1 y2))
      /\ v <> v1 /\ v <> v2
      /\ objects' !! v1 = Some (Vec.mkVector x1 y1)
      /\ objects' !! v2 = Some (Vec.mkVector x2 y2))
  /\ (exists v objects',
      Vec.__mul__ v1 s objects = (Ok v, objects')
      /\ objects' !! v = Some (Vec.mkVector (Vec.mul x1 s) (Vec.mul y1 s))
      /\ v <> v1
      /\ objects' !! v1 = Some (Vec.mkVector x1 y1)
      /\ objects' !! v2 = Some (Vec.mkVector x2 y2))
  /\ Vec.__abs__ v1 objects = (Ok (Vec.hypot x1 y1), objects)
  /\ (exists b, Vec.__bool__ v1 objects = (Ok b, objects)
        /\ (b = false <-> Vec.is_zero (Vec.hypot x1 y1) = true)).
Proof.
  intros E1 E2. split; [|split; [|split]].
  - eexists _, _. split; [by apply add_run|].
    destruct (store_grows objects
                (Vec.mkVector (Vec.add x1 x2) (Vec.add y1 y2)) _ _ E1)
      as (? & ? & ?).
    destruct (store_grows objects
                (Vec.mkVector (Vec.add x1 x2) (Vec.add y1 y2)) _ _ E2)
      as (? & ? & ?).
    repeat split; done.
  - eexists _, _. split; [by apply mul_run|].
    destruct (store_grows objects
                (Vec.mkVector (Vec.mul x1 s) (Vec.mul y1 s)) _ _ E1)
      as (? & ? & ?).
    destruct (store_grows objects
                (Vec.mkVector (Vec.mul x1 s) (Vec.mul y1 s)) _ _ E2)
      as (? & ? & ?).
    repeat split; done.
  - by apply abs_run.
  - exists (negb (Vec.is_zero (Vec.hypot x1 y1))). split.
    + unfold Vec.__bool__, mbind, Py_bind. by rewrite (abs_run _ _ _ _ E1).
    + by destruct (Vec.is_zero _).
Qed.

Lemma vector_operators_witness :
  let objects := [Vec.mkVector 2%Z 4%Z; Vec.mkVector 2%Z 1%Z] in
  exists v objects',
    Vec.__add__ (H:=Vec.int_number) 0%nat 1%nat objects = (Ok v, objects')
    /\ objects' !! v = Some (Vec.mkVector 4%Z 5%Z)
    /\ v <> 0%nat /\ v <> 1%nat
    /\ objects' !! 0%nat = Some (Vec.mkVector 2%Z 4%Z)
    /\ objects' !! 1%nat = Some (Vec.mkVector 2%Z 1%Z).
Proof.
  intros objects.
  apply (vector_operators (H:=Vec.int_number) objects 0%nat 1%nat
           2%Z 4%Z 2%Z 1%Z 3%Z); reflexivity.
Defined.

(** ** The word-index scripts *)

Section ViewFacts.
Import WordIndex.
Implicit Types (h : list (list location)) (d : PyDict.dict ref)
  (k : pyval) (r : ref).

Lemma find_view h d k :
  PyDict.find (view h d) k
  = (fun r => default [] (h !! r)) <$> PyDict.find d k.
Proof.
  induction d as [|[k0 r0] d IH]; simpl; [done|].
  by destruct (py_eq k0 k).
Qed.

Lemma keys_view h d : PyDict.keys (view h d) = PyDict.keys d.
Proof.
  unfold PyDict.keys, view. rewrite map_map. by apply map_ext.
Qed.

Lemma find_Some_ref d k r : PyDict.find d k = Some r -> r ∈ map snd d.
Proof.
  induction d as [|[k0 r0] d IH]; simpl; [done|].
  destruct (py_eq k0 k).
  - intros [= ->]. by left.
  - intros E. right. by apply IH.
Qed.

(** Lists created later are not seen through the index. *)
Lemma view_app h h' d :
  Forall (fun r => (r < length h)%nat) (map snd d) ->
  view (h ++ h') d = view h d.
Proof.
  induction d as [|[k0 r0] d IH]; simpl; [done|].
  intros [H0 Hd]%Forall_cons. rewrite IH by done.
  by rewrite lookup_app_l.
Qed.

(** Changing a list the index does not refer to is not seen either. *)
Lemma view_insert_other h d r x :
  r ∉ map snd d -> view (<[r := x]> h) d = view h d.
Proof.
  induction d as [|[k0 r0] d IH]; simpl; [done|].
  intros Hr. apply not_elem_of_cons in Hr as [Hr0 Hr].
  rewrite IH by done. by rewrite list_lookup_insert_ne.
Qed.

(** Changing the list of a word changes the value of that word and of no
    other: no two words share a list. *)
Lemma view_insert h d k r x :
  NoDup (map snd d) -> (r < length h)%nat -> PyDict.find d k = Some r ->
  view (<[r := x]> h) d = PyDict.setitem (view h d) k x.
Proof.
  intros Hnd Hr. induction d as [|[k0 r0] d IH]; simpl; [done|].
  apply NoDup_cons in Hnd as [Hr0 Hnd]. simpl in Hr0.
  destruct (py_eq k0 k).
  - intros [= ->]. rewrite list_lookup_insert_eq by done. simpl.
    by rewrite view_insert_other.
  - intros E. rewrite IH by done.
    rewrite list_lookup_insert_ne; [done|].
    intros ->. by apply Hr0, (find_Some_ref d k).
Qed.

Lemma view_snoc h d k r :
  view h (d ++ [(k, r)])%list
  = (view h d ++ [(k, default [] (h !! r))])%list.
Proof. unfold view. by rewrite map_app. Qed.

Lemma setitem_same d k r : PyDict.find d k = Some r -> PyDict.setitem d k r = d.
Proof.
  induction d as [|[k0 r0] d IH]; simpl; [done|].
  destruct (py_eq k0 k).
  - by intros [= ->].
  - intros E. by rewrite IH.
Qed.

Lemma find_key_present {V} (d : PyDict.dict V) k :
  k ∈ PyDict.keys d -> exists v, PyDict.find d k = Some v.
Proof.
  induction d as [|[k0 v0] d IH]; simpl; [by intros ?%elem_of_nil|].
  intros [->|Hin]%elem_of_cons.
  - rewrite py_eq_refl. eauto.
  - destruct (py_eq k0 k); eauto.
Qed.

End ViewFacts.

Section RecordFacts.
Import WordIndex.
Implicit Types (h g : list (list location)) (d : PyDict.dict ref)
  (o : list string) (r : ref) (s : state) (word : string) (loc : location).

(** The word is in the index: its list grows in place. *)
Lemma append_known h g d o word loc r :
  wf {| heap := h; index := d; stdout := o |} ->
  PyDict.find d (PStr word) = Some r ->
  exists items, (h ++ g)%list !! r = Some items
    /\ let s' := {| heap := <[r := (items ++ [loc])%list]> (h ++ g)%list;
                    index := d; stdout := o |} in
       wf s'
       /\ contents s'
          = add_occurrence (view h d) word loc.
Proof.
  intros [Hnd Hval] E. simpl in *.
  assert (r < length h)%nat as Hr.
  { rewrite Forall_forall in Hval. by apply Hval, (find_Some_ref d (PStr word)). }
  destruct (lookup_lt_is_Some_2 h r Hr) as [items Hitems].
  exists items. split; [by apply lookup_app_l_Some|]. split.
  - split; simpl; [done|]. eapply Forall_impl; [exact Hval|].
    simpl. intros r' ?. rewrite length_insert, length_app. lia.
  - unfold contents, add_occurrence, PyDict.get. simpl.
    rewrite (view_insert _ _ (PStr word)); [|done|rewrite length_app; lia|done].
    rewrite view_app by done. rewrite find_view, E. simpl.
    by rewrite Hitems.
Qed.

(** The word is new: a list created at the end of the heap, holding the
    location, is stored under it. *)
Lemma append_new h d o word loc :
  wf {| heap := h; index := d; stdout := o |} ->
  PyDict.find d (PStr word) = None ->
  let s' := {| heap := <[length h := [loc]]> (h ++ [[]])%list;
               index := PyDict.setitem d (PStr word) (length h);
               stdout := o |} in
  wf s' /\ contents s' = add_occurrence (view h d) word loc.
Proof.
  intros [Hnd Hval] E. simpl in *.
  assert (length h ∉ map snd d) as Hfresh.
  { intros Hin. rewrite Forall_forall in Hval. specialize (Hval _ Hin). lia. }
  rewrite keys_setitem_absent by done. split.
  - split; simpl.
    + rewrite map_app. simpl. apply NoDup_app. split; [done|].
      split; [|apply NoDup_singleton].
      intros r Hr ->%list_elem_of_singleton. done.
    + rewrite map_app. apply Forall_app. split.
      * eapply Forall_impl; [exact Hval|]. simpl. intros r' ?.
        rewrite length_insert, length_app. simpl. lia.
      * constructor; [|constructor].
        simpl. rewrite length_insert, length_app. simpl. lia.
  - unfold contents, add_occurrence, PyDict.get. simpl.
    rewrite view_snoc, view_insert_other, view_app by done.
    rewrite list_lookup_insert_eq by (rewrite length_app; simpl; lia).
    rewrite find_view, E. simpl.
    rewrite keys_setitem_absent; [done|]. by rewrite find_view, E.
Qed.

Lemma lookup_fresh h : (h ++ [[]])%list !! length h = Some (@nil location).
Proof. rewrite lookup_app_r by lia. by rewrite Nat.sub_diag. Qed.

(** Example 3-2 *)
Lemma record_get_records : records record_get.
Proof.
  intros word loc [h d o] Hwf.
  unfold record_get, new_list, index_get, list_append, index_setitem.
  py_run. unfold PyDict.get.
  destruct (PyDict.find d (PStr word)) as [r|] eqn:E.
  - destruct (append_known h [[]] d o word loc r Hwf E)
      as (items & Hitems & Hwf' & Hc).
    rewrite Hitems. simpl. unfold set_index, set_heap. simpl.
    rewrite setitem_same by done. eauto.
  - rewrite lookup_fresh. simpl. unfold set_index, set_heap. simpl.
    destruct (append_new h d o word loc Hwf E) as [Hwf' Hc]. eauto.
Qed.

(** Example 3-4 *)
Lemma record_setdefault_records : records record_setdefault.
Proof.
  intros word loc [h d o] Hwf.
  unfold record_setdefault, new_list, index_setdefault, list_append.
  py_run. unfold PyDict.setdefault.
  destruct (PyDict.find d (PStr word)) as [r|] eqn:E; py_run.
  - destruct (append_known h [[]] d o word loc r Hwf E)
      as (items & Hitems & Hwf' & Hc).
    rewrite Hitems. simpl. unfold set_index, set_heap. simpl. eauto.
  - rewrite lookup_fresh. simpl. unfold set_index, set_heap. simpl.
    destruct (append_new h d o word loc Hwf E) as [Hwf' Hc]. eauto.
Qed.

(** Example 3-5 *)
Lemma record_default_records : records record_default.
Proof.
  intros word loc [h d o] Hwf.
  unfold record_default, defaultdict_getitem, default_factory,
    defaultdict_missing, new_list, index_setitem, list_append.
  py_run.
  destruct (PyDict.find d (PStr word)) as [r|] eqn:E; py_run.
  - destruct (append_known h [] d o word loc r Hwf E)
      as (items & Hitems & Hwf' & Hc).
    rewrite app_nil_r in *.
    rewrite Hitems. simpl. unfold set_index, set_heap. simpl. eauto.
  - rewrite lookup_fresh. simpl. unfold set_index, set_heap. simpl.
    destruct (append_new h d o word loc Hwf E) as [Hwf' Hc]. eauto.
Qed.

End RecordFacts.

Section ScriptFacts.
Import WordIndex.
Implicit Types (h : list (list location)) (d : PyDict.dict ref)
  (o : list string) (s : state) (fp : list string).

(** A loop whose body acts on the contents of the index as [f] does acts
    as the fold of [f]. *)
Lemma for_each_fold {A} (l : list A) (body : A -> Py state unit)
    (f : PyDict.dict (list location) -> A -> PyDict.dict (list location)) :
  (forall a s, wf s ->
     exists s', body a s = (Ok tt, s') /\ wf s'
       /\ contents s' = f (contents s) a /\ stdout s' = stdout s) ->
  forall s, wf s ->
    exists s', for_each l body s = (Ok tt, s') /\ wf s'
      /\ contents s' = fold_left f l (contents s) /\ stdout s' = stdout s.
Proof.
  intros Hbody. induction l as [|a l IH]; intros s Hwf; simpl.
  - exists s. by py_run.
  - destruct (Hbody a s Hwf) as (s1 & E1 & Hwf1 & Hc1 & Ho1).
    destruct (IH s1 Hwf1) as (s2 & E2 & Hwf2 & Hc2 & Ho2).
    exists s2. unfold mbind, Py_bind. rewrite E1, E2.
    split; [done|]. split; [done|]. split; congruence.
Qed.

Lemma scan_records record fp s :
  records record -> wf s ->
  exists s', scan fp record s = (Ok tt, s') /\ wf s'
    /\ contents s' = fold_left add_line (enumerate fp 1) (contents s)
    /\ stdout s' = stdout s.
Proof.
  intros Hrec. unfold scan. revert s. apply for_each_fold.
  intros [line_no line] s Hwf. unfold add_line. simpl.
  revert s Hwf. apply for_each_fold.
  intros [start word] s Hwf. simpl. by apply Hrec.
Qed.

(** The words of the index are strings. *)
Lemma keys_add_occurrence c word loc :
  Forall (fun k => isinstance_str k = true) (PyDict.keys c) ->
  Forall (fun k => isinstance_str k = true)
    (PyDict.keys (add_occurrence c word loc)).
Proof. by apply keys_setitem_Forall. Qed.

Lemma keys_add_line c numbered_line :
  Forall (fun k => isinstance_str k = true) (PyDict.keys c) ->
  Forall (fun k => isinstance_str k = true)
    (PyDict.keys (add_line c numbered_line)).
Proof.
  unfold add_line. generalize (finditer (snd numbered_line)).
  intros l. revert c. induction l as [|m l IH]; intros c Hd; simpl;
    [done|]. by apply IH, keys_add_occurrence.
Qed.

Lemma keys_word_index fp :
  Forall (fun k => isinstance_str k = true) (PyDict.keys (word_index fp)).
Proof.
  unfold word_index. generalize (enumerate fp 1) as l.
  assert (Forall (fun k => isinstance_str k = true)
            (PyDict.keys (V:=list location) [])) as H0 by constructor.
  revert H0. generalize (@nil (pyval * list location)) as c.
  intros c Hd l. revert c Hd.
  induction l as [|a l IH]; intros c Hd; simpl; [done|].
  by apply IH, keys_add_line.
Qed.

(** Sorting strings by [str.upper] does not raise, and returns some of the
    items it was given. *)
Lemma insert_sorted_elem {A} (kx ky : string * A) l :
  ky ∈ insert_sorted kx l -> ky = kx \/ ky ∈ l.
Proof.
  induction l as [|kz l IH]; simpl.
  - intros ->%list_elem_of_singleton. by left.
  - destruct (String.ltb _ _).
    + intros [->|Hin]%elem_of_cons; [by left|by right].
    + intros [->|Hin]%elem_of_cons; [right; by left|].
      destruct (IH Hin) as [->|?]; [by left|right; by right].
Qed.

Lemma fold_insert_sorted_elem {A} (ky : string * A) l acc :
  ky ∈ fold_left (fun acc kx => insert_sorted kx acc) l acc ->
  ky ∈ acc \/ ky ∈ l.
Proof.
  revert acc. induction l as [|kx l IH]; intros acc; simpl; [by left|].
  intros [Hin|Hin]%IH.
  - apply insert_sorted_elem in Hin as [->|?]; [right; by left|by left].
  - right. by right.
Qed.

Lemma decorate_str (l : list pyval) :
  Forall (fun k => isinstance_str k = true) l ->
  mapM (fun a => k ← str_upper a; Ok (k, a)) l
  = Ok (map (fun a => (upper (str a), a)) l).
Proof.
  induction l as [|a l IH]; [done|].
  intros [Ha Hl]%Forall_cons. destruct a; try discriminate.
  simpl in *. rewrite (IH Hl). reflexivity.
Qed.

Lemma sorted_str (l : list pyval) :
  Forall (fun k => isinstance_str k = true) l ->
  exists words, sorted l str_upper = Ok words
    /\ forall w, w ∈ words -> w ∈ l.
Proof.
  intros Hl. unfold sorted. rewrite (decorate_str l Hl).
  eexists. split; [reflexivity|]. intros w Hw.
  apply list_elem_of_fmap in Hw as ([k w'] & -> & Hin).
  apply fold_insert_sorted_elem in Hin as [Hin|Hin];
    [by apply elem_of_nil in Hin|].
  apply list_elem_of_fmap in Hin as (a & [= _ ->] & Hin). done.
Qed.

(** Printing: every word of the index is found and printed with the items
    of its list; nothing but the output changes. *)
Lemma print_words (getitem : pyval -> Py state ref) h d words :
  (forall k r o, PyDict.find d k = Some r ->
     getitem k {| heap := h; index := d; stdout := o |}
     = (Ok r, {| heap := h; index := d; stdout := o |})) ->
  Forall (fun r => (r < length h)%nat) (map snd d) ->
  (forall w, w ∈ words -> w ∈ PyDict.keys d) ->
  forall o,
    for_each words (fun word =>
      occurrences ← getitem word;
      items ← list_items occurrences;
      print (str word) (repr_list items))
      {| heap := h; index := d; stdout := o |}
    = (Ok tt,
       {| heap := h; index := d;
          stdout := (o ++ map (fun word =>
                       (str word ++ " "
                        ++ repr_list (PyDict.get (view h d) word []))%string)
                     words)%list |}).
Proof.
  intros Hget Hval. induction words as [|w words IH]; intros Hin o; simpl.
  - py_run. by rewrite app_nil_r.
  - destruct (find_key_present d w) as [r Hr]; [apply Hin; by left|].
    assert (r < length h)%nat as Hlt.
    { rewrite Forall_forall in Hval.
      by apply Hval, (find_Some_ref d w). }
    destruct (lookup_lt_is_Some_2 h r Hlt) as [items Hitems].
    unfold mbind at 1. unfold Py_bind at 1.
    unfold mbind at 1. unfold Py_bind at 1.
    rewrite (Hget w r o Hr).
    unfold list_items, print. py_run. rewrite Hitems. simpl.
    unfold set_stdout. simpl.
    rewrite IH by (intros w' ?; apply Hin; by right).
    rewrite <- app_assoc. simpl.
    unfold PyDict.get. rewrite find_view, Hr. simpl. by rewrite Hitems.
Qed.

Lemma print_index_run (getitem : pyval -> Py state ref) s :
  (forall k r h d o, PyDict.find d k = Some r ->
     getitem k {| heap := h; index := d; stdout := o |}
     = (Ok r, {| heap := h; index := d; stdout := o |})) ->
  wf s ->
  Forall (fun k => isinstance_str k = true) (PyDict.keys (index s)) ->
  print_index getitem s
  = (Ok tt, set_stdout (fun o => (o ++ render (contents s))%list) s).
Proof.
  intros Hget [_ Hval] Hstr. destruct s as [h d o]. simpl in *.
  destruct (sorted_str _ Hstr) as (words & Hsorted & Hwords).
  unfold print_index, render, contents. simpl.
  rewrite keys_view, Hsorted.
  unfold mbind at 1. unfold Py_bind at 1. unfold read at 1.
  unfold mbind at 1. unfold Py_bind at 1. unfold lift at 1.
  simpl. rewrite Hsorted.
  rewrite (print_words getitem h d words); [done| |done|done].
  intros k r o'. apply Hget.
Qed.

Lemma index_getitem_found k r h d o :
  PyDict.find d k = Some r ->
  index_getitem k {| heap := h; index := d; stdout := o |}
  = (Ok r, {| heap := h; index := d; stdout := o |}).
Proof.
  intros E. unfold index_getitem, PyDict.getitem. py_run. by rewrite E.
Qed.

Lemma defaultdict_getitem_found factory k r h d o :
  PyDict.find d k = Some r ->
  defaultdict_getitem factory k {| heap := h; index := d; stdout := o |}
  = (Ok r, {| heap := h; index := d; stdout := o |}).
Proof.
  intros E. unfold defaultdict_getitem. py_run. by rewrite E.
Qed.

(** A script: empty the index, scan the text, print. *)
Lemma script_run record getitem fp s0 :
  records record ->
  (forall k r h d o, PyDict.find d k = Some r ->
     getitem k {| heap := h; index := d; stdout := o |}
     = (Ok r, {| heap := h; index := d; stdout := o |})) ->
  exists s,
    (write (set_index (fun _ => []));; scan fp record;; print_index getitem)
      s0 = (Ok tt, s)
    /\ contents s = word_index fp
    /\ stdout s = (stdout s0 ++ render (word_index fp))%list.
Proof.
  intros Hrec Hget.
  set (s1 := set_index (fun _ => []) s0).
  assert (wf s1) as Hwf1 by (split; constructor).
  destruct (scan_records record fp s1 Hrec Hwf1)
    as (s2 & E2 & Hwf2 & Hc2 & Ho2).
  change (contents s1) with (@nil (pyval * list location)) in Hc2.
  fold (word_index fp) in Hc2.
  exists (set_stdout (fun o => (o ++ render (contents s2))%list) s2).
  split; [|split].
  - unfold mbind at 1. unfold Py_bind at 1. unfold write at 1.
    fold s1. unfold mbind at 1. unfold Py_bind at 1. rewrite E2.
    apply print_index_run; [done|done|].
    rewrite <- (keys_view (heap s2)). fold (contents s2). rewrite Hc2.
    apply keys_word_index.
  - by destruct s2.
  - simpl. by rewrite Hc2, Ho2.
Qed.

End ScriptFacts.

Section IndexFacts.
Import WordIndex.
Implicit Types (c : PyDict.dict (list location)) (word : string)
  (loc : location) (events : list (string * location)).

Lemma get_add_occurrence c word loc word' :
  PyDict.get (add_occurrence c word loc) (PStr word') []
  = if decide (word = word')
    then (PyDict.get c (PStr word') [] ++ [loc])%list
    else PyDict.get c (PStr word') [].
Proof.
  unfold add_occurrence, PyDict.get. rewrite find_setitem. simpl.
  case_bool_decide; case_decide; try done; by subst.
Qed.

Lemma get_add_all c events word :
  PyDict.get (fold_left (fun c e => add_occurrence c (fst e) (snd e)) events c)
             (PStr word) []
  = (PyDict.get c (PStr word) []
     ++ map snd (filter (fun e => fst e = word) events))%list.
Proof.
  revert c. induction events as [|[w loc] events IH]; intros c; simpl.
  - by rewrite app_nil_r.
  - rewrite IH, get_add_occurrence. rewrite filter_cons. simpl.
    case_decide; [|done]. simpl. by rewrite <- app_assoc.
Qed.

Lemma add_line_events c numbered_line :
  add_line c numbered_line
  = fold_left (fun c e => add_occurrence c (fst e) (snd e))
      (map (fun m => (snd m, (fst numbered_line, (fst m + 1)%Z)))
           (finditer (snd numbered_line))) c.
Proof.
  unfold add_line. generalize (finditer (snd numbered_line)) as l.
  intros l. revert c. induction l as [|m l IH]; intros c; simpl; [done|].
  apply IH.
Qed.

Lemma word_index_events fp :
  word_index fp
  = fold_left (fun c e => add_occurrence c (fst e) (snd e)) (occurrences fp) [].
Proof.
  unfold word_index, occurrences. generalize (enumerate fp 1) as l.
  generalize (@nil (pyval * list location)) as c.
  intros c l. revert c. induction l as [|nl l IH]; intros c; simpl; [done|].
  rewrite fold_left_app, <- add_line_events. apply IH.
Qed.

(** The index of a text holds, for every word, its locations in reading
    order. *)
Lemma word_index_locations fp word :
  PyDict.get (word_index fp) (PStr word) []
  = map snd (filter (fun e => fst e = word) (occurrences fp)).
Proof. rewrite word_index_events. apply get_add_all. Qed.

End IndexFacts.

(** C3.  On every text, and from any state the scripts are started in, the
    three scripts run to the end without raising and compute the same index:
    the same words in the same order, each with the same locations in the
    same order (the word index of the text, which gives every word its
    locations in reading order); and they print the same lines in the same
    order, the rendering of that index. *)
Theorem word_index_scripts_agree (fp : list string) (s0 : WordIndex.state) :
  exists s2 s4 s5,
    WordIndex.index_get_py fp s0 = (Ok tt, s2)
    /\ WordIndex.index_setdefault_py fp s0 = (Ok tt, s4)
    /\ WordIndex.index_default_py fp s0 = (Ok tt, s5)
    /\ WordIndex.contents s2 = WordIndex.contents s4
    /\ WordIndex.contents s4 = WordIndex.contents s5
    /\ WordIndex.contents s5 = WordIndex.word_index fp
    /\ WordIndex.stdout s2 = WordIndex.stdout s4
    /\ WordIndex.stdout s4 = WordIndex.stdout s5
    /\ WordIndex.stdout s5
       = (WordIndex.stdout s0
          ++ WordIndex.render (WordIndex.word_index fp))%list
    /\ (forall word,
          PyDict.get (WordIndex.contents s5) (PStr word) []
          = map snd (filter (fun e => fst e = word)
                            (WordIndex.occurrences fp))).
Proof.
  destruct (script_run WordIndex.record_get WordIndex.index_getitem fp s0
              record_get_records index_getitem_found) as (s2 & E2 & C2 & O2).
  destruct (script_run WordIndex.record_setdefault WordIndex.index_getitem fp
              s0 record_setdefault_records index_getitem_found)
    as (s4 & E4 & C4 & O4).
  destruct (script_run WordIndex.record_default
              (WordIndex.defaultdict_getitem WordIndex.default_factory) fp s0
              record_default_records
              (defaultdict_getitem_found WordIndex.default_factory))
    as (s5 & E5 & C5 & O5).
  exists s2, s4, s5. repeat split; try done; try congruence.
  intros word. rewrite C5. apply word_index_locations.
Qed.

(** C2.  When [key] is absent from the dict [index]: [index[key]] on a plain
    dict raises [KeyError(key)] and leaves the dict, and everything else, as
    it was; [index.get(key, [])] returns the new empty list it was given and
    leaves the dict as it was; and [index[key]] on a [defaultdict(list)]
    creates a new empty list, stores it under [key] at the end of the dict
    and returns it. *)
Theorem missing_key_handling (s : WordIndex.state) (key : pyval) :
  PyDict.contains (WordIndex.index s) key = false ->
  WordIndex.index_getitem key s = (Raise (KeyError key), s)
  /\ (exists r s',
        (empty ← WordIndex.new_list; WordIndex.index_get key empty) s
        = (Ok r, s')
        /\ WordIndex.heap s !! r = None
        /\ WordIndex.heap s' !! r = Some []
        /\ WordIndex.index s' = WordIndex.index s)
  /\ (exists r s',
        WordIndex.defaultdict_getitem (Some WordIndex.new_list) key s
        = (Ok r, s')
        /\ WordIndex.heap s !! r = None
        /\ WordIndex.heap s' !! r = Some []
        /\ WordIndex.index s' = (WordIndex.index s ++ [(key, r)])%list
        /\ PyDict.getitem (WordIndex.index s') key = Ok r).
Proof.
  intros Habs%contains_false_find. destruct s as [h d o]. simpl in *.
  split; [|split].
  - unfold WordIndex.index_getitem, PyDict.getitem. py_run. by rewrite Habs.
  - exists (length h), {| WordIndex.heap := (h ++ [[]])%list;
                          WordIndex.index := d; WordIndex.stdout := o |}.
    split; [|split; [|split]].
    + unfold WordIndex.new_list, WordIndex.index_get, PyDict.get. py_run.
      by rewrite Habs.
    + by apply lookup_ge_None.
    + apply lookup_fresh.
    + done.
  - exists (length h),
      {| WordIndex.heap := (h ++ [[]])%list;
         WordIndex.index := PyDict.setitem d key (length h);
         WordIndex.stdout := o |}.
    split; [|split; [|split; [|split]]]; simpl.
    + unfold WordIndex.defaultdict_getitem, WordIndex.defaultdict_missing,
        WordIndex.new_list, WordIndex.index_setitem.
      py_run. by rewrite Habs.
    + by apply lookup_ge_None.
    + apply lookup_fresh.
    + by apply keys_setitem_absent.
    + unfold PyDict.getitem. rewrite find_setitem. by rewrite py_eq_refl.
Qed.

Lemma missing_key_handling_witness :
  let s := snd (WordIndex.index_get_py ["one two"] WordIndex.initial) in
  WordIndex.index_getitem (PStr "three") s = (Raise (KeyError (PStr "three")), s).
Proof.
  intros s.
  apply (missing_key_handling s (PStr "three")).
  reflexivity.
Defined.

(** ** Running to completion *)

(** C5.  Every snippet and method runs to completion.  Indexing a
    [StrKeyDict] returns or raises for every instance and key within two
    nested calls of [__getitem__], and a larger allowance gives the same
    answer: [__missing__] raises at once on a string, and on any other key
    it indexes once more, with the string [str(k)], on which it would raise
    at once.  Iterating a deck, which calls [__getitem__] until it raises
    [IndexError], ends after one call more than the deck has cards.  The
    three word-index scripts run to their end on every text.  Everything
    else in the notebooks recurs on the structure of its input or not at
    all. *)
Theorem snippets_run_to_completion {V} (self : StrKeyDict.instance V)
    (key : pyval) (deck : Deck.FrenchDeck) (fp : list string)
    (s0 : WordIndex.state) :
  (exists r, StrKeyDict.__getitem__ 2 self key = Some r)
  /\ (forall n, StrKeyDict.__getitem__ (2 + n) self key
                = StrKeyDict.__getitem__ 2 self key)
  /\ (forall g, StrKeyDict.__missing__ g self key
                = if isinstance_str key then Some (Raise (KeyError key))
                  else g self (PStr (str key)))
  /\ (forall g, StrKeyDict.__missing__ g self (PStr (str key))
                = Some (Raise (KeyError (PStr (str key)))))
  /\ Deck.iterate (S (length (Deck._cards deck))) 0 deck
     = (Ok (Some (map Item (Deck._cards deck))), deck)
  /\ (exists s, WordIndex.index_get_py fp s0 = (Ok tt, s))
  /\ (exists s, WordIndex.index_setdefault_py fp s0 = (Ok tt, s))
  /\ (exists s, WordIndex.index_default_py fp s0 = (Ok tt, s)).
Proof.
  assert (forall n, StrKeyDict.__getitem__ (S (S n)) self key
            = if PyDict.contains (StrKeyDict.data self) key
              then Some (PyDict.getitem (StrKeyDict.data self) key)
              else if isinstance_str key then Some (Raise (KeyError key))
              else Some (PyDict.getitem (StrKeyDict.data self)
                           (PStr (str key)))) as E.
  { intros n.
    destruct (PyDict.contains (StrKeyDict.data self) key) eqn:Hc.
    - by rewrite getitem_present.
    - rewrite getitem_absent by done. unfold StrKeyDict.__missing__.
      destruct (isinstance_str key); [done|]. apply getitem_str. }
  split; [|split; [|split; [|split; [|split; [|split; [|split]]]]]].
  - rewrite (E 0%nat). repeat destruct (_ : bool); eauto.
  - intros n. change (2 + n)%nat with (S (S n)). by rewrite E, (E 0%nat).
  - done.
  - done.
  - destruct deck as [cards]. apply (iterate_from [] cards).
  - destruct (script_run WordIndex.record_get WordIndex.index_getitem fp s0
                record_get_records index_getitem_found) as (s & E' & _).
    by exists s.
  - destruct (script_run WordIndex.record_setdefault WordIndex.index_getitem
                fp s0 record_setdefault_records index_getitem_found)
      as (s & E' & _).
    by exists s.
  - destruct (script_run WordIndex.record_default
                (WordIndex.defaultdict_getitem WordIndex.default_factory) fp s0
                record_default_records
                (defaultdict_getitem_found WordIndex.default_factory))
      as (s & E' & _).
    by exists s.
Qed.

(** * Further properties *)

(** ** StrKeyDict: assignment, update and the inherited methods *)

Section DictRemoveFacts.
Context {V : Type}.
Implicit Types (d : PyDict.dict V) (k key : pyval) (v : V).

Lemma find_remove_ne d k key :
  py_eq k key = false ->
  PyDict.find (dict_remove d k) key = PyDict.find d key.
Proof.
  intros Hne. induction d as [|[k0 v0] d IH]; simpl; [done|].
  destruct (py_eq k0 k) eqn:E0; simpl.
  - rewrite (py_eq_true_l _ _ key E0), Hne. done.
  - by rewrite IH.
Qed.

Lemma keys_remove_subseteq d k : PyDict.keys (dict_remove d k) ⊆ PyDict.keys d.
Proof.
  induction d as [|[k0 v0] d IH]; simpl; [done|].
  destruct (py_eq k0 k); simpl.
  - intros x Hx. by right.
  - intros x [->|Hx]%elem_of_cons; [by left|right; by apply IH].
Qed.

Lemma keys_remove_NoDup d k :
  NoDup (PyDict.keys d) -> NoDup (PyDict.keys (dict_remove d k)).
Proof.
  induction d as [|[k0 v0] d IH]; simpl; [done|].
  intros [H0 Hd]%NoDup_cons. destruct (py_eq k0 k); simpl; [done|].
  apply NoDup_cons. split; [|by apply IH].
  intros Hin. by apply H0, (keys_remove_subseteq d k).
Qed.

Lemma find_remove_str d s :
  NoDup (PyDict.keys d) -> PyDict.find (dict_remove d (PStr s)) (PStr s) = None.
Proof.
  induction d as [|[k0 v0] d IH]; simpl; [done|].
  intros [H0 Hd]%NoDup_cons. rewrite py_eq_str_r. case_bool_decide as E.
  - subst k0. simpl in H0.
    destruct (PyDict.find d (PStr s)) eqn:F; [|done].
    destruct H0. apply contains_str_keys. unfold PyDict.contains. by rewrite F.
  - simpl. rewrite py_eq_str_r. rewrite bool_decide_eq_false_2 by done.
    by apply IH.
Qed.

Lemma length_remove d k :
  PyDict.contains d k = true -> S (length (dict_remove d k)) = length d.
Proof.
  unfold PyDict.contains.
  induction d as [|[k0 v0] d IH]; simpl; [done|].
  destruct (py_eq k0 k); simpl; [done|]. intros E. by rewrite IH.
Qed.

Lemma keys_setitem_NoDup_str d s v :
  NoDup (PyDict.keys d) -> NoDup (PyDict.keys (PyDict.setitem d (PStr s) v)).
Proof.
  intros Hd. destruct (PyDict.contains d (PStr s)) eqn:E.
  - by rewrite keys_setitem_present.
  - rewrite keys_setitem_absent by (by apply contains_false_find).
    unfold PyDict.keys. rewrite map_app. simpl.
    apply NoDup_app. split; [done|]. split; [|apply NoDup_singleton].
    intros x Hx ->%list_elem_of_singleton.
    apply contains_str_keys in Hx. congruence.
Qed.

End DictRemoveFacts.

Section InheritedFacts.
Context {V : Type}.
Implicit Types (self : StrKeyDict.instance V) (key : pyval) (item : V).

Lemma getitem_setitem self key item key' n :
  StrKeyDict.str_keys self ->
  StrKeyDict.__getitem__ (S (S n)) (StrKeyDict.__setitem__ self key item) key'
  = if bool_decide (str key' = str key) then Some (Ok item)
    else StrKeyDict.__getitem__ (S (S n)) self key'.
Proof.
  intros Hd. rewrite !getitem_any by (done || by apply str_keys_setitem).
  unfold PyDict.getitem. simpl. rewrite find_setitem. simpl.
  case_bool_decide as E1; case_bool_decide as E2; try done; congruence.
Qed.

Lemma well_formed_setitem self key item :
  Inherited.well_formed self ->
  Inherited.well_formed (StrKeyDict.__setitem__ self key item).
Proof.
  intros [Hs Hn]. split; [by apply str_keys_setitem|].
  by apply keys_setitem_NoDup_str.
Qed.

Lemma well_formed_update self other kwds :
  Inherited.well_formed self ->
  Inherited.well_formed (StrKeyDict.update self other kwds).
Proof.
  unfold StrKeyDict.update. intros Hd.
  assert (Inherited.well_formed
            (fold_left (fun s kv => StrKeyDict.__setitem__ s (fst kv) (snd kv))
               other self)) as Hd'.
  { revert self Hd. induction other as [|kv other IH]; intros self Hd;
      simpl; [done|]. apply IH. by apply well_formed_setitem. }
  revert Hd'. generalize (fold_left
    (fun s kv => StrKeyDict.__setitem__ s (fst kv) (snd kv)) other self).
  induction kwds as [|kv kwds IH]; intros self' Hd'; simpl; [done|].
  apply IH. by apply well_formed_setitem.
Qed.

Lemma well_formed_init (dict : option (list (pyval * V))) kwargs :
  Inherited.well_formed (StrKeyDict.__init__ dict kwargs).
Proof.
  unfold StrKeyDict.__init__.
  assert (Inherited.well_formed (V:=V) {| StrKeyDict.data := [] |}) as H0
    by (split; constructor).
  assert (Inherited.well_formed (V:=V)
            match dict with
            | Some d => StrKeyDict.update {| StrKeyDict.data := [] |} d []
            | None => {| StrKeyDict.data := [] |}
            end) as H1.
  { destruct dict; [|done]. by apply well_formed_update. }
  destruct (0 <? _)%Z; [|done]. by apply well_formed_update.
Qed.

Lemma delitem_run self key :
  Inherited.__delitem__ key self
  = if PyDict.contains (StrKeyDict.data self) key
    then (Ok tt, {| StrKeyDict.data := dict_remove (StrKeyDict.data self) key |})
    else (Raise (KeyError key), self).
Proof.
  unfold Inherited.__delitem__, dict_delitem.
  by destruct (PyDict.contains _ _).
Qed.

Lemma well_formed_remove self key :
  Inherited.well_formed self ->
  Inherited.well_formed
    {| StrKeyDict.data := dict_remove (StrKeyDict.data self) key |}.
Proof.
  intros [Hs Hn]. split; [|by apply keys_remove_NoDup].
  unfold StrKeyDict.str_keys in *. simpl. rewrite Forall_forall in Hs.
  apply Forall_forall. intros k Hk. by apply Hs, (keys_remove_subseteq _ key).
Qed.

Lemma well_formed_delitem self key :
  Inherited.well_formed self ->
  Inherited.well_formed (snd (Inherited.__delitem__ key self)).
Proof.
  intros Hd. rewrite delitem_run. destruct (PyDict.contains _ _); [|done].
  by apply well_formed_remove.
Qed.

Lemma well_formed_perform self c :
  Inherited.well_formed self ->
  Inherited.well_formed (Inherited.perform self c).
Proof.
  intros Hd. destruct c as [key item|other kwds|key|key default|key default];
    simpl.
  - by apply well_formed_setitem.
  - by apply well_formed_update.
  - by apply well_formed_delitem.
  - unfold Inherited.setdefault.
    destruct (StrKeyDict.__getitem__ 2 self key) as [[v|[]]|]; try done.
    by apply well_formed_setitem.
  - unfold Inherited.pop.
    destruct (StrKeyDict.__getitem__ 2 self key) as [[v|[]]|]; try done.
    + pose proof (well_formed_delitem self key Hd) as Hd'.
      by destruct (Inherited.__delitem__ key self) as [[[]|e] self'].
    + by destruct default.
Qed.

End InheritedFacts.

(** X1.  Assignment then lookup.  After [d[k] = item], indexing with any key
    whose string form is that of [k] (so [k] itself, or [str(k)], or another
    key printing the same) returns [item], and indexing with a key of another
    string form answers as before the assignment. *)
Theorem strkeydict_assign_then_lookup {V} (self : StrKeyDict.instance V)
    (key key' : pyval) (item : V) (n : nat) :
  StrKeyDict.str_keys self ->
  (str key' = str key ->
   StrKeyDict.__getitem__ (S (S n)) (StrKeyDict.__setitem__ self key item) key'
   = Some (Ok item))
  /\ (str key' <> str key ->
      StrKeyDict.__getitem__ (S (S n)) (StrKeyDict.__setitem__ self key item)
        key'
      = StrKeyDict.__getitem__ (S (S n)) self key').
Proof.
  intros Hd. split; intros E; rewrite getitem_setitem by done.
  - by rewrite bool_decide_eq_true_2.
  - by rewrite bool_decide_eq_false_2.
Qed.

Lemma strkeydict_assign_then_lookup_witness :
  let d := StrKeyDict.__init__ (Some [(PStr "4", "four")]) [] in
  StrKeyDict.__getitem__ 2 (StrKeyDict.__setitem__ d (PInt 13) "led")
    (PStr "13") = Some (Ok "led").
Proof.
  intros d.
  apply (proj1 (strkeydict_assign_then_lookup d (PInt 13) (PStr "13") "led" 0
                  (str_keys_init _ _))).
  reflexivity.
Defined.


(** X3.  The keys of an instance stay strings, no two alike, through every
    way the class offers to change it: built by [__init__] from any pairs and
    keyword arguments, then changed by any sequence of assignments, updates,
    deletions, [setdefault] and [pop] calls, whether they return or raise. *)
Theorem strkeydict_keys_distinct {V} (dict : option (list (pyval * V)))
    (kwargs : list (string * V)) (calls : list (Inherited.call (V:=V))) :
  let d := fold_left Inherited.perform calls (StrKeyDict.__init__ dict kwargs) in
  Forall (fun k => isinstance_str k = true) (Inherited.__iter__ d)
  /\ NoDup (Inherited.__iter__ d)
  /\ NoDup (map str (Inherited.__iter__ d)).
Proof.
  intros d.
  assert (Inherited.well_formed d) as [Hs Hn].
  { subst d. generalize (well_formed_init dict kwargs).
    generalize (StrKeyDict.__init__ dict kwargs).
    induction calls as [|c calls IH]; intros self Hd; simpl; [done|].
    by apply IH, well_formed_perform. }
  split; [done|]. split; [done|].
  unfold Inherited.__iter__, StrKeyDict.str_keys in *.
  induction (PyDict.keys (StrKeyDict.data d)) as [|k l IH]; [constructor|].
  apply NoDup_cons in Hn as [Hk Hn]. apply Forall_cons in Hs as [Hk' Hs].
  simpl. apply NoDup_cons. split; [|by apply IH].
  intros Hin. apply list_elem_of_fmap in Hin as (k2 & E & Hin).
  rewrite Forall_forall in Hs. specialize (Hs k2 Hin).
  destruct k; try discriminate. destruct k2; try discriminate.
  simpl in E. by subst.
Qed.

(** X4.  In an update the last pair wins.  After [d.update(other, **kwds)],
    indexing with [k] returns the value of the last pair, among those of
    [other] followed by the keyword arguments, whose key has the string form
    of [k]; when there is none it answers as before the update. *)
Theorem strkeydict_update_last_wins {V} (self : StrKeyDict.instance V)
    (other : list (pyval * V)) (kwds : list (string * V)) (key : pyval)
    (n : nat) :
  StrKeyDict.str_keys self ->
  StrKeyDict.__getitem__ (S (S n)) (StrKeyDict.update self other kwds) key
  = match last (filter (fun kv => str (fst kv) = str key)
                  (other ++ map (fun kv => (PStr (fst kv), snd kv)) kwds)%list)
    with
    | Some kv => Some (Ok (snd kv))
    | None => StrKeyDict.__getitem__ (S (S n)) self key
    end.
Proof.
  intros Hd. unfold StrKeyDict.update.
  assert (forall (l : list (string * V)) (s : StrKeyDict.instance V),
            fold_left (fun s kv => StrKeyDict.__setitem__ s (PStr (fst kv)) (snd kv))
              l s
            = fold_left (fun s kv => StrKeyDict.__setitem__ s (fst kv) (snd kv))
                (map (fun kv => (PStr (fst kv), snd kv)) l) s) as ->.
  { intros l. induction l as [|kv l IH]; intros s; simpl; [done|]. apply IH. }
  rewrite <- fold_left_app.
  generalize (other ++ map (fun kv => (PStr (fst kv), snd kv)) kwds)%list.
  intros l. revert self Hd.
  induction l as [|[k v] l IH]; intros self Hd; [done|].
  cbn [fold_left fst snd]. rewrite IH by (by apply str_keys_setitem).
  rewrite filter_cons. cbn [fst snd]. rewrite getitem_setitem by done.
  case_decide as E.
  - rewrite bool_decide_eq_true_2 by done.
    destruct (filter _ l) as [|kv' l'] eqn:F; [done|].
    rewrite last_cons_cons.
    destruct (last (kv' :: l')) eqn:L; [done|]. by apply last_None in L.
  - by rewrite bool_decide_eq_false_2 by (intros E'; by apply E).
Qed.

Lemma strkeydict_update_last_wins_witness :
  let d := StrKeyDict.__init__ (Some [(PStr "4", "four")]) [] in
  StrKeyDict.__getitem__ 2
    (StrKeyDict.update d [(PInt 1, "a"); (PStr "1", "b"); (PInt 2, "c")]
       [("1", "z")]) (PInt 1)
  = Some (Ok "z").
Proof.
  intros d.
  apply (strkeydict_update_last_wins d
           [(PInt 1, "a"); (PStr "1", "b"); (PInt 2, "c")] [("1", "z")]
           (PInt 1) 0).
  apply str_keys_init.
Defined.

(** X5.  Deleting is not normalised.  On an instance whose keys are all
    strings, no two alike, as the methods of the class keep them, [del d[k]]
    looks [k] itself up in [data]: with a key that is not a string it raises
    [KeyError(k)] and leaves [d] as it was, even when [k in d] holds.  With
    a string that is a key it removes that entry: afterwards the key is not
    in [d], [len(d)] is one less, and the other keys answer as before. *)
Theorem strkeydict_delitem {V} (self : StrKeyDict.instance V) (key : pyval) :
  Inherited.well_formed self ->
  (isinstance_str key = false ->
   Inherited.__delitem__ key self = (Raise (KeyError key), self))
  /\ (isinstance_str key = true ->
      StrKeyDict.__contains__ self key = Ok false ->
      Inherited.__delitem__ key self = (Raise (KeyError key), self))
  /\ (isinstance_str key = true ->
      StrKeyDict.__contains__ self key = Ok true ->
      exists self',
        Inherited.__delitem__ key self = (Ok tt, self')
        /\ Inherited.well_formed self'
        /\ StrKeyDict.__contains__ self' key = Ok false
        /\ (Inherited.__len__ self' + 1 = Inherited.__len__ self)%Z
        /\ forall key' n, str key' <> str key ->
             StrKeyDict.__getitem__ (S (S n)) self' key'
             = StrKeyDict.__getitem__ (S (S n)) self key').
Proof.
  intros Hwf. pose proof Hwf as [Hs Hn]. rewrite delitem_run.
  split; [|split].
  - intros Hk. rewrite (proj2 (contains_false_find _ _)); [done|].
    by apply str_keys_find_nonstr.
  - intros Hk. destruct key as [| | |s]; try discriminate.
    unfold StrKeyDict.__contains__. simpl. by intros [= ->].
  - intros Hk. destruct key as [| | |s]; try discriminate.
    unfold StrKeyDict.__contains__. cbn [str]. intros [= E]. rewrite E.
    eexists. split; [reflexivity|].
    pose proof (well_formed_remove self (PStr s) Hwf) as Hwf'.
    split; [done|]. split; [|split].
    + f_equal. apply contains_false_find. simpl. by apply find_remove_str.
    + unfold Inherited.__len__, len. simpl.
      rewrite <- (length_remove _ _ E). lia.
    + intros key' n Hne. rewrite !getitem_any by (done || apply Hwf').
      unfold PyDict.getitem. simpl. rewrite find_remove_ne; [done|].
      simpl. apply bool_decide_eq_false_2. congruence.
Qed.

Lemma strkeydict_delitem_witness :
  let d := StrKeyDict.__init__ (Some [(PInt 2, "two"); (PStr "4", "four")]) [] in
  StrKeyDict.__contains__ d (PInt 2) = Ok true
  /\ Inherited.__delitem__ (PInt 2) d = (Raise (KeyError (PInt 2)), d).
Proof.
  intros d. split; [reflexivity|].
  apply (proj1 (strkeydict_delitem d (PInt 2) (well_formed_init _ _))).
  reflexivity.
Defined.

(** X6.  [d.get(k, default)] never raises: it returns [d.data[str(k)]] when
    [str(k)] is a key and [default] otherwise, for string and other keys
    alike. *)
Theorem strkeydict_get {V} (self : StrKeyDict.instance V) (key : pyval)
    (default : V) (n : nat) :
  StrKeyDict.str_keys self ->
  Inherited.get (S (S n)) self key default
  = Some (Ok (PyDict.get (StrKeyDict.data self) (PStr (str key)) default)).
Proof.
  intros Hd. unfold Inherited.get. rewrite getitem_any by done.
  unfold PyDict.getitem, PyDict.get. by destruct (PyDict.find _ _).
Qed.

Lemma strkeydict_get_witness :
  let d := StrKeyDict.__init__ (Some [(PInt 2, "two"); (PStr "4", "four")]) [] in
  Inherited.get 2 d (PInt 4) "none"
  = Some (Ok (PyDict.get (StrKeyDict.data d) (PStr (str (PInt 4))) "none")).
Proof.
  intros d.
  apply (strkeydict_get d (PInt 4) "none" 0).
  apply str_keys_init.
Defined.

(** X7.  [d.pop(k)] fetches with [d[k]] but deletes with [del d[k]].  On an
    instance whose keys are all strings, no two alike, as the methods of the
    class keep them: with a string key that is present it returns the value
    and removes the entry.
    With a key that is not a string and whose string form is present, the
    value is found but the deletion raises [KeyError(k)]: the call raises,
    with or without a default, and [d] keeps the entry.  When the string form
    is absent it returns the default, or raises [KeyError] without one, and
    [d] is as it was. *)
Theorem strkeydict_pop {V} (self : StrKeyDict.instance V) (key : pyval)
    (default : option V) (n : nat) :
  Inherited.well_formed self ->
  match PyDict.find (StrKeyDict.data self) (PStr (str key)) with
  | Some value =>
      if isinstance_str key
      then exists self',
             Inherited.pop (S (S n)) key default self = Some (Ok value, self')
             /\ StrKeyDict.__contains__ self' key = Ok false
      else Inherited.pop (S (S n)) key default self
           = Some (Raise (KeyError key), self)
  | None =>
      Inherited.pop (S (S n)) key default self
      = Some (match default with
              | Some v => Ok v
              | None => Raise (KeyError (PStr (str key)))
              end, self)
  end.
Proof.
  intros Hwf. pose proof Hwf as [Hs Hn]. unfold Inherited.pop.
  rewrite getitem_any by done. unfold PyDict.getitem.
  destruct (PyDict.find _ _) as [value|] eqn:E.
  - rewrite delitem_run. destruct (isinstance_str key) eqn:Hk.
    + destruct key as [| | |s]; try discriminate. simpl in E.
      rewrite (proj2 (contains_find _ _)) by eauto.
      eexists. split; [reflexivity|]. unfold StrKeyDict.__contains__.
      f_equal. apply contains_false_find. simpl. by apply find_remove_str.
    + rewrite (proj2 (contains_false_find _ _)); [done|].
      by apply str_keys_find_nonstr.
  - by destruct default.
Qed.

Lemma strkeydict_pop_witness :
  let d := StrKeyDict.__init__ (Some [(PInt 2, "two"); (PStr "4", "four")]) [] in
  Inherited.pop 2 (PInt 2) (Some "none") d = Some (Raise (KeyError (PInt 2)), d).
Proof.
  intros d.
  apply (strkeydict_pop d (PInt 2) (Some "none") 0).
  apply well_formed_init.
Defined.

(** X8.  [d.setdefault(k, default)] returns the value under [str(k)] and
    changes nothing when that is a key; otherwise it stores [default] under
    [str(k)] and returns it.  Either way [d[k]] then returns what it
    returned. *)
Theorem strkeydict_setdefault {V} (self : StrKeyDict.instance V)
    (key : pyval) (default : V) (n : nat) :
  StrKeyDict.str_keys self ->
  exists value self',
    Inherited.setdefault (S (S n)) key default self = Some (Ok value, self')
    /\ value = PyDict.get (StrKeyDict.data self) (PStr (str key)) default
    /\ self' = (if PyDict.contains (StrKeyDict.data self) (PStr (str key))
                then self else StrKeyDict.__setitem__ self key default)
    /\ StrKeyDict.__getitem__ (S (S n)) self' key = Some (Ok value).
Proof.
  intros Hd. unfold Inherited.setdefault. rewrite getitem_any by done.
  unfold PyDict.getitem, PyDict.get, PyDict.contains.
  destruct (PyDict.find _ _) as [value|] eqn:E.
  - exists value, self. repeat split; try done.
    rewrite getitem_any by done. unfold PyDict.getitem. by rewrite E.
  - exists default, (StrKeyDict.__setitem__ self key default).
    repeat split; try done.
    rewrite getitem_setitem by done. by rewrite bool_decide_eq_true_2.
Qed.

Lemma strkeydict_setdefault_witness :
  let d := StrKeyDict.__init__ (Some [(PInt 2, "two"); (PStr "4", "four")]) [] in
  exists value d',
    Inherited.setdefault 2 (PInt 3) "three" d = Some (Ok value, d')
    /\ value = PyDict.get (StrKeyDict.data d) (PStr (str (PInt 3))) "three"
    /\ d' = (if PyDict.contains (StrKeyDict.data d) (PStr (str (PInt 3)))
             then d else StrKeyDict.__setitem__ d (PInt 3) "three")
    /\ StrKeyDict.__getitem__ 2 d' (PInt 3) = Some (Ok value).
Proof.
  intros d.
  apply (strkeydict_setdefault d (PInt 3) "three" 0).
  apply str_keys_init.
Defined.

(** ** The word-index scripts: the tokenizer *)

Section TokenizerFacts.
Import WordIndex Text.

Lemma chars_append a b : chars (a ++ b) = (chars a ++ chars b)%list.
Proof. induction a as [|c a IH]; simpl; [done|]. by rewrite IH. Qed.

Lemma chars_nonempty s : s <> "" -> chars s <> [].
Proof. by destruct s. Qed.

Lemma reading_start : reading [] None.
Proof. by intros c. Qed.

(** One more word character. *)
Lemma reading_word pre cur c :
  reading pre cur -> word_char c = true ->
  reading (pre ++ [c])
    (Some match cur with
          | Some (start, group) => (start, group ++ String c "")
          | None => (Z.of_nat (length pre), String c "")
          end).
Proof.
  intros Hr Hc. destruct cur as [[start group]|]; simpl in *.
  - destruct Hr as (pre0 & -> & -> & Hne & Hw & Hb).
    exists pre0. rewrite chars_append, app_assoc. simpl.
    repeat split; try done.
    + by destruct group.
    + apply Forall_app. split; [done|]. by constructor.
  - exists pre. simpl. repeat split; try done. by repeat constructor.
Qed.

(** One more character that is not a word character. *)
Lemma reading_other pre (cur : option (Z * string)) c :
  word_char c = false -> reading (pre ++ [c]) None.
Proof. intros Hc c'. rewrite last_snoc. by intros [= <-]. Qed.

(** Every match is a whole run of word characters of the line, at the
    position the match gives. *)
Lemma finditer_from_sound line : forall pre cur,
  reading pre cur ->
  Forall (fun m => run_at (pre ++ chars line) (fst m) (snd m))
    (finditer_from (Z.of_nat (length pre)) cur line).
Proof.
  induction line as [|c rest IH]; intros pre cur Hr; simpl.
  - destruct cur as [[start group]|]; [|constructor].
    constructor; [|constructor]. simpl.
    destruct Hr as (pre0 & -> & -> & Hne & Hw & Hb).
    exists pre0, []. rewrite !app_nil_r. repeat split; try done.
  - assert (pre ++ c :: chars rest = (pre ++ [c]) ++ chars rest)%list as ->
      by (by rewrite <- app_assoc).
    assert (Z.of_nat (length pre) + 1 = Z.of_nat (length (pre ++ [c])))%Z as ->
      by (rewrite length_app; simpl; lia).
    destruct (word_char c) eqn:Hc.
    + apply IH. by apply reading_word.
    + pose proof (reading_other pre cur c Hc) as Hr'.
      destruct cur as [[start group]|]; [|by apply IH].
      constructor; [|by apply IH]. simpl.
      destruct Hr as (pre0 & -> & -> & Hne & Hw & Hb).
      exists pre0, (c :: chars rest). rewrite <- !app_assoc. simpl.
      repeat split; try done. by intros c' [= <-].
Qed.

Lemma length_chars s : length (chars s) = String.length s.
Proof. induction s as [|c s IH]; simpl; [done|]. by rewrite IH. Qed.

Lemma reading_end pre start group :
  reading pre (Some (start, group)) ->
  (start + Z.of_nat (String.length group) = Z.of_nat (length pre))%Z
  /\ (0 <= start)%Z.
Proof.
  intros (pre0 & -> & -> & _). rewrite length_app, length_chars. lia.
Qed.

(** The matches come from left to right, each starting after the end of the
    one before and a character between them. *)
Lemma finditer_from_ordered line : forall pre cur,
  reading pre cur ->
  Forall (fun m => (next_start pre cur <= fst m)%Z)
    (finditer_from (Z.of_nat (length pre)) cur line)
  /\ StronglySorted
       (fun m1 m2 => (fst m1 + Z.of_nat (String.length (snd m1)) < fst m2)%Z)
       (finditer_from (Z.of_nat (length pre)) cur line).
Proof.
  induction line as [|c rest IH]; intros pre cur Hr; simpl.
  - destruct cur as [[start group]|]; simpl.
    + split; repeat constructor. simpl. lia.
    + split; constructor.
  - assert (Z.of_nat (length pre) + 1 = Z.of_nat (length (pre ++ [c])))%Z as E
      by (rewrite length_app; simpl; lia).
    rewrite E. destruct (word_char c) eqn:Hc.
    + destruct (IH _ _ (reading_word pre cur c Hr Hc)) as [Hlow Hsort].
      split; [|done]. by destruct cur as [[start group]|].
    + pose proof (reading_other pre cur c Hc) as Hr'.
      destruct (IH _ _ Hr') as [Hlow Hsort]. simpl in Hlow.
      destruct cur as [[start group]|]; simpl.
      * destruct (reading_end _ _ _ Hr) as [Hend H0].
        split.
        -- constructor; [simpl; lia|].
           eapply Forall_impl; [exact Hlow|]. simpl. intros m Hm. lia.
        -- constructor; [done|].
           eapply Forall_impl; [exact Hlow|]. simpl. intros m Hm. lia.
      * split; [|done].
        eapply Forall_impl; [exact Hlow|]. simpl. intros m Hm. lia.
Qed.

(** No word character is left out: each lies in a match. *)
Lemma finditer_from_complete line : forall pre cur,
  reading pre cur ->
  forall (p : nat) c,
    (pre ++ chars line)%list !! p = Some c -> word_char c = true ->
    (next_start pre cur <= Z.of_nat p)%Z ->
    exists m, m ∈ finditer_from (Z.of_nat (length pre)) cur line
      /\ (fst m <= Z.of_nat p < fst m + Z.of_nat (String.length (snd m)))%Z.
Proof.
  induction line as [|c rest IH]; intros pre cur Hr p ch Hp Hch Hlow; simpl.
  - rewrite app_nil_r in Hp. pose proof (lookup_lt_Some _ _ _ Hp) as Hlt.
    destruct cur as [[start group]|]; simpl in Hlow; [|lia].
    destruct (reading_end _ _ _ Hr) as [Hend H0].
    exists (start, group). split; [by left|]. simpl. lia.
  - assert (Z.of_nat (length pre) + 1 = Z.of_nat (length (pre ++ [c])))%Z as E
      by (rewrite length_app; simpl; lia).
    assert (pre ++ chars (String c rest) = (pre ++ [c]) ++ chars rest)%list
      as EL by (simpl; by rewrite <- app_assoc).
    rewrite EL in Hp. rewrite E. destruct (word_char c) eqn:Hc.
    + apply (IH _ _ (reading_word pre cur c Hr Hc) p ch Hp Hch).
      by destruct cur as [[start group]|].
    + pose proof (reading_other pre cur c Hc) as Hr'.
      assert (p <> length pre) as Hne.
      { intros ->. rewrite lookup_app_l in Hp
          by (rewrite length_app; simpl; lia).
        rewrite lookup_app_r in Hp by lia.
        rewrite Nat.sub_diag in Hp. simpl in Hp. congruence. }
      destruct (decide (length pre < p)%nat) as [Hgt|Hle].
      * destruct (IH _ _ Hr' p ch Hp Hch) as (m & Hm & Hin).
        { simpl. rewrite length_app. simpl. lia. }
        exists m. split; [|done].
        destruct cur as [[start group]|]; [by right|done].
      * destruct cur as [[start group]|]; simpl in Hlow; [|lia].
        destruct (reading_end _ _ _ Hr) as [Hend H0].
        exists (start, group). split; [by left|]. simpl. lia.
Qed.

End TokenizerFacts.

(** ** The word-index scripts: the index and the text *)

Section TextFacts.
Import WordIndex Text.
Implicit Types (c : PyDict.dict (list location)) (word : string)
  (loc : location) (events : list (string * location)) (fp : list string).

Lemma elem_of_enumerate {A} (l : list A) (start n : Z) (a : A) :
  (n, a) ∈ enumerate l start
  <-> exists i : nat, l !! i = Some a /\ n = (start + Z.of_nat i)%Z.
Proof.
  revert start. induction l as [|x l IH]; intros start; simpl.
  - split; [by intros ?%elem_of_nil|]. by intros (i & ? & _).
  - rewrite elem_of_cons, IH. split.
    + intros [[= -> ->]|(i & Hi & ->)].
      * exists 0%nat. split; [done|]. lia.
      * exists (S i). split; [done|]. lia.
    + intros ([|i] & Hi & ->); simpl in Hi.
      * left. injection Hi as ->. f_equal. lia.
      * right. exists i. split; [done|]. lia.
Qed.

Lemma elem_of_occurrences fp word (n col : Z) :
  (word, (n, col)) ∈ occurrences fp
  <-> exists (i : nat) line start,
        fp !! i = Some line /\ n = (1 + Z.of_nat i)%Z
        /\ (start, word) ∈ finditer line /\ col = (start + 1)%Z.
Proof.
  unfold occurrences. rewrite list_elem_of_In, in_flat_map. split.
  - intros ([n' line] & Hnl & Hin). simpl in Hin.
    apply list_elem_of_In, elem_of_enumerate in Hnl as (i & Hi & ->).
    apply list_elem_of_In, list_elem_of_fmap in Hin
      as ([start w] & [= -> -> ->] & Hm).
    by exists i, line, start.
  - intros (i & line & start & Hi & -> & Hm & ->).
    exists ((1 + Z.of_nat i)%Z, line). split.
    + apply list_elem_of_In, elem_of_enumerate. eauto.
    + simpl. apply list_elem_of_In, list_elem_of_fmap.
      by exists (start, word).
Qed.

Lemma finditer_sound line :
  Forall (fun m => word_at line (fst m) (snd m)) (finditer line).
Proof. apply (finditer_from_sound line [] None), reading_start. Qed.

Lemma finditer_ordered line :
  Forall (fun m => (0 <= fst m)%Z) (finditer line)
  /\ StronglySorted
       (fun m1 m2 => (fst m1 + Z.of_nat (String.length (snd m1)) < fst m2)%Z)
       (finditer line).
Proof. apply (finditer_from_ordered line [] None), reading_start. Qed.

Lemma finditer_complete line (p : nat) ch :
  chars line !! p = Some ch -> word_char ch = true ->
  exists m, m ∈ finditer line
    /\ (fst m <= Z.of_nat p < fst m + Z.of_nat (String.length (snd m)))%Z.
Proof.
  intros Hp Hch.
  apply (finditer_from_complete line [] None reading_start p ch); [done|done|].
  simpl. lia.
Qed.

(** The occurrences of a text come in reading order. *)
Lemma occurrences_from_sorted (l : list string) (start : Z) :
  let events :=
    flat_map (fun numbered_line : Z * string =>
                map (fun m : Z * string =>
                       (snd m, (fst numbered_line, (fst m + 1)%Z)))
                    (finditer (snd numbered_line)))
             (enumerate l start) in
  Forall (fun e => (start <= fst (snd e))%Z) events
  /\ StronglySorted (fun e1 e2 => before (snd e1) (snd e2)) events.
Proof.
  revert start. induction l as [|line l IH]; intros start; simpl.
  - split; constructor.
  - destruct (IH (start + 1)%Z) as [Hlow Hsort].
    destruct (finditer_ordered line) as [_ Hline]. split.
    + apply Forall_app. split.
      * apply Forall_forall. intros e (m & -> & _)%list_elem_of_fmap.
        simpl. lia.
      * eapply Forall_impl; [exact Hlow|]. simpl. intros e He. lia.
    + apply StronglySorted_app. split; [|split; [|done]].
      * intros e1 e2 (m & -> & _)%list_elem_of_fmap He2.
        rewrite Forall_forall in Hlow. specialize (Hlow _ He2).
        simpl in Hlow. left. simpl. unfold location in *. lia.
      * induction Hline as [|m ms Hms IHms Hall]; simpl; constructor.
        -- done.
        -- apply Forall_forall. intros e (m' & -> & Hm')%list_elem_of_fmap.
           rewrite Forall_forall in Hall. specialize (Hall _ Hm').
           simpl in Hall. right. simpl. split; [done|]. lia.
Qed.

Lemma locations_sorted events word :
  StronglySorted (fun e1 e2 => before (snd e1) (snd e2)) events ->
  StronglySorted before (map snd (filter (fun e => fst e = word) events)).
Proof.
  induction 1 as [|e ev Hev IH Hall]; [constructor|].
  rewrite filter_cons. case_decide; [|done]. simpl. constructor; [done|].
  apply Forall_forall. intros loc (e' & -> & He')%list_elem_of_fmap.
  apply list_elem_of_filter in He' as [_ He'].
  rewrite Forall_forall in Hall. by apply Hall.
Qed.

Lemma find_add_occurrence c word loc word' :
  PyDict.find (add_occurrence c word loc) (PStr word')
  = if decide (word = word')
    then Some (PyDict.get c (PStr word') [] ++ [loc])%list
    else PyDict.find c (PStr word').
Proof.
  unfold add_occurrence. rewrite find_setitem. simpl.
  case_bool_decide; case_decide; try done; by subst.
Qed.

Lemma find_add_all c events word :
  PyDict.find (fold_left (fun c e => add_occurrence c (fst e) (snd e)) events c)
              (PStr word)
  = match filter (fun e => fst e = word) events with
    | [] => PyDict.find c (PStr word)
    | found => Some (PyDict.get c (PStr word) [] ++ map snd found)%list
    end.
Proof.
  revert c. induction events as [|[w loc] events IH]; intros c; [done|].
  cbn [fold_left fst snd]. rewrite IH, filter_cons. cbn [fst].
  rewrite find_add_occurrence, get_add_occurrence.
  case_decide; destruct (filter _ events); simpl; try done.
  by rewrite <- app_assoc.
Qed.

(** A word is a key of the index exactly when it occurs, and then its value
    is the list of its locations. *)
Lemma find_word_index fp word :
  PyDict.find (word_index fp) (PStr word)
  = match filter (fun e => fst e = word) (occurrences fp) with
    | [] => None
    | found => Some (map snd found)
    end.
Proof. rewrite word_index_events, find_add_all. done. Qed.

Lemma find_word_index_Some fp word locs :
  PyDict.find (word_index fp) (PStr word) = Some locs ->
  locs = map snd (filter (fun e => fst e = word) (occurrences fp))
  /\ locs <> [].
Proof.
  rewrite find_word_index. destruct (filter _ _) as [|e found]; [done|].
  by intros [= <-].
Qed.

Lemma keys_add_all_NoDup c events :
  NoDup (PyDict.keys c) ->
  NoDup (PyDict.keys
           (fold_left (fun c e => add_occurrence c (fst e) (snd e)) events c)).
Proof.
  revert c. induction events as [|[w loc] events IH]; intros c Hc; [done|].
  simpl. apply IH. by apply keys_setitem_NoDup_str.
Qed.

Lemma keys_word_index_NoDup fp : NoDup (PyDict.keys (word_index fp)).
Proof. rewrite word_index_events. apply keys_add_all_NoDup. constructor. Qed.

Lemma find_elem_of {V} (d : PyDict.dict V) k v :
  NoDup (PyDict.keys d) -> isinstance_str k = true ->
  (k, v) ∈ d -> PyDict.find d k = Some v.
Proof.
  intros Hn Hk. destruct k as [| | |s]; try discriminate.
  induction d as [|[k0 v0] d IH]; [by intros ?%elem_of_nil|].
  simpl in *. apply NoDup_cons in Hn as [H0 Hn].
  rewrite py_eq_str_r. intros [[= <- <-]|Hin]%elem_of_cons.
  - by rewrite bool_decide_eq_true_2.
  - case_bool_decide as E; [|by apply IH]. subst k0. destruct H0.
    apply list_elem_of_fmap. by exists (PStr s, v).
Qed.

(** Each script ends normally, holding the word index of the text and
    having printed its rendering. *)
Lemma scripts_run fp s0 :
  Forall (fun script : list string -> Py state unit =>
            fst (script fp s0) = Ok tt
            /\ contents (snd (script fp s0)) = word_index fp
            /\ stdout (snd (script fp s0))
               = (stdout s0 ++ render (word_index fp))%list) scripts.
Proof.
  destruct (script_run record_get index_getitem fp s0
              record_get_records index_getitem_found) as (s2 & E2 & C2 & O2).
  destruct (script_run record_setdefault index_getitem fp
              s0 record_setdefault_records index_getitem_found)
    as (s4 & E4 & C4 & O4).
  destruct (script_run record_default (defaultdict_getitem default_factory)
              fp s0 record_default_records
              (defaultdict_getitem_found default_factory))
    as (s5 & E5 & C5 & O5).
  unfold scripts, index_get_py, index_setdefault_py, index_default_py.
  repeat constructor; simpl; (rewrite E2 || rewrite E4 || rewrite E5); done.
Qed.

End TextFacts.

(** X9.  The tokenizer finds exactly the words of a line.  Every match of
    [WORD_RE.finditer(line)] is a non-empty run of word characters standing
    in the line at the position the match gives, with no word character
    right before or after it; the matches come from left to right without
    touching; and every word character of the line lies in one of them. *)
Theorem finditer_words (line : string) :
  Forall (fun m => Text.word_at line (fst m) (snd m)) (WordIndex.finditer line)
  /\ StronglySorted
       (fun m1 m2 => (fst m1 + Z.of_nat (String.length (snd m1)) < fst m2)%Z)
       (WordIndex.finditer line)
  /\ (forall (p : nat) ch,
        Text.chars line !! p = Some ch -> WordIndex.word_char ch = true ->
        exists m, m ∈ WordIndex.finditer line
          /\ (fst m <= Z.of_nat p
                    < fst m + Z.of_nat (String.length (snd m)))%Z).
Proof.
  split; [apply finditer_sound|]. split; [apply finditer_ordered|].
  apply finditer_complete.
Qed.

Lemma finditer_words_witness :
  exists m, m ∈ WordIndex.finditer "a bc"
    /\ (fst m <= Z.of_nat 3 < fst m + Z.of_nat (String.length (snd m)))%Z.
Proof.
  apply (proj2 (proj2 (finditer_words "a bc")) 3%nat "c"%char); reflexivity.
Defined.

(** X10.  The index tells the truth.  After any of the three scripts, every
    location [(line_no, column_no)] listed under a word points at that word:
    the text has a line of that number (counting from 1), and the word
    stands in it as a whole run of word characters starting at that column
    (counting from 1). *)
Theorem index_locations_sound (fp : list string) (s0 : WordIndex.state) :
  Forall (fun script : list string -> Py WordIndex.state unit =>
    forall word locs line_no column_no,
      PyDict.find (WordIndex.contents (snd (script fp s0))) (PStr word)
      = Some locs ->
      (line_no, column_no) ∈ locs ->
      exists line,
        (1 <= line_no)%Z
        /\ fp !! Z.to_nat (line_no - 1) = Some line
        /\ Text.word_at line (column_no - 1) word) Text.scripts.
Proof.
  eapply Forall_impl; [apply (scripts_run fp s0)|].
  intros script (_ & -> & _) word locs n col Hfind Hin.
  apply find_word_index_Some in Hfind as [-> _].
  assert ((word, (n, col)) ∈ WordIndex.occurrences fp) as Hocc.
  { apply list_elem_of_fmap in Hin as ([w loc] & E & Hin). simpl in E.
    subst loc. apply list_elem_of_filter in Hin as [Hw Hin].
    simpl in Hw. by subst w. }
  apply elem_of_occurrences in Hocc as (i & line & start & Hi & -> & Hm & ->).
  exists line. split; [lia|]. split.
  - by replace (Z.to_nat (1 + Z.of_nat i - 1)) with i by lia.
  - pose proof (finditer_sound line) as Hs. rewrite Forall_forall in Hs.
    specialize (Hs _ Hm). simpl in Hs.
    by replace (start + 1 - 1)%Z with start by lia.
Qed.

Lemma index_locations_sound_witness :
  exists line,
    (1 <= 1)%Z
    /\ ["a bc"] !! Z.to_nat (1 - 1) = Some line
    /\ Text.word_at line (3 - 1) "bc".
Proof.
  apply (Forall_inv (index_locations_sound ["a bc"] WordIndex.initial)
           "bc" [(1, 3)%Z] 1%Z 3%Z); [reflexivity|].
  apply list_elem_of_here.
Defined.

(** X11.  The index leaves nothing out.  After any of the three scripts,
    every word character of every line of the text lies in an occurrence
    the index lists: under some word, with the number of the line and a
    column such that the word covers the character. *)
Theorem index_locations_complete (fp : list string) (s0 : WordIndex.state) :
  Forall (fun script : list string -> Py WordIndex.state unit =>
    forall (i p : nat) line ch,
      fp !! i = Some line ->
      Text.chars line !! p = Some ch -> WordIndex.word_char ch = true ->
      exists word locs column_no,
        PyDict.find (WordIndex.contents (snd (script fp s0))) (PStr word)
        = Some locs
        /\ (Z.of_nat i + 1, column_no)%Z ∈ locs
        /\ (column_no - 1 <= Z.of_nat p
                          < column_no - 1 + Z.of_nat (String.length word))%Z)
    Text.scripts.
Proof.
  eapply Forall_impl; [apply (scripts_run fp s0)|].
  intros script (_ & -> & _) i p line ch Hi Hp Hch.
  destruct (finditer_complete line p ch Hp Hch) as ([start word] & Hm & Hin).
  simpl in Hin.
  assert ((word, ((1 + Z.of_nat i)%Z, (start + 1)%Z))
          ∈ WordIndex.occurrences fp) as Hocc.
  { apply elem_of_occurrences. by exists i, line, start. }
  assert ((word, ((1 + Z.of_nat i)%Z, (start + 1)%Z))
          ∈ filter (fun e : string * WordIndex.location => fst e = word)
              (WordIndex.occurrences fp)) as Hf
    by (by apply list_elem_of_filter).
  exists word,
    (map snd (filter (fun e : string * WordIndex.location => fst e = word)
                (WordIndex.occurrences fp))), (start + 1)%Z.
  split; [|split; [|lia]].
  - rewrite find_word_index.
    destruct (filter _ _) as [|e found]; [by apply elem_of_nil in Hf|done].
  - apply list_elem_of_fmap.
    exists (word, ((1 + Z.of_nat i)%Z, (start + 1)%Z)). split; [|done].
    simpl. f_equal. lia.
Qed.

Lemma index_locations_complete_witness :
  exists word locs column_no,
    PyDict.find
      (WordIndex.contents
         (snd (WordIndex.index_get_py ["a bc"] WordIndex.initial)))
      (PStr word) = Some locs
    /\ (Z.of_nat 0 + 1, column_no)%Z ∈ locs
    /\ (column_no - 1 <= Z.of_nat 3
                      < column_no - 1 + Z.of_nat (String.length word))%Z.
Proof.
  apply (Forall_inv (index_locations_complete ["a bc"] WordIndex.initial)
           0%nat 3%nat "a bc" "c"%char); reflexivity.
Defined.

(** X12.  The shape of the index.  After any of the three scripts, the keys
    of the index are words (strings), no word appears twice, no word has an
    empty list, and the locations of each word are listed in reading order
    without repetition: by line, and in a line by column. *)
Theorem index_shape (fp : list string) (s0 : WordIndex.state) :
  Forall (fun script : list string -> Py WordIndex.state unit =>
    let d := WordIndex.contents (snd (script fp s0)) in
    NoDup (PyDict.keys d)
    /\ Forall (fun kv => exists word, fst kv = PStr word
                  /\ snd kv <> []
                  /\ StronglySorted Text.before (snd kv)) d) Text.scripts.
Proof.
  eapply Forall_impl; [apply (scripts_run fp s0)|].
  intros script (_ & -> & _). simpl.
  split; [apply keys_word_index_NoDup|].
  apply Forall_forall. intros [k locs] Hin. simpl.
  assert (isinstance_str k = true) as Hk.
  { pose proof (keys_word_index fp) as Hs. rewrite Forall_forall in Hs.
    apply Hs. apply list_elem_of_fmap. by exists (k, locs). }
  pose proof (find_elem_of _ _ _ (keys_word_index_NoDup fp) Hk Hin) as Hfind.
  destruct k as [| | |word]; try discriminate.
  exists word. split; [done|].
  apply find_word_index_Some in Hfind as [-> Hne]. split; [done|].
  apply locations_sorted.
  apply (occurrences_from_sorted fp 1).
Qed.

(** ** The word-index scripts: the list objects they create *)

Section HeapFacts.
Import WordIndex Text.
Implicit Types (h : list (list location)) (d : PyDict.dict ref)
  (o : list string) (s : state) (word : string) (loc : location).

(** A loop whose body returns, keeps the index well-formed and moves a
    measure of the state by an amount that depends on the item, moves it by
    the sum of the amounts. *)
Lemma for_each_measure {A} (l : list A) (body : A -> Py state unit)
    (m : state -> Z) (g : A -> Z) :
  (forall a s, wf s ->
     exists s', body a s = (Ok tt, s') /\ wf s' /\ m s' = (m s + g a)%Z) ->
  forall s, wf s ->
    exists s', for_each l body s = (Ok tt, s') /\ wf s'
      /\ m s' = (m s + foldr Z.add 0 (map g l))%Z.
Proof.
  intros Hbody. induction l as [|a l IH]; intros s Hwf; simpl.
  - exists s. py_run. split; [done|]. split; [done|]. lia.
  - destruct (Hbody a s Hwf) as (s1 & E1 & Hwf1 & Hm1).
    destruct (IH s1 Hwf1) as (s2 & E2 & Hwf2 & Hm2).
    exists s2. unfold mbind, Py_bind. rewrite E1, E2.
    split; [done|]. split; [done|]. lia.
Qed.

Lemma sum_ones {A} (l : list A) :
  foldr Z.add 0%Z (map (fun _ => 1%Z) l) = Z.of_nat (length l).
Proof. induction l as [|a l IH]; simpl; [done|]. rewrite IH. lia. Qed.

Lemma sum_zeros {A} (l : list A) :
  foldr Z.add 0%Z (map (fun _ => 0%Z) l) = 0%Z.
Proof. induction l as [|a l IH]; simpl; [done|]. by rewrite IH. Qed.

Lemma scan_measure record (m : state -> Z) (k : Z) fp s :
  (forall word loc s, wf s ->
     exists s', record word loc s = (Ok tt, s') /\ wf s'
       /\ m s' = (m s + k)%Z) ->
  wf s ->
  exists s', scan fp record s = (Ok tt, s') /\ wf s'
    /\ m s' = (m s + k * Z.of_nat (length (occurrences fp)))%Z.
Proof.
  intros Hrec Hwf. unfold scan, occurrences.
  destruct (for_each_measure (enumerate fp 1)
              (fun numbered_line : Z * string =>
                 let '(line_no, line) := numbered_line in
                 for_each (finditer line) (fun match_ : Z * string =>
                   let '(start, word) := match_ in
                   record word (line_no, (start + 1)%Z)))
              m (fun nl => (k * Z.of_nat (length (finditer (snd nl))))%Z))
    with (s := s) as (s' & E & Hwf' & Hm); [|done|].
  - intros [line_no line] s1 Hwf1. simpl.
    destruct (for_each_measure (finditer line)
                (fun match_ : Z * string =>
                   let '(start, word) := match_ in
                   record word (line_no, (start + 1)%Z))
                m (fun _ => k)) with (s := s1) as (s2 & E2 & Hwf2 & Hm2);
      [|done|].
    + intros [start word] s2 Hwf2. by apply Hrec.
    + exists s2. split; [done|]. split; [done|]. rewrite Hm2.
      f_equal. generalize (finditer line) as ms.
      induction ms as [|m0 ms IHms]; simpl; lia.
  - exists s'. split; [exact E|]. split; [done|]. rewrite Hm. f_equal.
    generalize (enumerate fp 1) as lines.
    induction lines as [|nl lines IHl]; simpl; [lia|].
    rewrite length_app, length_map, IHl.
    rewrite Nat2Z.inj_add, Z.mul_add_distr_l. reflexivity.
Qed.

(** Examples 3-2 and 3-4 create a list for every occurrence. *)
Lemma record_get_heap word loc s :
  wf s ->
  exists s', record_get word loc s = (Ok tt, s') /\ wf s'
    /\ Z.of_nat (length (heap s')) = (Z.of_nat (length (heap s)) + 1)%Z.
Proof.
  intros Hwf. destruct (record_get_records word loc s Hwf)
    as (s' & E & Hwf' & _). exists s'. split; [done|]. split; [done|].
  destruct s as [h d o]. revert E.
  unfold record_get, new_list, index_get, list_append, index_setitem.
  py_run. destruct (_ !! _); py_run; [|done].
  intros [= <-]. simpl. rewrite length_insert, length_app. simpl. lia.
Qed.

Lemma record_setdefault_heap word loc s :
  wf s ->
  exists s', record_setdefault word loc s = (Ok tt, s') /\ wf s'
    /\ Z.of_nat (length (heap s')) = (Z.of_nat (length (heap s)) + 1)%Z.
Proof.
  intros Hwf. destruct (record_setdefault_records word loc s Hwf)
    as (s' & E & Hwf' & _). exists s'. split; [done|]. split; [done|].
  destruct s as [h d o]. revert E.
  unfold record_setdefault, new_list, index_setdefault, list_append.
  py_run. destruct (PyDict.setdefault _ _ _) as [value d']. py_run.
  destruct (_ !! _); py_run; [|done].
  intros [= <-]. simpl. rewrite length_insert, length_app. simpl. lia.
Qed.

(** Example 3-5 creates a list only when it adds a word: the lists and the
    words keep step. *)
Lemma record_default_heap word loc s :
  wf s ->
  exists s', record_default word loc s = (Ok tt, s') /\ wf s'
    /\ (Z.of_nat (length (heap s')) - Z.of_nat (length (index s'))
        = Z.of_nat (length (heap s)) - Z.of_nat (length (index s)) + 0)%Z.
Proof.
  intros Hwf. destruct (record_default_records word loc s Hwf)
    as (s' & E & Hwf' & _). exists s'. split; [done|]. split; [done|].
  destruct s as [h d o]. revert E.
  unfold record_default, defaultdict_getitem, default_factory,
    defaultdict_missing, new_list, index_setitem, list_append.
  py_run. destruct (PyDict.find d (PStr word)) as [r|] eqn:F; py_run.
  - destruct (_ !! _); py_run; [|done].
    intros [= <-]. simpl. rewrite length_insert. lia.
  - destruct (_ !! _); py_run; [|done].
    intros [= <-]. simpl. rewrite length_insert, length_app.
    rewrite keys_setitem_absent by done. rewrite length_app. simpl. lia.
Qed.

Lemma script_measure record getitem (m : state -> Z) (k : Z) fp s0 :
  (forall word loc s, wf s ->
     exists s', record word loc s = (Ok tt, s') /\ wf s'
       /\ m s' = (m s + k)%Z) ->
  records record ->
  (forall k r h d o, PyDict.find d k = Some r ->
     getitem k {| heap := h; index := d; stdout := o |}
     = (Ok r, {| heap := h; index := d; stdout := o |})) ->
  (forall s f, m (set_stdout f s) = m s) ->
  let s := snd ((write (set_index (fun _ => []));; scan fp record;;
                 print_index getitem) s0) in
  m s = (m (set_index (fun _ => []) s0)
         + k * Z.of_nat (length (occurrences fp)))%Z
  /\ contents s = word_index fp.
Proof.
  intros Hstep Hrec Hget Hout.
  set (s1 := set_index (fun _ => []) s0).
  assert (wf s1) as Hwf1 by (split; constructor).
  destruct (scan_measure record m k fp s1 Hstep Hwf1) as (s2 & E2 & Hwf2 & Hm2).
  destruct (scan_records record fp s1 Hrec Hwf1) as (s2' & E2' & _ & Hc2 & _).
  rewrite E2 in E2'. injection E2' as <-.
  change (contents s1) with (@nil (pyval * list location)) in Hc2.
  fold (word_index fp) in Hc2.
  assert ((write (set_index (fun _ => []));; scan fp record;;
           print_index getitem) s0
          = (Ok tt, set_stdout (fun o => (o ++ render (contents s2))%list) s2))
    as ->.
  { unfold mbind at 1. unfold Py_bind at 1. unfold write at 1.
    fold s1. unfold mbind at 1. unfold Py_bind at 1. rewrite E2.
    apply print_index_run; [done|done|].
    rewrite <- (keys_view (heap s2)). fold (contents s2). rewrite Hc2.
    apply keys_word_index. }
  simpl. rewrite Hout. split; [done|]. by destruct s2.
Qed.

End HeapFacts.

(** X13.  The lists the scripts create.  Examples 3-2 ([dict.get]) and 3-4
    ([setdefault]) create a new list object for every word occurrence of the
    text, since [[]] is evaluated before the lookup; Example 3-5
    ([defaultdict]) creates one only for every distinct word, as many as the
    index has entries. *)
Theorem scripts_lists_created (fp : list string) (s0 : WordIndex.state) :
  let created script :=
    (Z.of_nat (length (WordIndex.heap (snd (script fp s0))))
     - Z.of_nat (length (WordIndex.heap s0)))%Z in
  created WordIndex.index_get_py
  = Z.of_nat (length (WordIndex.occurrences fp))
  /\ created WordIndex.index_setdefault_py
     = Z.of_nat (length (WordIndex.occurrences fp))
  /\ created WordIndex.index_default_py
     = Z.of_nat (length (WordIndex.index
                           (snd (WordIndex.index_default_py fp s0))))
  /\ length (WordIndex.index (snd (WordIndex.index_default_py fp s0)))
     = length (WordIndex.word_index fp)
  /\ (length (WordIndex.word_index fp)
      <= length (WordIndex.occurrences fp))%nat.
Proof.
  intros created. unfold created.
  destruct (script_measure WordIndex.record_get WordIndex.index_getitem
              (fun s => Z.of_nat (length (WordIndex.heap s))) 1 fp s0
              record_get_heap record_get_records index_getitem_found)
    as [H2 _]; [done|].
  destruct (script_measure WordIndex.record_setdefault WordIndex.index_getitem
              (fun s => Z.of_nat (length (WordIndex.heap s))) 1 fp s0
              record_setdefault_heap record_setdefault_records
              index_getitem_found) as [H4 _]; [done|].
  destruct (script_measure WordIndex.record_default
              (WordIndex.defaultdict_getitem WordIndex.default_factory)
              (fun s => (Z.of_nat (length (WordIndex.heap s))
                         - Z.of_nat (length (WordIndex.index s)))%Z) 0 fp s0
              record_default_heap record_default_records
              (defaultdict_getitem_found WordIndex.default_factory))
    as [H5 C5]; [done|].
  simpl in H2, H4, H5.
  assert (length (WordIndex.index (snd (WordIndex.index_default_py fp s0)))
          = length (WordIndex.word_index fp)) as Hlen.
  { rewrite <- C5. unfold WordIndex.contents, WordIndex.view.
    by rewrite length_map. }
  split; [unfold WordIndex.index_get_py; lia|].
  split; [unfold WordIndex.index_setdefault_py; lia|].
  split; [unfold WordIndex.index_default_py in *; lia|].
  split; [done|].
  rewrite word_index_events. generalize (WordIndex.occurrences fp) as events.
  intros events.
  assert (forall (c : PyDict.dict (list WordIndex.location)),
            (length (fold_left
               (fun c e => WordIndex.add_occurrence c (fst e) (snd e)) events c)
             <= length c + length events)%nat) as H.
  { induction events as [|[w loc] events IH]; intros c; simpl; [lia|].
    etrans; [apply IH|]. unfold WordIndex.add_occurrence.
    destruct (PyDict.contains c (PStr w)) eqn:E.
    - pose proof (keys_setitem_present c (PStr w)
        (PyDict.get c (PStr w) [] ++ [loc])%list E) as Hk.
      apply (f_equal length) in Hk. unfold PyDict.keys in Hk.
      rewrite !length_map in Hk. simpl in *. lia.
    - rewrite keys_setitem_absent by (by apply contains_false_find).
      rewrite length_app. simpl. lia. }
  apply (H []).
Qed.

(** ** Sorting *)

Lemma filter_none {A} (P : A -> Prop) `{forall x, Decision (P x)} (l : list A) :
  Forall (fun x => ~ P x) l -> filter P l = [].
Proof.
  induction 1 as [|x l Hx Hl IH]; [done|].
  rewrite filter_cons. by case_decide.
Qed.

Section SortingFacts.
Context {K A : Type} `{EqDecision K} (lt : K -> K -> bool).
Hypothesis Hlt : strict_total lt.
Implicit Types (kx ky : K * A) (l acc : list (K * A)).

(** the order the sorted list is in: no item has a key less than the key of
    an item before it *)
Let ordered kx ky : Prop := lt (fst ky) (fst kx) = false.

Lemma not_lt_trans (a b c : K) :
  lt b a = false -> lt c b = false -> lt c a = false.
Proof.
  destruct Hlt as (Hasym & Htrans & Heq). intros Hba Hcb.
  destruct (lt c a) eqn:Hca; [|done].
  destruct (lt a b) eqn:Hab.
  - by rewrite (Htrans c a b Hca Hab) in Hcb.
  - rewrite (Heq a b Hab Hba) in Hca. congruence.
Qed.

Lemma insert_by_perm kx l : insert_by lt kx l ≡ₚ kx :: l.
Proof.
  induction l as [|ky l IH]; simpl; [done|].
  destruct (lt _ _); [done|]. rewrite IH. apply Permutation_swap.
Qed.

Lemma insert_by_sorted kx l :
  StronglySorted ordered l -> StronglySorted ordered (insert_by lt kx l).
Proof.
  destruct Hlt as (Hasym & Htrans & Heq).
  induction 1 as [|ky l Hl IH Hall]; simpl; [repeat constructor|].
  destruct (lt (fst kx) (fst ky)) eqn:E.
  - constructor; [by constructor|]. constructor; [by apply Hasym|].
    eapply Forall_impl; [exact Hall|]. unfold ordered. intros kz Hkz.
    destruct (lt (fst kz) (fst kx)) eqn:E'; [|done].
    by rewrite (Htrans _ _ _ E' E) in Hkz.
  - constructor; [done|]. rewrite insert_by_perm. by constructor.
Qed.

Lemma sort_by_from_perm l acc :
  fold_left (fun acc kx => insert_by lt kx acc) l acc ≡ₚ (acc ++ l)%list.
Proof.
  revert acc. induction l as [|kx l IH]; intros acc; simpl.
  - by rewrite app_nil_r.
  - rewrite IH, insert_by_perm. simpl. apply Permutation_middle.
Qed.

Lemma sort_by_from_sorted l acc :
  StronglySorted ordered acc ->
  StronglySorted ordered (fold_left (fun acc kx => insert_by lt kx acc) l acc).
Proof.
  revert acc. induction l as [|kx l IH]; intros acc Hacc; simpl; [done|].
  by apply IH, insert_by_sorted.
Qed.

(** An item goes behind the items of the same key that are there already. *)
Lemma filter_insert_by (k : K) kx l :
  StronglySorted ordered l ->
  filter (fun ky => fst ky = k) (insert_by lt kx l)
  = (filter (fun ky => fst ky = k) l
     ++ if decide (fst kx = k) then [kx] else [])%list.
Proof.
  destruct Hlt as (Hasym & Htrans & Heq).
  induction 1 as [|ky l Hl IH Hall]; simpl.
  - rewrite filter_cons, filter_nil. by case_decide.
  - destruct (lt (fst kx) (fst ky)) eqn:E.
    + rewrite (filter_cons _ kx). case_decide as Hk; [|by rewrite app_nil_r].
      assert (filter (fun kz => fst kz = k) (ky :: l) = []) as ->; [|done].
      apply filter_none. constructor.
      * simpl. intros Hy. subst k. rewrite <- Hy in E.
        specialize (Hasym _ _ E). congruence.
      * eapply Forall_impl; [exact Hall|]. unfold ordered. simpl.
        intros kz Hz Hkz. subst k. rewrite <- Hkz in E. congruence.
    + rewrite !(filter_cons _ ky), IH. by destruct (decide (fst ky = k)).
Qed.

Lemma filter_sort_by_from (k : K) l acc :
  StronglySorted ordered acc ->
  filter (fun ky => fst ky = k)
    (fold_left (fun acc kx => insert_by lt kx acc) l acc)
  = (filter (fun ky => fst ky = k) acc ++ filter (fun ky => fst ky = k) l)%list.
Proof.
  revert acc. induction l as [|kx l IH]; intros acc Hacc; simpl.
  - by rewrite filter_nil, app_nil_r.
  - rewrite IH by (by apply insert_by_sorted).
    rewrite filter_insert_by by done. rewrite (filter_cons _ kx).
    rewrite <- app_assoc. by case_decide.
Qed.

(** [sort_by] returns the items it was given, in order of their keys, and
    items of the same key in the order they came in. *)
Lemma sort_by_spec l :
  sort_by lt l ≡ₚ l
  /\ StronglySorted (fun kx ky => lt (fst ky) (fst kx) = false) (sort_by lt l)
  /\ forall k, filter (fun ky => fst ky = k) (sort_by lt l)
               = filter (fun ky => fst ky = k) l.
Proof.
  unfold sort_by. split; [|split].
  - by rewrite sort_by_from_perm.
  - apply sort_by_from_sorted. constructor.
  - intros k. rewrite filter_sort_by_from by constructor. done.
Qed.

(** When the key of every item can be computed, [sorted_by] sorts. *)
Lemma sorted_by_ok (l : list A) (key : A -> result K) (f : A -> K) :
  Forall (fun a => key a = Ok (f a)) l ->
  sorted_by lt l key = Ok (map snd (sort_by lt (map (fun a => (f a, a)) l))).
Proof.
  intros Hl. unfold sorted_by.
  assert (mapM (fun a => k ← key a; Ok (k, a)) l
          = Ok (map (fun a => (f a, a)) l)) as ->; [|done].
  induction Hl as [|a l Ha Hl IH]; [done|].
  simpl in *. rewrite Ha. simpl. rewrite IH. reflexivity.
Qed.

(** The same, told of the items: [sorted_by] returns the items it was
    given, in order of their keys, items of the same key in the order they
    came in. *)
Lemma sorted_by_spec (l : list A) (key : A -> result K) (f : A -> K) :
  Forall (fun a => key a = Ok (f a)) l ->
  exists r, sorted_by lt l key = Ok r
    /\ r ≡ₚ l
    /\ StronglySorted (fun a b => lt (f b) (f a) = false) r
    /\ forall k, filter (fun a => f a = k) r = filter (fun a => f a = k) l.
Proof.
  intros Hl. rewrite (sorted_by_ok l key f Hl).
  set (deco := map (fun a : A => (f a, a))).
  destruct (sort_by_spec (deco l)) as (Hperm & Hsort & Hstable).
  assert (forall xs : list A, map snd (deco xs) = xs) as Hsnd.
  { intros xs. unfold deco. rewrite map_map. simpl. apply map_id. }
  assert (forall k (xs : list A),
            filter (fun ky : K * A => fst ky = k) (deco xs)
            = deco (filter (fun a => f a = k) xs)) as Hfilter.
  { intros k xs. induction xs as [|a xs IH]; [done|]. simpl.
    rewrite !filter_cons. simpl. rewrite IH. by case_decide. }
  assert (sort_by lt (deco l) = deco (map snd (sort_by lt (deco l)))) as Hdeco.
  { assert (Forall (fun kx : K * A => fst kx = f (snd kx)) (sort_by lt (deco l)))
      as Hall.
    { rewrite Hperm. unfold deco. apply Forall_forall.
      by intros kx (a & -> & _)%list_elem_of_fmap. }
    revert Hall. generalize (sort_by lt (deco l)) as S.
    induction 1 as [|[k a] S Hk HS IH]; [done|].
    simpl in *. by rewrite <- IH, Hk. }
  exists (map snd (sort_by lt (deco l))). split; [done|]. split; [|split].
  - rewrite Hperm. by rewrite Hsnd.
  - rewrite Hdeco in Hsort. revert Hsort.
    generalize (map snd (sort_by lt (deco l))) as r.
    induction r as [|a r IH]; [constructor|]. simpl.
    intros [Hr Ha]%StronglySorted_inv. constructor; [by apply IH|].
    unfold deco in Ha. rewrite Forall_fmap in Ha. exact Ha.
  - intros k. specialize (Hstable k). rewrite Hdeco, !Hfilter in Hstable.
    apply (f_equal (map snd)) in Hstable. by rewrite !Hsnd in Hstable.
Qed.

End SortingFacts.

Lemma Z_ltb_strict_total : strict_total Z.ltb.
Proof.
  split; [|split].
  - intros a b. rewrite Z.ltb_lt, Z.ltb_ge. lia.
  - intros a b c. rewrite !Z.ltb_lt. lia.
  - intros a b. rewrite !Z.ltb_ge. lia.
Qed.

Lemma string_ltb_lt a b :
  String.ltb a b = true <-> OrderedTypeEx.String_as_OT.lt a b.
Proof.
  unfold String.ltb. rewrite <- OrderedTypeEx.String_as_OT.cmp_lt.
  unfold OrderedTypeEx.String_as_OT.cmp.
  destruct (String.compare a b); split; congruence.
Qed.

Lemma string_ltb_strict_total : strict_total String.ltb.
Proof.
  split; [|split].
  - intros a b Hab. destruct (String.ltb b a) eqn:Hba; [|done].
    apply string_ltb_lt in Hab, Hba.
    pose proof (OrderedTypeEx.String_as_OT.lt_trans _ _ _ Hab Hba) as Haa.
    by apply OrderedTypeEx.String_as_OT.lt_not_eq in Haa.
  - intros a b c Hab Hbc. apply string_ltb_lt.
    apply string_ltb_lt in Hab, Hbc.
    by apply (OrderedTypeEx.String_as_OT.lt_trans _ _ _ Hab Hbc).
  - intros a b. unfold String.ltb. rewrite (String.compare_antisym a b).
    destruct (String.compare b a) eqn:E; simpl; try discriminate.
    intros _ _. symmetry. by apply String.compare_eq_iff.
Qed.

(** The sort of the word-index scripts is this sort, on strings. *)
Lemma sorted_is_sorted_by {A} (l : list A) (key : A -> result string) :
  WordIndex.sorted l key = sorted_by String.ltb l key.
Proof.
  unfold WordIndex.sorted, sorted_by.
  destruct (mapM _ l) as [decorated|e]; [|done]. simpl. do 2 f_equal.
  unfold sort_by. generalize (@nil (string * A)) as acc.
  induction decorated as [|kx decorated IH]; intros acc; simpl; [done|].
  rewrite <- IH. f_equal. clear.
  induction acc as [|ky acc IH]; simpl; [done|]. by rewrite IH.
Qed.

(** ** The word-index scripts: what they print *)

Lemma filter_map_commute {A B} (g : A -> B) (P : B -> Prop)
    `{forall b, Decision (P b)} (l : list A) :
  filter P (map g l) = map g (filter (fun a => P (g a)) l).
Proof.
  induction l as [|a l IH]; [done|]. simpl.
  rewrite !filter_cons, IH. by case_decide.
Qed.

Lemma render_spec (d : PyDict.dict (list WordIndex.location)) :
  Forall (fun k => isinstance_str k = true) (PyDict.keys d) ->
  exists words : list string,
    WordIndex.render d
    = map (fun w => w ++ " " ++ WordIndex.repr_list (PyDict.get d (PStr w) []))
          words
    /\ map PStr words ≡ₚ PyDict.keys d
    /\ StronglySorted
         (fun a b => String.ltb (WordIndex.upper b) (WordIndex.upper a) = false)
         words
    /\ forall u, filter (fun w => WordIndex.upper w = u) words
                 = filter (fun w => WordIndex.upper w = u)
                          (map str (PyDict.keys d)).
Proof.
  intros Hstr. unfold WordIndex.render. rewrite sorted_is_sorted_by.
  destruct (sorted_by_spec String.ltb string_ltb_strict_total (PyDict.keys d)
              WordIndex.str_upper (fun k => WordIndex.upper (str k)))
    as (r & -> & Hperm & Hsort & Hstable).
  { eapply Forall_impl; [exact Hstr|]. intros k Hk. by destruct k. }
  assert (Forall (fun k => isinstance_str k = true) r) as Hr
    by (by rewrite Hperm).
  assert (map PStr (map str r) = r) as Hwords.
  { clear -Hr. induction Hr as [|k r Hk Hr IH]; [done|].
    simpl. rewrite IH. by destruct k. }
  exists (map str r). split; [|split; [|split]].
  - rewrite map_map. apply map_ext_Forall.
    eapply Forall_impl; [exact Hr|]. intros k Hk. by destruct k.
  - by rewrite Hwords.
  - clear -Hsort. induction Hsort as [|k r Hr IH Hall]; simpl; constructor.
    + done.
    + by rewrite Forall_fmap.
  - intros u. specialize (Hstable u).
    rewrite !filter_map_commute. by rewrite Hstable.
Qed.

(** X14.  What the scripts print.  Each of the three scripts prints, after
    what was printed before, one line for every word of the index: the word,
    a space and the list of its locations.  The lines are in order of the
    upper-cased words, and words with the same upper-case form come in the
    order the index holds them. *)
Theorem scripts_output (fp : list string) (s0 : WordIndex.state) :
  Forall (fun script : list string -> Py WordIndex.state unit =>
    let s := snd (script fp s0) in
    let d := WordIndex.contents s in
    exists words : list string,
      WordIndex.stdout s
      = (WordIndex.stdout s0
         ++ map (fun w => (w ++ " "
                           ++ WordIndex.repr_list (PyDict.get d (PStr w) []))
                          %string) words)%list
      /\ map PStr words ≡ₚ PyDict.keys d
      /\ length words = length (WordIndex.index s)
      /\ StronglySorted
           (fun a b =>
              String.ltb (WordIndex.upper b) (WordIndex.upper a) = false)
           words
      /\ forall u, filter (fun w => WordIndex.upper w = u) words
                   = filter (fun w => WordIndex.upper w = u)
                            (map str (PyDict.keys d))) Text.scripts.
Proof.
  eapply Forall_impl; [apply (scripts_run fp s0)|].
  intros script (_ & Hc & Ho). simpl.
  destruct (render_spec (WordIndex.word_index fp) (keys_word_index fp))
    as (words & Hrender & Hperm & Hsort & Hstable).
  exists words. rewrite Ho, Hc, Hrender.
  split; [done|]. split; [done|]. split; [|done].
  apply Permutation_length in Hperm. rewrite length_map in Hperm.
  rewrite Hperm. unfold PyDict.keys. rewrite length_map, <- Hc.
  unfold WordIndex.contents, WordIndex.view. by rewrite length_map.
Qed.

(** ** The card deck used as a sequence *)

Section DeckUseFacts.
Implicit Types (self : Deck.FrenchDeck) (card : Deck.Card).

Lemma getitem_index self i :
  Deck.__getitem__ (Index i) self
  = (a ← list_getitem (Deck._cards self) i; Ok (Item a), self).
Proof. reflexivity. Qed.

Lemma getitem_slice self start stop step :
  Deck.__getitem__ (Slice start stop step) self
  = (r ← list_getslice (Deck._cards self) start stop step; Ok (Items r), self).
Proof. reflexivity. Qed.

Lemma getitem_at (seen rest : list Deck.Card) card :
  Deck.__getitem__ (Index (len seen))
    {| Deck._cards := (seen ++ card :: rest)%list |}
  = (Ok (Item card), {| Deck._cards := (seen ++ card :: rest)%list |}).
Proof.
  rewrite getitem_index. simpl. unfold len.
  rewrite (list_getitem_nonneg _ _ card); [done|].
  rewrite lookup_app_r by lia. by rewrite Nat.sub_diag.
Qed.

Lemma getitem_past (seen : list Deck.Card) :
  Deck.__getitem__ (Index (len seen)) {| Deck._cards := (seen ++ [])%list |}
  = (Raise IndexError, {| Deck._cards := (seen ++ [])%list |}).
Proof.
  rewrite getitem_index. simpl.
  rewrite list_getitem_out_of_range; [done|]. rewrite app_nil_r. lia.
Qed.

Lemma len_snoc {A} (seen : list A) (a : A) :
  len (seen ++ [a])%list = (len seen + 1)%Z.
Proof. unfold len. rewrite length_app. simpl. lia. Qed.

Lemma contains_S calls position card self :
  DeckUse.contains (S calls) position card self
  = match Deck.__getitem__ (Index position) self with
    | (Ok item, self') =>
        if bool_decide (item = Item card) then (Ok (Some true), self')
        else DeckUse.contains calls (position + 1)%Z card self'
    | (Raise IndexError, self') => (Ok (Some false), self')
    | (Raise e, self') => (Raise e, self')
    end.
Proof. reflexivity. Qed.

(** Scanning a deck for [card] from the position where [seen] ends: one call
    of [__getitem__] for every card up to the first one equal to [card], or
    one for every card and the one that raises [IndexError]. *)
Lemma contains_from (seen rest : list Deck.Card) card (extra : nat) :
  DeckUse.contains (S (length rest + extra)) (len seen) card
    {| Deck._cards := (seen ++ rest)%list |}
  = (Ok (Some (bool_decide (card ∈ rest))),
     {| Deck._cards := (seen ++ rest)%list |}).
Proof.
  revert seen. induction rest as [|c rest IH]; intros seen.
  - rewrite contains_S, getitem_past.
    by rewrite bool_decide_eq_false_2 by apply not_elem_of_nil.
  - rewrite contains_S, getitem_at. destruct (decide (c = card)) as [->|E].
    + rewrite bool_decide_eq_true_2 by done.
      by rewrite bool_decide_eq_true_2 by apply list_elem_of_here.
    + rewrite bool_decide_eq_false_2 by congruence.
      specialize (IH (seen ++ [c])%list).
      rewrite <- app_assoc, len_snoc in IH.
      change ([c] ++ rest)%list with (c :: rest) in IH.
      change (length (c :: rest) + extra)%nat with (S (length rest + extra)).
      rewrite IH. do 3 f_equal. apply bool_decide_ext.
      rewrite elem_of_cons. split; [by right|].
      intros [->|?]; [done|done].
Qed.

Lemma reversed_from_S n self :
  DeckUse.reversed_from (S n) self
  = match Deck.__getitem__ (Index (Z.of_nat n)) self with
    | (Ok item, self') =>
        (rest ← DeckUse.reversed_from n; mret (item :: rest)) self'
    | (Raise IndexError, self') => (Ok [], self')
    | (Raise e, self') => (Raise e, self')
    end.
Proof. reflexivity. Qed.

Lemma reversed_from_run self (n : nat) :
  (n <= length (Deck._cards self))%nat ->
  DeckUse.reversed_from n self
  = (Ok (map Item (rev (take n (Deck._cards self)))), self).
Proof.
  induction n as [|n IH]; intros Hn; [done|].
  rewrite reversed_from_S, getitem_index.
  destruct (lookup_lt_is_Some_2 (Deck._cards self) n) as [c Hc]; [lia|].
  rewrite (list_getitem_nonneg _ _ _ Hc). simpl.
  unfold mbind at 1. unfold Py_bind at 1. rewrite IH by lia. simpl.
  rewrite (take_S_r _ _ _ Hc), rev_app_distr. reflexivity.
Qed.

(** Once iterating or scanning has an answer, more calls of [__getitem__]
    allowed do not change it. *)
Lemma iterate_more (calls extra : nat) position self r self' :
  Deck.iterate calls position self = (Ok (Some r), self') ->
  Deck.iterate (calls + extra) position self = (Ok (Some r), self').
Proof.
  revert position self r self'.
  induction calls as [|calls IH]; intros position self r self'; [done|].
  change (Deck.iterate (S calls) position self)
    with (match Deck.__getitem__ (Index position) self with
          | (Ok c, s1) =>
              (rest ← Deck.iterate calls (position + 1)%Z;
               mret (cons c <$> rest)) s1
          | (Raise IndexError, s1) => (Ok (Some []), s1)
          | (Raise e, s1) => (Raise e, s1)
          end).
  change (Deck.iterate (S calls + extra) position self)
    with (match Deck.__getitem__ (Index position) self with
          | (Ok c, s1) =>
              (rest ← Deck.iterate (calls + extra) (position + 1)%Z;
               mret (cons c <$> rest)) s1
          | (Raise IndexError, s1) => (Ok (Some []), s1)
          | (Raise e, s1) => (Raise e, s1)
          end).
  destruct (Deck.__getitem__ (Index position) self) as [[c|e] s1]; [|done].
  unfold mbind, Py_bind.
  destruct (Deck.iterate calls (position + 1)%Z s1) as [[[rest|]|e] s2] eqn:E;
    try (intros ?; discriminate).
  by rewrite (IH _ _ _ _ E).
Qed.

Lemma fresh_deck_cards card :
  card ∈ Deck._cards Deck.__init__
  <-> Deck.rank card ∈ Deck.ranks /\ Deck.suit card ∈ Deck.suits.
Proof.
  unfold Deck.__init__. cbn [Deck._cards].
  rewrite list_elem_of_In, in_flat_map. split.
  - intros (suit & Hs & Hin). apply in_map_iff in Hin as (rank & <- & Hr).
    by rewrite !list_elem_of_In.
  - intros [Hr Hs]. exists (Deck.suit card).
    rewrite <- list_elem_of_In. split; [done|].
    apply in_map_iff. exists (Deck.rank card).
    rewrite <- list_elem_of_In. split; [by destruct card|done].
Qed.

End DeckUseFacts.

(** X15.  [card in deck].  The scan through [__getitem__] answers [True]
    exactly when the card is one of the deck's cards, needs no more calls of
    [__getitem__] than the deck has cards plus one, and leaves the deck as it
    was.  The cards of a fresh deck are those with a rank of
    [FrenchDeck.ranks] and a suit of [FrenchDeck.suits]. *)
Theorem deck_contains (self : Deck.FrenchDeck) (card : Deck.Card)
    (extra : nat) :
  DeckUse.contains (S (length (Deck._cards self) + extra)) 0 card self
  = (Ok (Some (bool_decide (card ∈ Deck._cards self))), self)
  /\ (card ∈ Deck._cards Deck.__init__
      <-> Deck.rank card ∈ Deck.ranks /\ Deck.suit card ∈ Deck.suits).
Proof.
  split.
  - destruct self as [cards]. apply (contains_from [] cards card extra).
  - apply fresh_deck_cards.
Qed.

(** X16.  [reversed(deck)] yields the deck's cards from the last to the
    first and leaves the deck as it was. *)
Theorem deck_reversed (self : Deck.FrenchDeck) :
  DeckUse.reversed self = (Ok (map Item (rev (Deck._cards self))), self).
Proof.
  unfold DeckUse.reversed, Deck.__len__. py_run.
  unfold len. rewrite Nat2Z.id, reversed_from_run by done.
  by rewrite firstn_all.
Qed.


(** ** The card deck: positions and slices *)

Section SliceFacts.
Context {A : Type}.
Implicit Types (l : list A).

Lemma list_getitem_raises l i e :
  list_getitem l i = Raise e ->
  (i < - len l \/ len l <= i)%Z /\ e = IndexError.
Proof.
  intros E. destruct (decide (- len l <= i < len l)%Z) as [Hi|Hi].
  - destruct (list_getitem_in_range l i Hi) as (a & _ & Ha). congruence.
  - assert (i < - len l \/ len l <= i)%Z as Ho by lia.
    rewrite (list_getitem_out_of_range l i Ho) in E. split; congruence.
Qed.

Lemma omap_seq_length {B} (f : nat -> option B) (m : nat) :
  (forall j, (j < m)%nat -> is_Some (f j)) -> length (omap f (seq 0 m)) = m.
Proof.
  induction m as [|m IH]; intros Hf; [done|].
  rewrite seq_S, omap_app, length_app, IH by (intros; apply Hf; lia).
  destruct (Hf m) as [b Hb]; [lia|]. simpl. rewrite Hb. simpl. lia.
Qed.

Lemma omap_seq_lookup {B} (f : nat -> option B) (m i : nat) :
  (forall j, (j < m)%nat -> is_Some (f j)) ->
  omap f (seq 0 m) !! i = if bool_decide (i < m)%nat then f i else None.
Proof.
  induction m as [|m IH]; intros Hf; [done|].
  assert (forall j, (j < m)%nat -> is_Some (f j)) as Hf'
    by (intros; apply Hf; lia).
  rewrite seq_S, omap_app. destruct (Hf m) as [b Hb]; [lia|].
  simpl. rewrite Hb. simpl. destruct (decide (i < m)%nat) as [Him|Him].
  - rewrite lookup_app_l by (rewrite omap_seq_length; done).
    rewrite IH by done. by rewrite !bool_decide_eq_true_2 by lia.
  - rewrite lookup_app_r by (rewrite omap_seq_length; [lia|done]).
    rewrite omap_seq_length by done.
    destruct (decide (i = m)) as [->|Hne].
    + rewrite Nat.sub_diag, bool_decide_eq_true_2 by lia. by rewrite Hb.
    + rewrite bool_decide_eq_false_2 by lia.
      destruct (i - m)%nat as [|d] eqn:Ed; [lia|done].
Qed.

(** how many items a slice walking forward has *)
Lemma slice_count (s e k : Z) (i : nat) :
  (0 < k)%Z ->
  (i < Z.to_nat (if (s <? e)%Z then (e - s - 1) / k + 1 else 0))%nat
  <-> (s + Z.of_nat i * k < e)%Z.
Proof.
  intros Hk. destruct (Z.ltb_spec s e) as [Hse|Hse].
  - pose proof (Z.mul_div_le (e - s - 1) k Hk).
    pose proof (Z.mul_succ_div_gt (e - s - 1) k Hk).
    assert (0 <= (e - s - 1) / k)%Z by (apply Z.div_pos; lia).
    split; intros Hi; nia.
  - split; intros Hi; [simpl in Hi; lia|nia].
Qed.

(** [l[start:stop:step]] for a step above zero: the bounds, counted from the
    end when negative, are clipped to [0 .. len(l)], and the items are those
    at [start], [start + step], ... short of [stop]. *)
Lemma list_getslice_forward l (start stop step : option Z) :
  (0 < default 1 step)%Z ->
  let n := len l in
  let k := default 1%Z step in
  let clip v := (if v <? 0 then Z.max (v + n) 0 else Z.min v n)%Z in
  let s := clip (default 0%Z start) in
  let e := clip (default n stop) in
  exists r, list_getslice l start stop step = Ok r
    /\ forall i : nat,
         r !! i = if bool_decide (s + Z.of_nat i * k < e)%Z
                  then l !! Z.to_nat (s + Z.of_nat i * k) else None.
Proof.
  intros Hk n k clip s e. pose proof (len_nonneg l) as Hn. fold n in Hn.
  assert (0 <= s <= n)%Z as Hs.
  { subst s clip. simpl. destruct (Z.ltb_spec (default 0%Z start) 0); lia. }
  assert (0 <= e <= n)%Z as He.
  { subst e clip. simpl. destruct (Z.ltb_spec (default n stop) 0); lia. }
  assert (slice_indices start stop step (len l) = Ok (s, e, k)) as Hind.
  { unfold slice_indices. fold k n.
    destruct (Z.eqb_spec k 0) as [?|_]; [lia|].
    destruct (Z.ltb_spec k 0) as [?|_]; [lia|].
    do 3 f_equal.
    - subst s clip. destruct start as [v|]; simpl; [done|].
      destruct (Z.ltb_spec 0 0); lia.
    - subst e clip. destruct stop as [v|]; simpl; [done|].
      destruct (Z.ltb_spec n 0); lia. }
  unfold list_getslice. rewrite Hind. simpl.
  destruct (Z.ltb_spec k 0) as [?|_]; [lia|].
  eexists. split; [reflexivity|]. intros i.
  rewrite omap_seq_lookup.
  - by rewrite (bool_decide_ext _ _ (slice_count s e k i Hk)).
  - intros j Hj%slice_count; [|lia]. apply lookup_lt_is_Some_2.
    unfold n, len in *. nia.
Qed.

Lemma list_getslice_raises l (start stop step : option Z) e :
  list_getslice l start stop step = Raise e ->
  step = Some 0%Z /\ e = ValueError.
Proof.
  unfold list_getslice, slice_indices.
  destruct step as [k|]; simpl; [|discriminate].
  destruct (Z.eqb_spec k 0) as [->|_]; simpl; [|discriminate].
  intros [= <-]. done.
Qed.

End SliceFacts.


(** X17.  What [deck[position]] raises.  An integer position raises exactly
    when it lies outside [-len(deck) .. len(deck) - 1], and then
    [IndexError]; a slice raises exactly when its step is zero, and then
    [ValueError].  Nothing else is ever raised. *)
Theorem deck_getitem_raises (self : Deck.FrenchDeck) (p : position) (e : exn) :
  fst (Deck.__getitem__ p self) = Raise e
  <-> (exists i, p = Index i
         /\ (i < - len (Deck._cards self) \/ len (Deck._cards self) <= i)%Z
         /\ e = IndexError)
      \/ (exists start stop, p = Slice start stop (Some 0%Z) /\ e = ValueError).
Proof.
  destruct p as [i|start stop step].
  - rewrite getitem_index. cbn [fst]. split.
    + destruct (list_getitem (Deck._cards self) i) as [a|e'] eqn:E;
        [discriminate|].
      intros [= ->]. apply list_getitem_raises in E as [Hi ->].
      left. by exists i.
    + intros [(i' & [= <-] & Hi & ->)|(? & ? & [=] & _)].
      by rewrite list_getitem_out_of_range.
  - rewrite getitem_slice. cbn [fst]. split.
    + destruct (list_getslice (Deck._cards self) start stop step)
        as [r|e'] eqn:E; [discriminate|].
      intros [= ->]. apply list_getslice_raises in E as [-> ->].
      right. by exists start, stop.
    + intros [(? & [=] & _)|(start' & stop' & [= <- <- ->] & ->)].
      reflexivity.
Qed.

(** X18.  Slices of a deck with a step above zero, as in [deck[:3]] and
    [deck[12::13]].  The bounds, counted from the end when negative and left
    out meaning the two ends, are clipped to [0 .. len(deck)]; the result is
    a new list holding the cards at [start], [start + step], ... short of
    [stop], the deck is as it was, and with step 1 the result is the run of
    cards from [start] to [stop]. *)
Theorem deck_slice (self : Deck.FrenchDeck) (start stop step : option Z) :
  (0 < default 1 step)%Z ->
  let cards := Deck._cards self in
  let n := len cards in
  let k := default 1%Z step in
  let clip v := (if v <? 0 then Z.max (v + n) 0 else Z.min v n)%Z in
  let s := clip (default 0%Z start) in
  let e := clip (default n stop) in
  exists r,
    Deck.__getitem__ (Slice start stop step) self = (Ok (Items r), self)
    /\ (forall i : nat,
          r !! i = if bool_decide (s + Z.of_nat i * k < e)%Z
                   then cards !! Z.to_nat (s + Z.of_nat i * k) else None)
    /\ (k = 1%Z -> r = take (Z.to_nat (e - s)) (drop (Z.to_nat s) cards)).
Proof.
  intros Hk cards n k clip s e.
  destruct (list_getslice_forward cards start stop step Hk) as (r & Hr & Hi).
  assert (forall i : nat,
            r !! i = if bool_decide (s + Z.of_nat i * k < e)%Z
                     then cards !! Z.to_nat (s + Z.of_nat i * k) else None)
    as Hi' by exact Hi.
  exists r. split; [|split].
  - rewrite getitem_slice. fold cards. by rewrite Hr.
  - exact Hi'.
  - intros Hk1. apply list_eq. intros i.
    rewrite Hi', Hk1, lookup_take, lookup_drop.
    pose proof (len_nonneg cards) as Hn. fold n in Hn.
    assert (0 <= s)%Z as Hs.
    { subst s clip. simpl. destruct (Z.ltb_spec (default 0%Z start) 0); lia. }
    clearbody s e.
    case_bool_decide as Hlt; case_decide as Hlt'; try lia; try done.
    f_equal. lia.
Qed.

Lemma deck_slice_witness :
  exists r,
    Deck.__getitem__ (Slice (Some 12%Z) None (Some 13%Z)) Deck.__init__
    = (Ok (Items r), Deck.__init__)
    /\ r !! 3%nat = Some (Deck.mkCard "A" "hearts")
    /\ r !! 4%nat = None.
Proof.
  destruct (deck_slice Deck.__init__ (Some 12%Z) None (Some 13%Z))
    as (r & Hr & Hi & _); [simpl; lia|].
  exists r. split; [exact Hr|]. split; rewrite Hi; reflexivity.
Defined.


(** X19.  [choice(deck)], whatever the random source draws below
    [len(deck)]: on an empty deck it raises [IndexError]; otherwise it
    returns one of the deck's cards.  The deck is as it was. *)
Theorem deck_choice (self : Deck.FrenchDeck) (randbelow : Z -> Z) :
  (forall n, (0 < n)%Z -> (0 <= randbelow n < n)%Z) ->
  (Deck._cards self = []
   /\ DeckUse.choice randbelow self = (Raise IndexError, self))
  \/ (exists card, card ∈ Deck._cards self
        /\ DeckUse.choice randbelow self = (Ok (Item card), self)).
Proof.
  intros Hrand. unfold DeckUse.choice, Deck.__len__. py_run.
  destruct (Deck._cards self) as [|c cards] eqn:E; [by left|]. right.
  assert (0 < len (c :: cards))%Z as Hpos by (unfold len; simpl; lia).
  destruct (Z.eqb_spec (len (c :: cards)) 0) as [?|_]; [lia|].
  specialize (Hrand _ Hpos).
  destruct (list_getitem_in_range (c :: cards) (randbelow (len (c :: cards))))
    as (card & Hc & Hg); [lia|].
  exists card. split; [by eapply list_elem_of_lookup_2|].
  rewrite getitem_index, E. by rewrite Hg.
Qed.

Lemma deck_choice_witness :
  exists card, card ∈ Deck._cards Deck.__init__
    /\ DeckUse.choice (fun n => n - 1)%Z Deck.__init__
       = (Ok (Item card), Deck.__init__).
Proof.
  destruct (deck_choice Deck.__init__ (fun n => n - 1)%Z) as [[E _]|H];
    [intros n Hn; lia|discriminate E|exact H].
Defined.


(** ** The card deck: ranking and sorting *)

Section RankingFacts.
Implicit Types (self : Deck.FrenchDeck) (card : Deck.Card).

(** [l.index(x)] is the first position of [x], and raises [ValueError] when
    there is none. *)
Lemma list_index_spec (l : list string) (x : string) :
  (x ∉ l -> list_index l x = Raise ValueError)
  /\ (x ∈ l -> exists i : nat,
        list_index l x = Ok (Z.of_nat i) /\ l !! i = Some x
        /\ forall j : nat, (j < i)%nat -> l !! j <> Some x).
Proof.
  induction l as [|y l [IHn IHy]]; simpl.
  - split; [done|]. by intros ?%elem_of_nil.
  - case_bool_decide as E.
    + subst y. split; [intros Hn; destruct Hn; by left|].
      intros _. exists 0%nat. split; [done|]. split; [done|]. lia.
    + split.
      * intros Hn. rewrite IHn; [done|]. intros ?. apply Hn. by right.
      * intros [?|Hin]%elem_of_cons; [congruence|].
        destruct (IHy Hin) as (i & -> & Hi & Hfirst).
        exists (S i). split; [simpl; f_equal; lia|]. split; [done|].
        intros [|j] Hj; simpl; [congruence|]. apply Hfirst. lia.
Qed.

Lemma bool_decide_PStr (s t : string) :
  bool_decide (PStr s = PStr t) = bool_decide (s = t).
Proof. apply bool_decide_ext. split; congruence. Qed.

Lemma find_suit_values (s : string) :
  PyDict.find Deck.suit_values (PStr s)
  = if bool_decide (s = "spades") then Some 3%Z
    else if bool_decide (s = "hearts") then Some 2%Z
    else if bool_decide (s = "diamonds") then Some 1%Z
    else if bool_decide (s = "clubs") then Some 0%Z
    else None.
Proof.
  change Deck.suit_values
    with [(PStr "spades", 3%Z); (PStr "hearts", 2%Z); (PStr "diamonds", 1%Z);
          (PStr "clubs", 0%Z)].
  cbn [PyDict.find]. rewrite !py_eq_str_l, !bool_decide_PStr. done.
Qed.

Lemma elem_of_suits (s : string) :
  s ∈ Deck.suits
  <-> s = "spades" \/ s = "diamonds" \/ s = "clubs" \/ s = "hearts".
Proof.
  change Deck.suits with ["spades"; "diamonds"; "clubs"; "hearts"].
  rewrite !elem_of_cons, elem_of_nil. tauto.
Qed.

Lemma spades_high_unknown_rank card :
  Deck.rank card ∉ Deck.ranks -> Deck.spades_high card = Raise ValueError.
Proof.
  intros Hr. unfold Deck.spades_high.
  by rewrite (proj1 (list_index_spec Deck.ranks _) Hr).
Qed.

Lemma spades_high_unknown_suit card :
  Deck.rank card ∈ Deck.ranks -> Deck.suit card ∉ Deck.suits ->
  Deck.spades_high card = Raise (KeyError (PStr (Deck.suit card))).
Proof.
  intros Hr Hs. unfold Deck.spades_high.
  destruct (proj2 (list_index_spec Deck.ranks _) Hr) as (i & -> & _).
  cbn [mbind result_bind]. unfold PyDict.getitem.
  rewrite find_suit_values. rewrite elem_of_suits in Hs.
  repeat (case_bool_decide; [tauto|]). done.
Qed.

Lemma spades_high_known card :
  card ∈ Deck._cards Deck.__init__ ->
  exists (i : nat) (v : Z),
    Deck.ranks !! i = Some (Deck.rank card) /\ (0 <= v <= 3)%Z
    /\ Deck.spades_high card = Ok (Z.of_nat i * 4 + v)%Z.
Proof.
  intros [Hr Hs]%fresh_deck_cards. unfold Deck.spades_high.
  destruct (proj2 (list_index_spec Deck.ranks _) Hr) as (i & -> & Hi & _).
  cbn [mbind result_bind]. unfold PyDict.getitem.
  rewrite find_suit_values. rewrite elem_of_suits in Hs.
  exists i.
  repeat (case_bool_decide;
          [eexists; split; [done|]; split; [|reflexivity]; lia|]).
  tauto.
Qed.

Lemma StronglySorted_map_inv {A B} (g : A -> B) (R : B -> B -> Prop)
    (l : list A) :
  StronglySorted R (map g l) -> StronglySorted (fun x y => R (g x) (g y)) l.
Proof.
  induction l as [|a l IH]; simpl; [constructor|].
  intros HS. apply StronglySorted_inv in HS as [HS Hall].
  constructor; [by apply IH|]. by rewrite Forall_fmap in Hall.
Qed.

Lemma sorted_by_raises {K A} (lt : K -> K -> bool) (good rest : list A)
    (a : A) (key : A -> result K) (e : exn) :
  Forall (fun x => exists k, key x = Ok k) good -> key a = Raise e ->
  sorted_by lt (good ++ a :: rest)%list key = Raise e.
Proof.
  intros Hgood Ha. unfold sorted_by.
  assert (mapM (fun a => k ← key a; Ok (k, a)) (good ++ a :: rest)%list
          = Raise e) as ->; [|done].
  induction Hgood as [|x good [k Hx] Hgood IH]; simpl in *.
  - by rewrite Ha.
  - rewrite Hx. simpl. by rewrite IH.
Qed.

Lemma iterate_all self (extra : nat) :
  Deck.iterate (S (length (Deck._cards self) + extra)) 0 self
  = (Ok (Some (map Item (Deck._cards self))), self).
Proof.
  destruct self as [cards].
  apply (iterate_more (S (length cards)) extra 0 _ _ _
           (iterate_from [] cards)).
Qed.

End RankingFacts.

(** X20.  [spades_high] on any card.  A rank that is not one of
    [FrenchDeck.ranks] raises [ValueError], whatever the suit; with a rank
    of the class, a suit that is not one of the four raises [KeyError] with
    that suit; and a number is returned exactly for the 52 cards of a fresh
    deck. *)
Theorem spades_high_domain (card : Deck.Card) :
  (Deck.rank card ∉ Deck.ranks -> Deck.spades_high card = Raise ValueError)
  /\ (Deck.rank card ∈ Deck.ranks -> Deck.suit card ∉ Deck.suits ->
      Deck.spades_high card = Raise (KeyError (PStr (Deck.suit card))))
  /\ ((exists v, Deck.spades_high card = Ok v)
      <-> card ∈ Deck._cards Deck.__init__).
Proof.
  split; [apply spades_high_unknown_rank|].
  split; [apply spades_high_unknown_suit|]. split.
  - intros [v Hv]. apply fresh_deck_cards.
    destruct (decide (Deck.rank card ∈ Deck.ranks)) as [Hr|Hr].
    + split; [done|].
      destruct (decide (Deck.suit card ∈ Deck.suits)) as [Hs|Hs]; [done|].
      rewrite (spades_high_unknown_suit card Hr Hs) in Hv. discriminate.
    + rewrite (spades_high_unknown_rank card Hr) in Hv. discriminate.
  - intros (i & v & _ & _ & Hv)%spades_high_known. eauto.
Qed.

Lemma spades_high_domain_witness :
  Deck.spades_high (Deck.mkCard "1" "spades") = Raise ValueError.
Proof.
  apply (proj1 (spades_high_domain (Deck.mkCard "1" "spades"))).
  apply (bool_decide_unpack _). vm_compute. exact I.
Defined.

(** X21.  [sorted(deck, key=spades_high)] on a deck of cards with ranks and
    suits of the class: the result is a new list with the same cards, every
    card ranked no higher than the cards after it, and the deck is as it
    was. *)
Theorem deck_sorted (self : Deck.FrenchDeck) (extra : nat) :
  Forall (fun card => card ∈ Deck._cards Deck.__init__) (Deck._cards self) ->
  exists r,
    DeckUse.sorted_deck (S (length (Deck._cards self) + extra)) self
    = (Ok (Some (map Item r)), self)
    /\ r ≡ₚ Deck._cards self
    /\ StronglySorted
         (fun a b => exists va vb,
            Deck.spades_high a = Ok va /\ Deck.spades_high b = Ok vb
            /\ (va <= vb)%Z) r.
Proof.
  intros Hcards.
  set (f := fun item : subscript Deck.Card =>
              match DeckUse.spades_high_item item with
              | Ok v => v
              | Raise _ => 0%Z
              end).
  destruct (sorted_by_spec Z.ltb Z_ltb_strict_total
              (map Item (Deck._cards self)) DeckUse.spades_high_item f)
    as (r' & Hr' & Hperm & Hsort & _).
  { rewrite Forall_fmap. eapply Forall_impl; [exact Hcards|].
    intros card (i & v & _ & _ & Hv)%spades_high_known.
    unfold f. simpl. by rewrite Hv. }
  destruct (Permutation_map_inv _ _ Hperm) as (r & -> & Hr).
  exists r. split; [|split].
  - unfold DeckUse.sorted_deck, mbind, Py_bind.
    rewrite iterate_all. unfold lift. by rewrite Hr'.
  - done.
  - apply StronglySorted_map_inv in Hsort.
    assert (Forall (fun card => card ∈ Deck._cards Deck.__init__) r) as Hall
      by (by rewrite <- Hr).
    clear -Hsort Hall. induction Hsort as [|a r Hs IH Hlt]; [constructor|].
    apply Forall_cons in Hall as [Ha Hall].
    constructor; [by apply IH|].
    rewrite Forall_forall in Hlt, Hall. apply Forall_forall. intros b Hb.
    destruct (spades_high_known a Ha) as (ia & va & _ & _ & Hva).
    destruct (spades_high_known b (Hall b Hb)) as (ib & vb & _ & _ & Hvb).
    exists (Z.of_nat ia * 4 + va)%Z, (Z.of_nat ib * 4 + vb)%Z.
    split; [done|]. split; [done|].
    specialize (Hlt b Hb). unfold f in Hlt. simpl in Hlt.
    rewrite Hva, Hvb in Hlt. lia.
Qed.

Lemma deck_sorted_witness :
  exists r,
    DeckUse.sorted_deck 53 Deck.__init__ = (Ok (Some (map Item r)), Deck.__init__)
    /\ r ≡ₚ Deck._cards Deck.__init__
    /\ StronglySorted
         (fun a b => exists va vb,
            Deck.spades_high a = Ok va /\ Deck.spades_high b = Ok vb
            /\ (va <= vb)%Z) r.
Proof.
  apply (deck_sorted Deck.__init__ 0). by apply Forall_forall.
Defined.

(** X22.  [sorted(deck, key=spades_high)] raises what [spades_high] raises
    on the first card of the deck it has no number for, and the deck is as
    it was. *)
Theorem deck_sorted_raises (good rest : list Deck.Card) (card : Deck.Card)
    (e : exn) (extra : nat) :
  Forall (fun c => c ∈ Deck._cards Deck.__init__) good ->
  Deck.spades_high card = Raise e ->
  let self := {| Deck._cards := (good ++ card :: rest)%list |} in
  DeckUse.sorted_deck (S (length (Deck._cards self) + extra)) self
  = (Raise e, self).
Proof.
  intros Hgood He self.
  unfold DeckUse.sorted_deck, mbind, Py_bind.
  rewrite iterate_all. unfold lift. subst self. cbn [Deck._cards].
  rewrite map_app. cbn [map].
  rewrite (sorted_by_raises Z.ltb _ _ (Item card) _ e); [done| |done].
  rewrite Forall_fmap. eapply Forall_impl; [exact Hgood|].
  intros c (i & v & _ & _ & Hv)%spades_high_known. simpl. eauto.
Qed.

Lemma deck_sorted_raises_witness :
  let self := {| Deck._cards := [Deck.mkCard "A" "spades";
                                 Deck.mkCard "1" "spades";
                                 Deck.mkCard "2" "stars"] |} in
  DeckUse.sorted_deck 4 self = (Raise ValueError, self).
Proof.
  apply (deck_sorted_raises [Deck.mkCard "A" "spades"]
           [Deck.mkCard "2" "stars"] (Deck.mkCard "1" "spades") ValueError 0).
  - apply (bool_decide_unpack _). vm_compute. exact I.
  - reflexivity.
Defined.


(** ** The 2D vector: operands that are not vectors, and the laws of the
    numbers *)

Section VectorMoreFacts.
Context {num : Type} `{Vec.Number num}.
Implicit Types (objects : Vec.store num) (self other : Vec.ref).

Lemma getattr_missing {A} objects self (field : Vec.Vector num -> A) :
  objects !! self = None ->
  Vec.getattr self field objects = (Raise AttributeError, objects).
Proof.
  intros E. unfold Vec.getattr, read, mbind, Py_bind. simpl. by rewrite E.
Qed.

Lemma add_missing_l objects self other :
  objects !! self = None ->
  Vec.__add__ self other objects = (Raise AttributeError, objects).
Proof.
  intros E. unfold Vec.__add__, mbind, Py_bind.
  by rewrite (getattr_missing _ _ _ E).
Qed.

Lemma add_missing_r objects self other :
  objects !! other = None ->
  Vec.__add__ self other objects = (Raise AttributeError, objects).
Proof.
  intros E. destruct (objects !! self) as [v|] eqn:Es;
    [|by apply add_missing_l].
  unfold Vec.__add__, mbind, Py_bind.
  rewrite (getattr_run _ _ _ _ Es). by rewrite (getattr_missing _ _ _ E).
Qed.

End VectorMoreFacts.

(** X23.  Operands that are not vectors.  [__repr__], [__abs__], [__mul__]
    and [__add__] read [x] or [y] of their operands before anything else, so
    called on an object that is not a vector the first three raise
    [AttributeError], and so does [+] when either operand is not a vector; no
    vector is created and the vectors there are stay as they were. *)
Theorem vector_not_a_vector {num : Type} `{Vec.Number num}
    (objects : Vec.store num) (self other : Vec.ref) (scalar : num) :
  objects !! other = None ->
  Vec.__repr__ other objects = (Raise AttributeError, objects)
  /\ Vec.__abs__ other objects = (Raise AttributeError, objects)
  /\ Vec.__mul__ other scalar objects = (Raise AttributeError, objects)
  /\ Vec.__add__ self other objects = (Raise AttributeError, objects)
  /\ Vec.__add__ other self objects = (Raise AttributeError, objects).
Proof.
  intros E. split; [|split; [|split; [|split]]].
  - unfold Vec.__repr__, mbind, Py_bind. by rewrite (getattr_missing _ _ _ E).
  - unfold Vec.__abs__, mbind, Py_bind. by rewrite (getattr_missing _ _ _ E).
  - unfold Vec.__mul__, mbind, Py_bind. by rewrite (getattr_missing _ _ _ E).
  - by apply add_missing_r.
  - by apply add_missing_l.
Qed.

Lemma vector_not_a_vector_witness :
  let objects := [Vec.mkVector 3%Z 4%Z] in
  Vec.__repr__ (H:=Vec.int_number) 1%nat objects
  = (Raise AttributeError, objects)
  /\ Vec.__abs__ (H:=Vec.int_number) 1%nat objects
     = (Raise AttributeError, objects)
  /\ Vec.__mul__ (H:=Vec.int_number) 1%nat 3%Z objects
     = (Raise AttributeError, objects)
  /\ Vec.__add__ (H:=Vec.int_number) 0%nat 1%nat objects
     = (Raise AttributeError, objects)
  /\ Vec.__add__ (H:=Vec.int_number) 1%nat 0%nat objects
     = (Raise AttributeError, objects).
Proof.
  intros objects.
  apply (vector_not_a_vector (H:=Vec.int_number) objects 0%nat 1%nat 3%Z).
  reflexivity.
Defined.



(** ** Example 3-1: dict comprehensions *)

Section ComprehensionFacts.
Context {V : Type}.
Implicit Types (d acc : PyDict.dict V) (entries : list (pyval * V)).

(** Storing entries whose keys are new and differ from each other appends
    them. *)
Lemma fold_setitem_fresh entries acc :
  NoDup (map (fun kv => as_number (fst kv)) entries) ->
  Forall (fun kv => PyDict.find acc (fst kv) = None) entries ->
  fold_left (fun d kv => PyDict.setitem d (fst kv) (snd kv)) entries acc
  = (acc ++ entries)%list.
Proof.
  revert acc. induction entries as [|[k v] entries IH]; intros acc Hnd Hacc.
  - by rewrite app_nil_r.
  - apply NoDup_cons in Hnd as [Hk Hnd]. apply Forall_cons in Hacc as [Hf Hacc].
    simpl in *. rewrite IH; [| done |].
    + rewrite (keys_setitem_absent _ _ _ Hf), <- app_assoc. done.
    + rewrite Forall_forall in Hacc. apply Forall_forall. intros [k' v'] Hin.
      rewrite find_setitem, py_eq_as_number. simpl.
      rewrite bool_decide_eq_false_2; [by apply (Hacc _ Hin)|].
      intros Heq. apply Hk. rewrite Heq.
      apply list_elem_of_fmap. by exists (k', v').
Qed.

End ComprehensionFacts.

Lemma country_code_fold (pairs : list (Z * string)) (acc : PyDict.dict Z) :
  fold_left (fun d '(code, country) => PyDict.setitem d (PStr country) code)
            pairs acc
  = fold_left (fun d kv => PyDict.setitem d (fst kv) (snd kv))
              (map (fun p => (PStr (snd p), fst p)) pairs) acc.
Proof.
  revert acc. induction pairs as [|[code country] pairs IH]; intros acc;
    [done|]. simpl. by rewrite IH.
Qed.

Lemma code_country_fold (d : list (pyval * Z)) (acc : PyDict.dict string) :
  Forall (fun k => isinstance_str k = true) (PyDict.keys d) ->
  fold_left (fun acc '(country, code) =>
               d ← acc;
               if (code <? 66)%Z
               then name ← DialCodes.upper country;
                    Ok (PyDict.setitem d (PInt code) name)
               else Ok d) d (Ok acc)
  = Ok (fold_left (fun d kv => PyDict.setitem d (fst kv) (snd kv))
          (map (fun kv => (PInt (snd kv), WordIndex.upper (str (fst kv))))
               (filter (fun kv => (snd kv < 66)%Z) d)) acc).
Proof.
  revert acc. induction d as [|[k code] d IH]; intros acc Hstr; [done|].
  apply Forall_cons in Hstr as [Hk Hstr]. destruct k; try discriminate.
  rewrite filter_cons.
  match goal with |- fold_left ?f _ _ = _ => set (step := f) end.
  cbn [fold_left].
  change (step (Ok acc) (PStr s, code))
    with (if (code <? 66)%Z
          then Ok (PyDict.setitem acc (PInt code) (WordIndex.upper s))
          else Ok acc).
  subst step. cbn [snd]. destruct (Z.ltb_spec code 66) as [Hlt|Hge].
  - rewrite decide_True by done. by rewrite IH.
  - rewrite decide_False by lia. by rewrite IH.
Qed.

(** X25.  The two dict comprehensions of Example 3-1, on any list of
    (code, country) pairs whose codes differ from each other and whose
    countries do: the first dict holds an entry country: code for every pair,
    in the order of the list, and the second an entry code: COUNTRY for every
    pair with a code below 66, in that order, and no other. *)
Theorem dict_comprehensions (pairs : list (Z * string)) :
  NoDup (map fst pairs) -> NoDup (map snd pairs) ->
  DialCodes.country_code pairs = map (fun p => (PStr (snd p), fst p)) pairs
  /\ DialCodes.code_country (DialCodes.country_code pairs)
     = Ok (map (fun p => (PInt (fst p), WordIndex.upper (snd p)))
               (filter (fun p => (fst p < 66)%Z) pairs)).
Proof.
  intros Hcodes Hcountries.
  assert (DialCodes.country_code pairs
          = map (fun p => (PStr (snd p), fst p)) pairs) as Hfirst.
  { unfold DialCodes.country_code.
    rewrite country_code_fold, fold_setitem_fresh; [done| |].
    - rewrite map_map. simpl.
      rewrite <- (map_map snd PStr). apply NoDup_fmap_2; [|done].
      by intros ? ? [= ->].
    - by apply Forall_forall. }
  split; [done|]. rewrite Hfirst. unfold DialCodes.code_country.
  rewrite code_country_fold.
  2:{ unfold PyDict.keys. rewrite map_map. simpl. by apply Forall_fmap, Forall_forall. }
  assert (map (fun kv : pyval * Z => (PInt (snd kv), WordIndex.upper (str (fst kv))))
            (filter (fun kv => (snd kv < 66)%Z)
                    (map (fun p : Z * string => (PStr (snd p), fst p)) pairs))
          = map (fun p => (PInt (fst p), WordIndex.upper (snd p)))
                (filter (fun p => (fst p < 66)%Z) pairs)) as ->.
  { rewrite filter_map_commute, map_map. done. }
  rewrite fold_setitem_fresh; [done| |by apply Forall_forall].
  rewrite map_map. simpl. rewrite <- (map_map fst PInt).
  apply NoDup_fmap_2; [by intros ? ? [= ->]|].
  clear -Hcodes. induction pairs as [|p pairs IH]; [constructor|].
  apply NoDup_cons in Hcodes as [Hp Hcodes]. rewrite filter_cons.
  case_decide; [|by apply IH]. simpl. apply NoDup_cons. split; [|by apply IH].
  intros (q & Hq & [_ Hin]%list_elem_of_filter)%list_elem_of_fmap.
  apply Hp. rewrite Hq. apply list_elem_of_fmap. by exists q.
Qed.

Lemma dict_comprehensions_witness :
  DialCodes.country_code DialCodes.DIAL_CODES
  = map (fun p => (PStr (snd p), fst p)) DialCodes.DIAL_CODES
  /\ DialCodes.code_country (DialCodes.country_code DialCodes.DIAL_CODES)
     = Ok [(PInt 1, "UNITED STATES"); (PInt 62, "INDONESIA");
           (PInt 55, "BRAZIL"); (PInt 7, "RUSSIA")].
Proof.
  apply (dict_comprehensions DialCodes.DIAL_CODES);
    apply (bool_decide_unpack _); vm_compute; exact I.
Defined.


Example str_int : str (PInt 13) = "13" /\ str (PInt (-7)) = "-7" /\ str (PInt 0) = "0".
Proof. repeat split; reflexivity. Qed.

Example strkeydict_demo :
  let d := StrKeyDict.__init__ (Some [(PInt 2, "two"); (PStr "4", "four")]) [] in
  StrKeyDict.__getitem__ 2 d (PInt 2) = Some (Ok "two")
  /\ StrKeyDict.__getitem__ 2 d (PStr "4") = Some (Ok "four")
  /\ StrKeyDict.__getitem__ 2 d (PInt 1) = Some (Raise (KeyError (PStr "1")))
  /\ StrKeyDict.__getitem__ 1 d (PInt 2) = None
  /\ StrKeyDict.__contains__ d (PInt 2) = Ok true.
Proof. repeat split; reflexivity. Qed.

Example deck_demo :
  Deck.ranks = ["2";"3";"4";"5";"6";"7";"8";"9";"10";"J";"Q";"K";"A"]
  /\ Deck.suits = ["spades"; "diamonds"; "clubs"; "hearts"]
  /\ fst (Deck.__getitem__ (Index 0) Deck.__init__)
     = Ok (Item (Deck.mkCard "2" "spades"))
  /\ fst (Deck.__getitem__ (Index (-1)) Deck.__init__)
     = Ok (Item (Deck.mkCard "A" "hearts"))
  /\ fst (Deck.__getitem__ (Index 52) Deck.__init__) = Raise IndexError
  /\ fst (Deck.__getitem__ (Index (-53)) Deck.__init__) = Raise IndexError
  /\ fst (Deck.__getitem__ (Slice None (Some 3%Z) None) Deck.__init__)
     = Ok (Items [Deck.mkCard "2" "spades"; Deck.mkCard "3" "spades";
                  Deck.mkCard "4" "spades"])
  /\ fst (Deck.__getitem__ (Slice (Some 12%Z) None (Some 13%Z)) Deck.__init__)
     = Ok (Items [Deck.mkCard "A" "spades"; Deck.mkCard "A" "diamonds";
                  Deck.mkCard "A" "clubs"; Deck.mkCard "A" "hearts"])
  /\ list_getslice [0; 1; 2; 3; 4]%Z None None (Some (-2)%Z) = Ok [4; 2; 0]%Z
  /\ list_getslice [0; 1; 2; 3; 4]%Z (Some (-2)%Z) (Some 9%Z) None = Ok [3; 4]%Z
  /\ list_getslice [0; 1; 2; 3; 4]%Z (Some 3%Z) (Some 0%Z) (Some (-1)%Z)
     = Ok [3; 2; 1]%Z
  /\ list_getslice [0; 1; 2; 3; 4]%Z (Some (-9)%Z) (Some 2%Z) None = Ok [0; 1]%Z
  /\ list_getslice [0; 1; 2; 3; 4]%Z (Some 9%Z) (Some 1%Z) (Some (-2)%Z)
     = Ok [4; 2]%Z
  /\ list_getslice [0; 1; 2; 3; 4]%Z None (Some (-9)%Z) (Some (-1)%Z)
     = Ok [4; 3; 2; 1; 0]%Z
  /\ list_getslice [0; 1; 2]%Z None None (Some 0%Z) = Raise ValueError
  /\ fst (Deck.iterate 53 0 Deck.__init__)
     = Ok (Some (map Item (Deck._cards Deck.__init__)))
  /\ fst (Deck.iterate 52 0 Deck.__init__) = Ok None
  /\ Deck.spades_high (Deck.mkCard "Q" "hearts") = Ok 42%Z
  /\ Deck.spades_high (Deck.mkCard "7" "beasts") = Raise (KeyError (PStr "beasts")).
Proof. repeat split; reflexivity. Qed.

Example vector_demo :
  let run := (v1 ← Vec.__init__ (H:=Vec.int_number) (Some 2%Z) (Some 4%Z);
              v2 ← Vec.__init__ (Some 2%Z) (Some 1%Z);
              v3 ← Vec.__add__ v1 v2;
              v ← Vec.__init__ (Some 3%Z) None;
              v4 ← Vec.__mul__ v 3%Z;
              a ← Vec.__repr__ v3;
              b ← Vec.__repr__ v4;
              c ← Vec.__bool__ v;
              d ← Vec.__init__ None None;
              e ← Vec.__bool__ d;
              mret (a, b, c, e)) in
  fst (run []) = Ok ("Vector(4, 5)", "Vector(9, 0)", true, false).
Proof. reflexivity. Qed.

Example sorted_demo :
  WordIndex.sorted [PStr "b"; PStr "A"; PStr "a"; PStr "B"; PStr "_"]
    WordIndex.str_upper
  = Ok [PStr "A"; PStr "a"; PStr "b"; PStr "B"; PStr "_"]
  /\ WordIndex.sorted [PStr "b"; PInt 1] WordIndex.str_upper = Raise TypeError.
Proof. split; reflexivity. Qed.

Example index_demo :
  let fp := ["a b_1  a"; "B, a!"] in
  let s2 := snd (WordIndex.index_get_py fp WordIndex.initial) in
  let s5 := snd (WordIndex.index_default_py fp WordIndex.initial) in
  WordIndex.stdout s2 = ["a [(1, 1), (1, 8), (2, 4)]"; "B [(2, 1)]"; "b_1 [(1, 3)]"]
  /\ WordIndex.stdout s5 = WordIndex.stdout s2
  /\ length (WordIndex.heap s2) = 5%nat
  /\ length (WordIndex.heap s5) = 3%nat.
Proof. repeat split; vm_compute; reflexivity. Qed.
